(** * Agent CLI: response parser, ReAct loop and parallel orchestrator

    A shallow embedding of [agent-cli/agent.py] (class [AgentWorker]),
    of the alternate parser of [agent-cli/agent_fixed.py] and of
    [agent-cli/orchestrator.py] (class [MultiAgentOrchestrator]).

    Conventions of the model.
    - A Python [str] is a list of code points (type [N]).  String
      literals are written as Rocq strings and coerced to such lists.
    - A Python exception is a value [Raise e] of the result type [Exc];
      [try]/[except] is [try_except].  Operations that can raise in
      Python (indexing a list, [json.loads]) are fallible here.
    - [print] is fallible: it raises when the console cannot encode a
      character of the text.  What is written is not kept.
    - The language model, the tool backend and the dashboard are
      external: they are functions over an abstract world state.  What
      the model replies is the [content] field of a JSON document, a
      string or any other JSON value. *)

From Stdlib Require Import List Arith Lia Bool ZArith.
From Stdlib Require Import Strings.Ascii Strings.String Numbers.DecimalString.
From Stdlib Require Import Sorting.Permutation Sorting.Sorted.
Import ListNotations.
Open Scope string_scope.
Open Scope list_scope.
Open Scope nat_scope.

Set Implicit Arguments.

(** ** Python strings *)

Definition char := N.
Definition str := list char.

Definition lit (s : string) : str := map N_of_ascii (list_ascii_of_string s).
Coercion lit : string >-> str.

(** [chr(10)], the newline the parser splits lines at. *)
Definition NL : str := [10%N].

(** The double quote, and a text between double quotes. *)
Definition DQ : str := [34%N].
Definition quoted (s : str) : str := DQ ++ s ++ DQ.

Module Py.

(** [x == y] on characters. *)
Definition ch_eqb (a b : char) : bool := N.eqb a b.

(** The code points [str.isspace] accepts, which [strip] removes: TAB,
    LF, VT, FF, CR, the separators 0x1c-0x1f, SPACE, NEL, NBSP, and the
    Unicode spaces U+1680, U+2000-U+200A, U+2028, U+2029, U+202F,
    U+205F, U+3000. *)
Definition is_space (c : char) : bool :=
  (((9 <=? c) && (c <=? 13)) || ((28 <=? c) && (c <=? 32))
   || (c =? 133) || (c =? 160) || (c =? 5760)
   || ((8192 <=? c) && (c <=? 8202)) || (c =? 8232) || (c =? 8233)
   || (c =? 8239) || (c =? 8287) || (c =? 12288))%N.

(** [s.startswith(p)]. *)
Fixpoint startswith (p s : str) : bool :=
  match p, s with
  | [], _ => true
  | _ :: _, [] => false
  | a :: p', b :: s' => ch_eqb a b && startswith p' s'
  end.

(** [m in s]. *)
Fixpoint contains (m s : str) : bool :=
  match s with
  | [] => startswith m []
  | _ :: s' => startswith m s || contains m s'
  end.

(** [s.lstrip()], [s.rstrip()], [s.strip()]. *)
Fixpoint lstrip (s : str) : str :=
  match s with
  | c :: s' => if is_space c then lstrip s' else s
  | [] => []
  end.

Definition rstrip (s : str) : str := rev (lstrip (rev s)).

Definition strip (s : str) : str := rstrip (lstrip s).

(** [s.split(sep, maxsplit)] for a non-empty separator: [maxsplit] is
    [None] for Python's default of -1 (no limit).  [skip] counts the
    characters of a separator just matched that are still to be
    dropped, [cur] is the piece being read, reversed. *)
Definition may_split (maxsplit : option nat) : bool :=
  match maxsplit with
  | Some 0 => false
  | _ => true
  end.

Definition dec_split (maxsplit : option nat) : option nat :=
  option_map pred maxsplit.

Fixpoint split_aux (sep : str) (maxsplit : option nat) (skip : nat)
    (cur : str) (s : str) : list str :=
  match s with
  | [] => [rev cur]
  | c :: s' =>
      match skip with
      | S k => split_aux sep maxsplit k cur s'
      | 0 =>
          if may_split maxsplit && startswith sep s
          then rev cur :: split_aux sep (dec_split maxsplit) (List.length sep - 1) [] s'
          else split_aux sep maxsplit 0 (c :: cur) s'
      end
  end.

Definition split (sep : str) (maxsplit : option nat) (s : str) : list str :=
  split_aux sep maxsplit 0 [] s.

(** [s.replace(old, new)] for a non-empty [old]. *)
Fixpoint replace_aux (old new : str) (skip : nat) (s : str) : str :=
  match s with
  | [] => []
  | c :: s' =>
      match skip with
      | S k => replace_aux old new k s'
      | 0 =>
          if startswith old s
          then new ++ replace_aux old new (List.length old - 1) s'
          else c :: replace_aux old new 0 s'
      end
  end.

Definition replace (old new : str) (s : str) : str := replace_aux old new 0 s.

(** [s.lower()], character by character: A-Z and the Latin-1 capitals
    0xC0-0xDE (0xD7, the multiplication sign, excepted) move up by 32.
    This is [str.lower] on the texts of Latin-1, see [latin1]; the case
    mapping of the code points above U+00FF is left out, they are kept
    as they are. *)
Definition lower_char (c : char) : char :=
  (if ((65 <=? c) && (c <=? 90))
      || ((192 <=? c) && (c <=? 222) && negb (c =? 215))
   then c + 32 else c)%N.

Definition lower (s : str) : str := map lower_char s.

(** The texts whose code points are all below U+0100, on which [lower]
    is [str.lower]. *)
Definition latin1 (s : str) : bool := forallb (fun c => (c <? 256)%N) s.

End Py.

(** ** Exceptions

    A Python computation either returns a value or raises; [e] is the
    text of the exception ([str(e)]). *)

Inductive Exc (A : Type) : Type :=
| Ok (a : A)
| Raise (e : str).

Arguments Ok {A} a.
Arguments Raise {A} e.

Definition bind {A B : Type} (m : Exc A) (k : A -> Exc B) : Exc B :=
  match m with
  | Ok a => k a
  | Raise e => Raise e
  end.

(** [try: m  except ... as e: h e]. *)
Definition try_except {A : Type} (m : Exc A) (h : str -> Exc A) : Exc A :=
  match m with
  | Ok a => Ok a
  | Raise e => h e
  end.

Notation "x <- m ;; k" := (bind m (fun x => k))
  (at level 61, m at next level, right associativity).

Notation "m ;; k" := (bind m (fun _ => k))
  (at level 61, right associativity).

(** [l[i]] on a list: [IndexError] when out of range. *)
Definition index {A : Type} (l : list A) (i : nat) : Exc A :=
  match nth_error l i with
  | Some a => Ok a
  | None => Raise (lit "list index out of range")
  end.

(** ** The console

    [print] encodes its text for [sys.stdout] and raises
    [UnicodeEncodeError] at a character the encoding of the console
    does not have.  A console is known by the characters it can
    encode.  The other ways a stream can fail, a closed pipe for
    one, are left out. *)

Class Console : Type := { can_encode : char -> bool }.

(** A text the console can show. *)
Definition encodable {console : Console} (s : str) : bool :=
  forallb can_encode s.

(** [print(s)]: the text, then a newline. *)
Definition print {console : Console} (s : str) : Exc unit :=
  if encodable (s ++ NL) then Ok tt
  else Raise (lit "codec can't encode character").

(** The characters of ASCII, and whether the console has them all. *)
Definition ascii_chars : str := map N.of_nat (seq 0 128).

Definition has_ascii {console : Console} : bool := encodable ascii_chars.

(** A UTF-8 console: every code point but the surrogates
    U+D800-U+DFFF.  It is the console of the examples. *)
#[global] Instance utf8_console : Console | 100 :=
  {| can_encode := fun c => negb ((55296 <=? c) && (c <=? 57343))%N |}.

(** A Latin-1 console: the code points up to U+00FF. *)
Definition latin1_console : Console :=
  {| can_encode := fun c => (c <? 256)%N |}.

(** ** JSON values and [json.loads]

    The Python objects [json.loads] builds.  A float keeps the text it
    was read from (its IEEE value is not modelled); a dict is the list
    of its items in insertion order, without duplicate keys. *)

Module Json.

#[warnings="-register-all"]
Inductive json : Type :=
| JNull                               (* None *)
| JBool (b : bool)
| JInt (z : Z)
| JFloat (lexeme : str)
| JStr (s : str)
| JList (l : list json)
| JDict (d : list (str * json)).

Fixpoint str_eqb (a b : str) : bool :=
  match a, b with
  | [], [] => true
  | x :: a', y :: b' => Py.ch_eqb x y && str_eqb a' b'
  | _, _ => false
  end.

(** [d[key] = v]: replaces the value of a key already there, in place. *)
Fixpoint dict_set (key : str) (v : json) (d : list (str * json)) : list (str * json) :=
  match d with
  | [] => [(key, v)]
  | (k, x) :: d' =>
      if str_eqb k key then (k, v) :: d' else (k, x) :: dict_set key v d'
  end.

(** [d.get(key)], [None] when the key is absent. *)
Fixpoint dict_get (key : str) (d : list (str * json)) : option json :=
  match d with
  | [] => None
  | (k, x) :: d' => if str_eqb k key then Some x else dict_get key d'
  end.

Definition is_ws (c : char) : bool :=
  ((c =? 32) || (c =? 9) || (c =? 10) || (c =? 13))%N.

Fixpoint skip_ws (s : str) : str :=
  match s with
  | c :: s' => if is_ws c then skip_ws s' else s
  | [] => []
  end.

Definition is_digit (c : char) : bool := ((48 <=? c) && (c <=? 57))%N.

Fixpoint take_digits (s : str) : str * str :=
  match s with
  | c :: s' =>
      if is_digit c then let (ds, r) := take_digits s' in (c :: ds, r)
      else ([], s)
  | [] => ([], [])
  end.

Definition digits_value (ds : str) : Z :=
  fold_left (fun acc c => (acc * 10 + Z.of_N (c - 48))%Z) ds 0%Z.

(** The integer part: [0], or a non-zero digit and the digits after it. *)
Definition int_part (s : str) : option (str * str) :=
  match s with
  | c :: s' =>
      if (c =? 48)%N then Some ([c], s')
      else if is_digit c then let (ds, r) := take_digits s' in Some (c :: ds, r)
      else None
  | [] => None
  end.

(** [.] followed by at least one digit, else nothing is read. *)
Definition frac_part (s : str) : str * str :=
  match s with
  | dot :: d :: s' =>
      if (dot =? 46)%N && is_digit d
      then let (ds, r) := take_digits s' in (dot :: d :: ds, r)
      else ([], s)
  | _ => ([], s)
  end.

(** [e] or [E], an optional sign, at least one digit, else nothing. *)
Definition exp_part (s : str) : str * str :=
  match s with
  | e :: s1 =>
      if ((e =? 101) || (e =? 69))%N then
        let (sign, s2) :=
          match s1 with
          | g :: s2 => if ((g =? 43) || (g =? 45))%N then ([g], s2) else ([], s1)
          | [] => ([], s1)
          end in
        match take_digits s2 with
        | ([], _) => ([], s)
        | (ds, r) => (e :: sign ++ ds, r)
        end
      else ([], s)
  | [] => ([], s)
  end.

(** A number.  An integer of more than 4300 digits is refused, as
    [int] refuses it ([sys.get_int_max_str_digits()]). *)
Definition scan_number (s : str) : option (json * str) :=
  let (sign, s1) :=
    match s with
    | m :: s1 => if (m =? 45)%N then (true, s1) else (false, s)
    | [] => (false, s)
    end in
  match int_part s1 with
  | None => None
  | Some (ip, s2) =>
      let (fp, s3) := frac_part s2 in
      let (ep, s4) := exp_part s3 in
      match fp, ep with
      | [], [] =>
          if 4300 <? List.length ip then None
          else Some (JInt (if sign then (- digits_value ip)%Z
                           else digits_value ip), s4)
      | _, _ =>
          Some (JFloat ((if sign then [45%N] else []) ++ ip ++ fp ++ ep), s4)
      end
  end.

Definition hexval (c : char) : option N :=
  (if (48 <=? c) && (c <=? 57) then Some (c - 48)
   else if (97 <=? c) && (c <=? 102) then Some (c - 87)
   else if (65 <=? c) && (c <=? 70) then Some (c - 55)
   else None)%N.

Definition hex4 (a b c d : char) : option N :=
  match hexval a, hexval b, hexval c, hexval d with
  | Some x, Some y, Some z, Some w => Some (((x * 16 + y) * 16 + z) * 16 + w)%N
  | _, _, _, _ => None
  end.

Definition is_high_surrogate (u : N) : bool := ((55296 <=? u) && (u <=? 56319))%N.
Definition is_low_surrogate (u : N) : bool := ((56320 <=? u) && (u <=? 57343))%N.

(** The simple escapes after a backslash. *)
Definition unescape (c : char) : option char :=
  (if c =? 34 then Some 34        (* quote *)
   else if c =? 92 then Some 92   (* backslash *)
   else if c =? 47 then Some 47   (* slash *)
   else if c =? 98 then Some 8    (* b *)
   else if c =? 102 then Some 12  (* f *)
   else if c =? 110 then Some 10  (* n *)
   else if c =? 114 then Some 13  (* r *)
   else if c =? 116 then Some 9   (* t *)
   else None)%N.

(** The body of a string after its opening quote, in strict mode: the
    decoded text and what follows the closing quote.  [acc] is the text
    decoded so far, reversed. *)
Fixpoint scanstring (s : str) (acc : str) : option (str * str) :=
  match s with
  | [] => None
  | c :: s1 =>
      if (c =? 34)%N then Some (rev acc, s1)
      else if (c <=? 31)%N then None
      else if (c =? 92)%N then
        match s1 with
        | [] => None
        | e :: s2 =>
            if (e =? 117)%N then
              match s2 with
              | h1 :: h2 :: h3 :: h4 :: s3 =>
                  match hex4 h1 h2 h3 h4 with
                  | None => None
                  | Some u =>
                      match s3 with
                      | b :: v :: l1 :: l2 :: l3 :: l4 :: s4 =>
                          match hex4 l1 l2 l3 l4 with
                          | Some lo =>
                              if is_high_surrogate u && (b =? 92)%N && (v =? 117)%N
                                 && is_low_surrogate lo
                              then scanstring s4
                                     ((65536 + (u - 55296) * 1024 + (lo - 56320))%N :: acc)
                              else scanstring s3 (u :: acc)
                          | None => scanstring s3 (u :: acc)
                          end
                      | _ => scanstring s3 (u :: acc)
                      end
                  end
              | _ => None
              end
            else
              match unescape e with
              | Some x => scanstring s2 (x :: acc)
              | None => None
              end
        end
      else scanstring s1 (c :: acc)
  end.

(** One JSON value at the head of [s] and the rest of the input.  The
    nesting is bounded by [fuel]; [None] stands for the exception
    raised, [JSONDecodeError] or the [ValueError] of a long integer. *)
Fixpoint scan_once (fuel : nat) (s : str) : option (json * str) :=
  match fuel with
  | 0 => None
  | S fuel' =>
      match s with
      | [] => None
      | c :: s' =>
          if (c =? 34)%N then
            match scanstring s' [] with
            | Some (x, r) => Some (JStr x, r)
            | None => None
            end
          else if (c =? 123)%N then
            match skip_ws s' with
            | c1 :: r1 =>
                if (c1 =? 125)%N then Some (JDict [], r1)
                else members fuel' (skip_ws s') []
            | [] => None
            end
          else if (c =? 91)%N then
            match skip_ws s' with
            | c1 :: r1 =>
                if (c1 =? 93)%N then Some (JList [], r1)
                else elements fuel' (skip_ws s') []
            | [] => None
            end
          else if Py.startswith "null" s then Some (JNull, skipn 4 s)
          else if Py.startswith "true" s then Some (JBool true, skipn 4 s)
          else if Py.startswith "false" s then Some (JBool false, skipn 5 s)
          else if Py.startswith "NaN" s then Some (JFloat "NaN", skipn 3 s)
          else if Py.startswith "Infinity" s then Some (JFloat "Infinity", skipn 8 s)
          else if Py.startswith "-Infinity" s then Some (JFloat "-Infinity", skipn 9 s)
          else scan_number s
      end
  end

with members (fuel : nat) (s : str) (acc : list (str * json)) : option (json * str) :=
  match fuel with
  | 0 => None
  | S fuel' =>
      match s with
      | q :: s1 =>
          if (q =? 34)%N then
            match scanstring s1 [] with
            | None => None
            | Some (key, s2) =>
                match skip_ws s2 with
                | colon :: s3 =>
                    if (colon =? 58)%N then
                      match scan_once fuel' (skip_ws s3) with
                      | None => None
                      | Some (v, s4) =>
                          let acc' := dict_set key v acc in
                          match skip_ws s4 with
                          | d :: s5 =>
                              if (d =? 125)%N then Some (JDict acc', s5)
                              else if (d =? 44)%N then members fuel' (skip_ws s5) acc'
                              else None
                          | [] => None
                          end
                      end
                    else None
                | [] => None
                end
            end
          else None
      | [] => None
      end
  end

with elements (fuel : nat) (s : str) (acc : list json) : option (json * str) :=
  match fuel with
  | 0 => None
  | S fuel' =>
      match scan_once fuel' s with
      | None => None
      | Some (v, s1) =>
          match skip_ws s1 with
          | d :: s2 =>
              if (d =? 93)%N then Some (JList (acc ++ [v]), s2)
              else if (d =? 44)%N then elements fuel' (skip_ws s2) (acc ++ [v])
              else None
          | [] => None
          end
      end
  end.

(** [json.loads(s)]: one value between optional whitespace, nothing
    after it.  The fuel is more than any parse of [s] uses: the
    [RecursionError] of a document nested deeper than the interpreter
    allows is not modelled, see [open_brackets]. *)
Definition loads (s : str) : Exc json :=
  match scan_once (2 * List.length s + 2) (skip_ws s) with
  | Some (v, r) =>
      match skip_ws r with
      | [] => Ok v
      | _ :: _ => Raise (lit "Extra data")
      end
  | None => Raise (lit "Expecting value")
  end.

End Json.

Import Json.

(** A Python [str] is an object like any other. *)
Coercion JStr : str >-> json.

(** ** The response parser of [agent.py]

    [AgentWorker.parse_response] returns a dict whose ["type"] is one of
    ["tool"], ["answer"], ["thought"], ["error"]; one constructor per
    shape of that dict. *)

Inductive Parsed : Type :=
| PTool (tool : str) (args : json)
| PAnswer (content : str)
| PThought (content : str)
| PError (content : str).

(** [parsed["type"]]. *)
Definition ptype (p : Parsed) : str :=
  match p with
  | PTool _ _ => "tool"
  | PAnswer _ => "answer"
  | PThought _ => "thought"
  | PError _ => "error"
  end.

Module Agent.

(** The brace-matching loop over [enumerate(args_part)]: the value of
    [json_end] when the loop is left, 0 when it runs to the end. *)
Fixpoint brace_scan (args_part : str) (idx : nat) (brace_count : Z)
    (started : bool) : nat :=
  match args_part with
  | [] => 0
  | ch :: rest =>
      let '(brace_count, started) :=
        if (ch =? 123)%N then ((brace_count + 1)%Z, true)
        else if (ch =? 125)%N then ((brace_count - 1)%Z, started)
        else (brace_count, started) in
      if started && (brace_count =? 0)%Z then idx + 1
      else brace_scan rest (idx + 1) brace_count started
  end.

(** The inner [try] block: the text handed to [json.loads], decoded. *)
Definition load_args (args_part : str) : Exc json :=
  let json_end := brace_scan args_part 0 0%Z false in
  json_str <- (if 0 <? json_end then Ok (firstn json_end args_part)
               else index (Py.split NL None args_part) 0) ;;
  let json_str :=
    Py.strip (Py.replace "```" [] (Py.replace "```json" [] json_str)) in
  Json.loads json_str.

(** The outer [try] block of the [TOOL:] branch. *)
Definition parse_tool_call (response : str) : Exc Parsed :=
  after <- index (Py.split "TOOL:" (Some 1) response) 1 ;;
  first <- index (Py.split NL None after) 0 ;;
  let tool_line := Py.strip first in
  tool_line <- (if Py.contains "(" tool_line
                then (head <- index (Py.split "(" None tool_line) 0 ;;
                      Ok (Py.strip head))
                else Ok tool_line) ;;
  args_part <- (if Py.contains "ARGS:" response
                then (a <- index (Py.split "ARGS:" (Some 1) response) 1 ;;
                      Ok (Py.strip a))
                else Ok (lit "{}")) ;;
  args <- try_except (load_args args_part)
            (fun _ => first <- index (Py.split NL None args_part) 0 ;;
                      Ok (JDict [(lit "raw", JStr first)])) ;;
  Ok (PTool tool_line args).

Definition raw_patterns : list str :=
  [lit "docker ps"; lit "docker logs"; lit "systemctl"; lit "kubectl";
   lit "curl "; lit "git status"; lit "nmap "; lit "ipconfig"].

Definition raw_prefixes : list str :=
  [lit "let me run "; lit "running "; lit "execute "].

(** The command of the raw-command fallback: the first line, with the
    filler prefixes taken off one after the other. *)
Definition raw_command (response : str) : Exc str :=
  first <- index (Py.split NL None response) 0 ;;
  Ok (fold_left
        (fun cmd prefix =>
           if Py.startswith prefix (Py.lower cmd)
           then skipn (List.length prefix) cmd else cmd)
        raw_prefixes (Py.strip first)).

(** The line the raw-command fallback prints. *)
Definition fallback_line (cmd : str) : str :=
  lit "[FALLBACK] Routing raw command: " ++ firstn 50 cmd.

Definition parse_response {console : Console} (response : str) : Exc Parsed :=
  let response := Py.strip response in
  if Py.contains "TOOL:" response then
    try_except (parse_tool_call response)
      (fun e => Ok (PError (lit "Failed to parse tool call: " ++ e)))
  else if Py.contains "ANSWER:" response then
    answer <- index (Py.split "ANSWER:" (Some 1) response) 1 ;;
    Ok (PAnswer (Py.strip answer))
  else if existsb (fun p => Py.contains (Py.lower p) (Py.lower response))
            raw_patterns then
    cmd <- raw_command response ;;
    print (fallback_line cmd) ;;
    Ok (PTool "run_command" (JDict [(lit "command", JStr cmd)]))
  else Ok (PThought response).

End Agent.

(** ** The ReAct loop of [agent.py] *)

(** [sep.join(pieces)]. *)
Fixpoint join (sep : str) (pieces : list str) : str :=
  match pieces with
  | [] => []
  | [p] => p
  | p :: rest => p ++ sep ++ join sep rest
  end.

Definition unlines (lines : list str) : str := join NL lines.

(** A chat message [{"role": .., "content": ..}]. *)
Record Message : Type := { role : str; content : json }.

(** An item of [self.history]. *)
Record HistoryItem : Type :=
  { iteration : nat; response : str; parsed : Parsed }.

(** The dict [run] returns, and the one [execute_parallel] builds for an
    agent that raised. *)
Inductive Result : Type :=
| Complete (agent_id : str) (answer : str) (iterations : nat)
| MaxIterations (agent_id : str) (partial_history : list HistoryItem)
    (iterations : nat)
| AgentError (answer : str) (iterations : nat).

(** [result["status"]] and [result["iterations"]]. *)
Definition status (r : Result) : str :=
  match r with
  | Complete _ _ _ => "complete"
  | MaxIterations _ _ _ => "max_iterations"
  | AgentError _ _ => "error"
  end.

Definition iterations (r : Result) : nat :=
  match r with
  | Complete _ _ n => n
  | MaxIterations _ _ n => n
  | AgentError _ n => n
  end.

(** The dict a method of [MCPClient] returns. *)
Record ToolResult : Type :=
  { success : bool; stdout : str; stderr : option str; error : option str }.

(** The collaborators outside the program, over a state [W] of the
    outside world: the console; the completion endpoint behind
    [query_llm], which catches what its request raises and returns the
    [content] of the first choice as it was decoded, or an error text;
    the methods of [MCPClient] (by name, with their arguments), which
    may raise; the dashboard behind [log_to_dashboard], which catches
    what its request raises and is taken to return, the two lines it
    prints being part of the outside world; and Python's [str(x)] on
    objects other than strings. *)
Class World (W : Type) : Type :=
  { console :: Console;
    query_llm : str -> list Message -> W -> json * W;
    mcp : str -> list json -> W -> Exc ToolResult * W;
    log_to_dashboard : str -> json -> str -> Result -> W -> W;
    py_str : json -> str }.

(** The fields of an [AgentWorker] that [run] reads or writes. *)
Record AgentWorker : Type :=
  { agent_id : str;
    model : str;
    history : list HistoryItem;
    max_iterations : nat }.

(** [AgentWorker(agent_id, model)]: the fields [run] works with.  The
    tool client the constructor creates is part of the outside
    world. *)
Definition init (agent_id model : str) : AgentWorker :=
  {| agent_id := agent_id; model := model; history := [];
     max_iterations := 10 |}.

Definition set_history (a : AgentWorker) (h : list HistoryItem) : AgentWorker :=
  {| agent_id := agent_id a; model := model a; history := h;
     max_iterations := max_iterations a |}.

(** [l[-n:]] for a positive [n]. *)
Definition last_n {A : Type} (n : nat) (l : list A) : list A :=
  skipn (List.length l - n) l.

Definition tool_descriptions : str :=
  unlines
    [[];
     lit "Available Tools:";
     lit "1. list_files(path) - List files in a directory";
     lit "2. read_file(path) - Read contents of a file";
     lit "3. write_file(path, content) - Write content to a file";
     lit "4. git_status(repo) - Get git status of a repository";
     lit "5. git_log(repo) - Get recent git commits";
     lit "6. get_pods(namespace) - List Kubernetes pods (default: " ++ quoted "default" ++ lit ")";
     lit "7. kubectl_logs(pod, namespace, tail) - Get logs from a Kubernetes pod (default namespace: " ++ quoted "default" ++ lit ", default tail: 100)";
     lit "8. docker_ps() - List running Docker containers";
     lit "9. docker_logs(container, tail) - Get logs from a container (default tail: 100)";
     lit "10. run_command(command) - Run any shell command";
     lit "11. fetch_url(url) - Fetch content from a URL";
     lit "12. web_search(query) - Search the web for information";
     [];
     lit "FORMAT INSTRUCTIONS:";
     lit "To call a tool, you MUST use this exact format. Do not add any other text or markdown code blocks around it.";
     lit "TOOL: tool_name";
     lit "ARGS: {" ++ quoted "arg_name" ++ lit ": " ++ quoted "value" ++ lit ", " ++ quoted "another_arg" ++ lit ": " ++ quoted "another_value" ++ lit "}";
     [];
     lit "The ARGS MUST be a valid JSON dictionary.";
     [];
     lit "Example 1: Listing files";
     lit "TOOL: list_files";
     lit "ARGS: {" ++ quoted "path" ++ lit ": " ++ quoted "/app" ++ lit "}";
     [];
     lit "Example 2: Running a shell command";
     lit "TOOL: run_command";
     lit "ARGS: {" ++ quoted "command" ++ lit ": " ++ quoted "ls -la /tmp" ++ lit "}";
     [];
     lit "Example 3: Searching the web";
     lit "TOOL: web_search";
     lit "ARGS: {" ++ quoted "query" ++ lit ": " ++ quoted "latest kubernetes version" ++ lit "}";
     [];
     lit "When you have the final answer, respond with:";
     lit "ANSWER: <your answer>";
     []].

Definition system_prompt : str :=
  lit "You are an autonomous agent with access to tools. " ++ tool_descriptions
  ++ NL ++ NL
  ++ lit "IMPORTANT: Use web_search for current events or anything after your knowledge cutoff. After getting useful tool results, provide ANSWER immediately - do not make unnecessary extra searches. Be concise.".

(** The first-turn override: the response put in place of the model's
    when the task matches one of the patterns, [None] otherwise. *)
Definition forced_response (task : str) : option str :=
  let task_lower := Py.lower task in
  if Py.contains "docker" task_lower
     && (Py.contains "list" task_lower || Py.contains "container" task_lower)
  then Some (lit "TOOL: docker_ps" ++ NL ++ lit "ARGS: {}")
  else if Py.contains "kubernetes" task_lower || Py.contains "pod" task_lower
  then Some (lit "TOOL: get_pods" ++ NL ++ lit "ARGS: {}")
  else if Py.contains "file" task_lower && Py.contains "list" task_lower
  then Some (lit "TOOL: list_files" ++ NL ++ lit "ARGS: {" ++ quoted "path"
             ++ lit ": " ++ quoted "." ++ lit "}")
  else if Py.contains "status" task_lower || Py.contains "check" task_lower
  then Some (lit "TOOL: get_pods" ++ NL ++ lit "ARGS: {}")
  else None.

(** [str(n)] for a natural number. *)
Definition str_of_nat (n : nat) : str :=
  lit (NilEmpty.string_of_uint (Nat.to_uint n)).

(** [m in x]: a substring of a str, an item of a list, a key of a
    dict; [TypeError] on the other objects. *)
Definition py_in (m : str) (x : json) : Exc bool :=
  match x with
  | JStr s => Ok (Py.contains m s)
  | JList l =>
      Ok (existsb (fun y => match y with
                            | JStr s => str_eqb s m
                            | _ => false
                            end) l)
  | JDict d => Ok (match dict_get m d with Some _ => true | None => false end)
  | _ => Raise (lit "argument is not iterable")
  end.

(** [x[:n]]: a str and a list can be sliced, the other objects raise
    [TypeError] or [KeyError]. *)
Definition py_slice (n : nat) (x : json) : Exc json :=
  match x with
  | JStr s => Ok (JStr (firstn n s))
  | JList l => Ok (JList (firstn n l))
  | _ => Raise (lit "object is not subscriptable")
  end.

Section Run.

Context {W : Type} {world : World W}.

(** [str(x)], as an f-string formats [x]: a str is its own text. *)
Definition to_text (x : json) : str :=
  match x with
  | JStr s => s
  | _ => py_str x
  end.

(** [args.get(key, default)]: only a dict has [get]. *)
Definition get (args : json) (key : str) (default : json) : Exc json :=
  match args with
  | JDict d =>
      Ok (match dict_get key d with Some v => v | None => default end)
  | _ => Raise (lit "object has no attribute 'get'")
  end.

(** The [if]/[elif] chain of [execute_tool]: the call made on
    [self.mcp], or [None] for an unknown tool. *)
Definition dispatch (tool_name : str) (args : json) : Exc (option (str * list json)) :=
  if str_eqb tool_name "list_files" then
    p <- get args "path" (JStr ".") ;; Ok (Some (lit "list_files", [p]))
  else if str_eqb tool_name "read_file" then
    p <- get args "path" JNull ;; Ok (Some (lit "read_file", [p]))
  else if str_eqb tool_name "write_file" then
    p <- get args "path" JNull ;;
    c <- get args "content" (JStr []) ;;
    Ok (Some (lit "write_file", [p; c]))
  else if str_eqb tool_name "git_status" then
    r <- get args "repo" JNull ;; Ok (Some (lit "git_status", [r]))
  else if str_eqb tool_name "git_log" then
    r <- get args "repo" JNull ;; Ok (Some (lit "git_log", [r]))
  else if str_eqb tool_name "get_pods" then
    n <- get args "namespace" (JStr "default") ;; Ok (Some (lit "get_pods", [n]))
  else if str_eqb tool_name "kubectl_logs" then
    p <- get args "pod" JNull ;;
    n <- get args "namespace" (JStr "default") ;;
    t <- get args "tail" (JInt 100) ;;
    Ok (Some (lit "kubectl_logs", [p; n; t]))
  else if str_eqb tool_name "docker_ps" then
    Ok (Some (lit "docker_ps", []))
  else if str_eqb tool_name "docker_logs" then
    c <- get args "container" JNull ;;
    t <- get args "tail" (JInt 100) ;;
    Ok (Some (lit "docker_logs", [c; t]))
  else if str_eqb tool_name "run_command" then
    match args with
    | JList l =>
        Ok (Some (lit "run_command", [JStr (join " " (map to_text l))]))
    | JDict _ => c <- get args "command" JNull ;; Ok (Some (lit "run_command", [c]))
    | _ => Ok (Some (lit "run_command", [JStr (to_text args)]))
    end
  else if str_eqb tool_name "fetch_url" then
    u <- get args "url" JNull ;; Ok (Some (lit "fetch_url", [u]))
  else if str_eqb tool_name "web_search" then
    q <- get args "query" JNull ;; Ok (Some (lit "web_search", [q]))
  else Ok None.

(** [execute_tool]: the [try] block and its [except Exception]. *)
Definition execute_tool (tool_name : str) (args : json) (w : W) : Exc str * W :=
  let tool_name := Py.strip (Py.lower tool_name) in
  let '(r, w') :=
    match dispatch tool_name args with
    | Raise e => (Raise e, w)
    | Ok None => (Ok (lit "Unknown tool: " ++ tool_name), w)
    | Ok (Some (method, actuals)) =>
        match mcp method actuals w with
        | (Raise e, w') => (Raise e, w')
        | (Ok result, w') =>
            (Ok (if success result then firstn 1000 (stdout result)
                 else lit "Tool error: "
                      ++ match stderr result, error result with
                         | Some e, _ => e
                         | None, Some e => e
                         | None, None => lit "Unknown error"
                         end), w')
        end
    end in
  (try_except r (fun e => Ok (lit "Exception executing tool: " ++ e)), w').

Definition initial_messages (task : json) : list Message :=
  [ {| role := "system"; content := JStr system_prompt |};
    {| role := "user"; content := task |} ].

(** The lines [run] prints. *)
Definition start_line (a : AgentWorker) (task : json) : str :=
  NL ++ lit "[" ++ agent_id a ++ lit "] Starting task: " ++ to_text task.

Definition iteration_line (a : AgentWorker) (i : nat) : str :=
  lit "[" ++ agent_id a ++ lit "] Iteration " ++ str_of_nat (i + 1)
  ++ lit "/" ++ str_of_nat (max_iterations a).

Definition reply_line (a : AgentWorker) (shown : json) : str :=
  lit "[" ++ agent_id a ++ lit "] LLM: " ++ to_text shown ++ lit "...".

Definition tool_line (a : AgentWorker) (tool_result : str) : str :=
  lit "[" ++ agent_id a ++ lit "] Tool result: " ++ firstn 200 tool_result
  ++ lit "...".

(** The response the loop works on in iteration [i]: the model's, or
    the forced one on the first turn.  The marker is looked for in
    whatever object the model's reply is; only a str task has
    [lower]. *)
Definition effective_response (task : json) (i : nat) (response : json) : Exc json :=
  if i =? 0 then
    has_tool <- py_in "TOOL:" response ;;
    if has_tool then Ok response
    else
      match task with
      | JStr task =>
          Ok (match forced_response task with
              | Some forced => JStr forced
              | None => response
              end)
      | _ => Raise (lit "object has no attribute 'lower'")
      end
  else Ok response.

(** From the reply of the model to the parsed response: the override,
    the line printed, and [parse_response], which strips a str. *)
Definition read_reply (a : AgentWorker) (task : json) (i : nat) (reply : json) :
    Exc (str * Parsed) :=
  response <- effective_response task i reply ;;
  shown <- py_slice 200 response ;;
  @print console (reply_line a shown) ;;
  match response with
  | JStr response =>
      parsed <- @Agent.parse_response console response ;;
      Ok (response, parsed)
  | _ => Raise (lit "object has no attribute 'strip'")
  end.

Definition record (a : AgentWorker) (item : HistoryItem) : AgentWorker :=
  set_history a (history a ++ [item]).

(** The body of the [for] loop in iteration [i]: [inl result] when it
    returns, [inr messages] when the loop goes on with the messages
    appended. *)
Definition iterate (task : json) (i : nat) (messages : list Message)
    (a : AgentWorker) (w : W) : Exc (Result + list Message) * AgentWorker * W :=
  match @print console (iteration_line a i) with
  | Raise e => (Raise e, a, w)
  | Ok _ =>
      let '(reply, w) := query_llm (model a) messages w in
      match read_reply a task i reply with
      | Raise e => (Raise e, a, w)
      | Ok (response, parsed) =>
          let a := record a {| iteration := i + 1; response := response;
                               parsed := parsed |} in
          match parsed with
          | PAnswer answer =>
              let result := Complete (agent_id a) answer (i + 1) in
              (Ok (inl result), a,
               log_to_dashboard (agent_id a) task "complete" result w)
          | PTool tool args =>
              match execute_tool tool args w with
              | (Raise e, w) => (Raise e, a, w)
              | (Ok tool_result, w) =>
                  match @print console (tool_line a tool_result) with
                  | Raise e => (Raise e, a, w)
                  | Ok _ =>
                      (Ok (inr (messages ++
                                [ {| role := "assistant"; content := JStr response |};
                                  {| role := "user";
                                     content :=
                                       JStr (lit "Tool result:" ++ NL ++ tool_result
                                             ++ NL ++ NL
                                             ++ lit "Continue reasoning or provide ANSWER.") |} ])),
                       a, w)
                  end
              end
          | _ =>
              (Ok (inr (messages ++
                        [ {| role := "assistant"; content := JStr response |};
                          {| role := "user";
                             content := JStr "Continue. Use a TOOL or provide ANSWER." |} ])),
               a, w)
          end
      end
  end.

(** The [for i in range(self.max_iterations)] loop with [n] iterations
    left: [Some result] when an iteration returns, [None] when the
    range is used up. *)
Fixpoint run_loop (task : json) (n i : nat) (messages : list Message)
    (a : AgentWorker) (w : W) : Exc (option Result) * AgentWorker * W :=
  match n with
  | 0 => (Ok None, a, w)
  | S n' =>
      match iterate task i messages a w with
      | (Raise e, a, w) => (Raise e, a, w)
      | (Ok (inl result), a, w) => (Ok (Some result), a, w)
      | (Ok (inr messages), a, w) => run_loop task n' (i + 1) messages a w
      end
  end.

(** [AgentWorker.run(task)]: the result or the exception, the agent
    and the world afterwards. *)
Definition run (task : json) (a : AgentWorker) (w : W) : Exc Result * AgentWorker * W :=
  match @print console (start_line a task) with
  | Raise e => (Raise e, a, w)
  | Ok _ =>
      match run_loop task (max_iterations a) 0 (initial_messages task) a w with
      | (Raise e, a, w) => (Raise e, a, w)
      | (Ok (Some result), a, w) => (Ok result, a, w)
      | (Ok None, a, w) =>
          let result :=
            MaxIterations (agent_id a) (last_n 3 (history a)) (max_iterations a) in
          (Ok result, a, log_to_dashboard (agent_id a) task "timeout" result w)
      end
  end.

End Run.

(** ** The alternate parser of [agent_fixed.py]

    It looks for [ANSWER:] first, keeps the tool line as it is and reads
    the arguments from the first line after [ARGS:].  Its last resort, a
    table of regular expressions searched in the lower-cased response,
    is a parameter: the tool call of the first row that matches. *)

Module AgentFixed.

Section Parse.

Context {console : Console}.

Variable raw_fallback : str -> option Parsed.

(** The line the fallback prints for the tool of the row that matched. *)
Definition fallback_line (call : Parsed) : str :=
  lit "  [Fallback] Converted raw command to: "
  ++ match call with
     | PTool tool_name _ => tool_name
     | _ => []
     end.

Definition parse_tool_call (response : str) : Exc Parsed :=
  after <- index (Py.split "TOOL:" (Some 1) response) 1 ;;
  first <- index (Py.split NL None after) 0 ;;
  let tool_line := Py.strip first in
  args_part <- (if Py.contains "ARGS:" response
                then (a <- index (Py.split "ARGS:" (Some 1) response) 1 ;;
                      Ok (Py.strip a))
                else Ok (lit "{}")) ;;
  args <- try_except
            (line <- index (Py.split NL None args_part) 0 ;; Json.loads line)
            (fun _ => Ok (JDict [])) ;;
  Ok (PTool tool_line args).

Definition parse_response (response : str) : Exc Parsed :=
  let response := Py.strip response in
  if Py.contains "ANSWER:" response then
    answer <- index (Py.split "ANSWER:" (Some 1) response) 1 ;;
    Ok (PAnswer (Py.strip answer))
  else if Py.contains "TOOL:" response then
    try_except (parse_tool_call response)
      (fun e => Ok (PError (lit "Failed to parse tool call: " ++ e)))
  else
    match raw_fallback (Py.lower response) with
    | Some call => print (fallback_line call) ;; Ok call
    | None => Ok (PThought response)
    end.

End Parse.

(** The rest of [agent_fixed.py]: its prompt, [execute_tool] and [run]. *)

Definition tool_descriptions : str :=
  unlines
    [[];
     lit "## CRITICAL: Tool Call Format";
     lit "You MUST use this EXACT format when calling tools:";
     [];
     lit "TOOL: tool_name";
     lit "ARGS: {" ++ quoted "key" ++ lit ": " ++ quoted "value" ++ lit "}";
     [];
     lit "DO NOT write raw commands like " ++ quoted "docker ps" ++ lit " or " ++ quoted "ls -la" ++ lit ".";
     lit "Use the tool names below instead.";
     [];
     lit "## Available Tools:";
     lit "- list_files: List directory contents";
     lit "  Example: TOOL: list_files";
     lit "           ARGS: {" ++ quoted "path" ++ lit ": " ++ quoted "C:/Users" ++ lit "}";
     [];
     lit "- read_file: Read a file's content";
     lit "  Example: TOOL: read_file";
     lit "           ARGS: {" ++ quoted "path" ++ lit ": " ++ quoted "C:/test.txt" ++ lit "}";
     [];
     lit "- docker_ps: List Docker containers (no args needed)";
     lit "  Example: TOOL: docker_ps";
     lit "           ARGS: {}";
     [];
     lit "- docker_logs: Get container logs";
     lit "  Example: TOOL: docker_logs";
     lit "           ARGS: {" ++ quoted "container" ++ lit ": " ++ quoted "nginx" ++ lit ", " ++ quoted "tail" ++ lit ": 50}";
     [];
     lit "- git_status: Check git repository status";
     lit "  Example: TOOL: git_status";
     lit "           ARGS: {" ++ quoted "repo" ++ lit ": " ++ quoted "C:/project" ++ lit "}";
     [];
     lit "- git_log: Recent commits";
     lit "  Example: TOOL: git_log";
     lit "           ARGS: {" ++ quoted "repo" ++ lit ": " ++ quoted "C:/project" ++ lit "}";
     [];
     lit "- run_command: Execute any shell command";
     lit "  Example: TOOL: run_command";
     lit "           ARGS: {" ++ quoted "command" ++ lit ": " ++ quoted "whoami" ++ lit "}";
     [];
     lit "- fetch_url: HTTP GET request";
     lit "  Example: TOOL: fetch_url";
     lit "           ARGS: {" ++ quoted "url" ++ lit ": " ++ quoted "https://example.com" ++ lit "}";
     [];
     lit "## Response Format:";
     lit "1. Think about what to do";
     lit "2. Call ONE tool using the format above";
     lit "3. Wait for result";
     lit "4. When done, respond with: ANSWER: <your final answer>";
     [];
     lit "REMEMBER: Use TOOL: and ARGS: format, not raw commands!";
     []].

Definition system_prompt : str :=
  lit "You are a helpful agent. " ++ tool_descriptions ++ NL ++ NL
  ++ lit "Always use TOOL: format, never raw commands.".

Section Run.

Context {W : Type} {world : World W}.

Variable raw_fallback : str -> option Parsed.

(** The [if]/[elif] chain of [execute_tool]. *)
Definition dispatch (tool_name : str) (args : json) : Exc (option (str * list json)) :=
  if str_eqb tool_name "list_files" then
    p <- get args "path" (JStr ".") ;; Ok (Some (lit "list_files", [p]))
  else if str_eqb tool_name "read_file" then
    p <- get args "path" JNull ;; Ok (Some (lit "read_file", [p]))
  else if str_eqb tool_name "write_file" then
    p <- get args "path" JNull ;;
    c <- get args "content" (JStr []) ;;
    Ok (Some (lit "write_file", [p; c]))
  else if str_eqb tool_name "git_status" then
    r <- get args "repo" (JStr ".") ;; Ok (Some (lit "git_status", [r]))
  else if str_eqb tool_name "git_log" then
    r <- get args "repo" (JStr ".") ;; Ok (Some (lit "git_log", [r]))
  else if str_eqb tool_name "get_pods" then
    n <- get args "namespace" (JStr "default") ;; Ok (Some (lit "get_pods", [n]))
  else if str_eqb tool_name "docker_ps" then
    Ok (Some (lit "docker_ps", []))
  else if str_eqb tool_name "docker_logs" then
    c <- get args "container" JNull ;;
    t <- get args "tail" (JInt 100) ;;
    Ok (Some (lit "docker_logs", [c; t]))
  else if str_eqb tool_name "run_command" then
    c <- get args "command" JNull ;; Ok (Some (lit "run_command", [c]))
  else if str_eqb tool_name "fetch_url" then
    u <- get args "url" JNull ;; Ok (Some (lit "fetch_url", [u]))
  else Ok None.

Definition execute_tool (tool_name : str) (args : json) (w : W) : Exc str * W :=
  let tool_name := Py.strip (Py.lower tool_name) in
  let '(r, w') :=
    match dispatch tool_name args with
    | Raise e => (Raise e, w)
    | Ok None =>
        (Ok (lit "Unknown tool: " ++ tool_name
             ++ lit ". Available: list_files, read_file, docker_ps, git_status, run_command, fetch_url"),
         w)
    | Ok (Some (method, actuals)) =>
        match mcp method actuals w with
        | (Raise e, w') => (Raise e, w')
        | (Ok result, w') =>
            (Ok (if success result then
                   let output := firstn 2000 (stdout result) in
                   match Py.strip output with
                   | [] => lit "(empty output)"
                   | _ :: _ => output
                   end
                 else lit "Tool error: "
                      ++ match stderr result, error result with
                         | Some e, _ => e
                         | None, Some e => e
                         | None, None => lit "Unknown error"
                         end), w')
        end
    end in
  (try_except r (fun e => Ok (lit "Exception executing tool: " ++ e)), w').

Definition initial_messages (task : str) : list Message :=
  [ {| role := "system"; content := JStr system_prompt |};
    {| role := "user"; content := JStr task |} ].

Definition tool_line (a : AgentWorker) (tool tool_result : str) : str :=
  lit "[" ++ agent_id a ++ lit "] Tool [" ++ tool ++ lit "]: "
  ++ firstn 200 tool_result ++ lit "...".

(** From the reply of the model to the parsed response: the line
    printed, and [parse_response], which strips a str. *)
Definition read_reply (a : AgentWorker) (reply : json) : Exc (str * Parsed) :=
  shown <- py_slice 200 reply ;;
  @print console (reply_line a shown) ;;
  match reply with
  | JStr response =>
      parsed <- @parse_response console raw_fallback response ;;
      Ok (response, parsed)
  | _ => Raise (lit "object has no attribute 'strip'")
  end.

(** The body of the [for] loop in iteration [i]: [inl result] when it
    returns, [inr messages] when the loop goes on. *)
Definition iterate (i : nat) (messages : list Message)
    (a : AgentWorker) (w : W) : Exc (Result + list Message) * AgentWorker * W :=
  match @print console (iteration_line a i) with
  | Raise e => (Raise e, a, w)
  | Ok _ =>
      let '(reply, w) := query_llm (model a) messages w in
      match read_reply a reply with
      | Raise e => (Raise e, a, w)
      | Ok (response, parsed) =>
          let a := record a {| iteration := i + 1; response := response;
                               parsed := parsed |} in
          match parsed with
          | PAnswer answer =>
              (Ok (inl (Complete (agent_id a) answer (i + 1))), a, w)
          | PTool tool args =>
              match execute_tool tool args w with
              | (Raise e, w) => (Raise e, a, w)
              | (Ok tool_result, w) =>
                  match @print console (tool_line a tool tool_result) with
                  | Raise e => (Raise e, a, w)
                  | Ok _ =>
                      (Ok (inr (messages ++
                                [ {| role := "assistant"; content := JStr response |};
                                  {| role := "user";
                                     content :=
                                       JStr (lit "Tool result:" ++ NL ++ tool_result
                                             ++ NL ++ NL
                                             ++ lit "Continue reasoning or provide ANSWER.") |} ])),
                       a, w)
                  end
              end
          | PError err =>
              (Ok (inr (messages ++
                        [ {| role := "assistant"; content := JStr response |};
                          {| role := "user";
                             content :=
                               JStr (lit "Error: " ++ err ++ NL ++ NL
                                     ++ lit "Use correct format:" ++ NL
                                     ++ lit "TOOL: tool_name" ++ NL
                                     ++ lit "ARGS: {}") |} ])),
               a, w)
          | PThought _ =>
              (Ok (inr (messages ++
                        [ {| role := "assistant"; content := JStr response |};
                          {| role := "user";
                             content :=
                               JStr (lit "Now use a TOOL (format: TOOL: name"
                                     ++ [92%N; 110%N]
                                     ++ lit "ARGS: {}) or provide ANSWER:") |} ])),
               a, w)
          end
      end
  end.

(** The [for] loop of [run], with [n] iterations left. *)
Fixpoint run_loop (n i : nat) (messages : list Message)
    (a : AgentWorker) (w : W) : Exc (option Result) * AgentWorker * W :=
  match n with
  | 0 => (Ok None, a, w)
  | S n' =>
      match iterate i messages a w with
      | (Raise e, a, w) => (Raise e, a, w)
      | (Ok (inl result), a, w) => (Ok (Some result), a, w)
      | (Ok (inr messages), a, w) => run_loop n' (i + 1) messages a w
      end
  end.

Definition run (task : str) (a : AgentWorker) (w : W) : Exc Result * AgentWorker * W :=
  match @print console (start_line a (JStr task)) with
  | Raise e => (Raise e, a, w)
  | Ok _ =>
      match run_loop (max_iterations a) 0 (initial_messages task) a w with
      | (Raise e, a, w) => (Raise e, a, w)
      | (Ok (Some result), a, w) => (Ok result, a, w)
      | (Ok None, a, w) =>
          (Ok (MaxIterations (agent_id a) (last_n 3 (history a)) (max_iterations a)),
           a, w)
      end
  end.

End Run.

End AgentFixed.

(** ** [MultiAgentOrchestrator.execute_parallel]

    The thread pool is seen through what the program observes of it:
    [run_agent i task] is what the future of [_run_agent(i, task)]
    holds once done, a result or an exception, and [completed] is the
    order in which [as_completed] hands the futures over, each named by
    its entry [(i, task)] of [future_to_task].  [ThreadPoolExecutor]
    refuses a pool without workers with a [ValueError]. *)

Module Orchestrator.

Fixpoint enumerate_from {A : Type} (i : nat) (l : list A) : list (nat * A) :=
  match l with
  | [] => []
  | x :: l' => (i, x) :: enumerate_from (S i) l'
  end.

(** [enumerate(l)]. *)
Definition enumerate {A : Type} (l : list A) : list (nat * A) := enumerate_from 0 l.

(** [list.sort(key=lambda x: x[0])], a stable sort: insertion keeps an
    item before the items of equal key that came after it. *)
Fixpoint insert_by_key {A : Type} (x : nat * A) (l : list (nat * A)) : list (nat * A) :=
  match l with
  | [] => [x]
  | y :: l' => if fst x <=? fst y then x :: l else y :: insert_by_key x l'
  end.

Fixpoint sort_by_key {A : Type} (l : list (nat * A)) : list (nat * A) :=
  match l with
  | [] => []
  | x :: l' => insert_by_key x (sort_by_key l')
  end.

Section ExecuteParallel.

Variable run_agent : nat -> str -> Exc Result.

(** The body of the [for future in as_completed(...)] loop. *)
Definition collect (results : list (nat * Result)) (future : nat * str) : list (nat * Result) :=
  let '(idx, task) := future in
  match run_agent idx task with
  | Ok result => results ++ [(idx, result)]
  | Raise e => results ++ [(idx, AgentError (lit "Agent error: " ++ e) 0)]
  end.

Definition execute_parallel (max_workers : Z) (completed : list (nat * str)) :
    Exc (list Result) :=
  if (max_workers <=? 0)%Z then Raise (lit "max_workers must be greater than 0")
  else
    let results := fold_left collect completed [] in
    Ok (map snd (sort_by_key results)).

End ExecuteParallel.

(** The completion endpoint behind [_query_llm(prompt, system)]. *)
Class Llm (W : Type) : Type :=
  { _query_llm : str -> str -> W -> str * W }.

(** [l[:n]] for a Python integer [n]: a negative [n] counts from the
    end. *)
Definition slice_to {A : Type} (n : Z) (l : list A) : list A :=
  if (0 <=? n)%Z then firstn (Z.to_nat n) l
  else firstn (List.length l - Z.to_nat (- n)) l.

Definition decompose_system : str :=
  unlines
    [lit "You decompose complex tasks into independent subtasks that can run in parallel.";
     [];
     lit "Rules:";
     lit "1. Each subtask should be self-contained and independent";
     lit "2. Output ONLY a JSON array of subtask strings";
     lit "3. Keep subtasks focused and specific";
     lit "4. If the task is simple, return a single-item array";
     lit "5. Maximum 5 subtasks";
     [];
     lit "Example output:";
     lit "[" ++ quoted "Check git status of repo A" ++ lit ", "
     ++ quoted "List files in directory B" ++ lit ", "
     ++ quoted "Get kubernetes pod status" ++ lit "]"].

Section Decompose.

Context {W : Type} {llm : Llm W}.

(** The [try] block of [decompose_task]: the subtasks read from the
    reply, [None] when the reply decodes to something else than a list. *)
Definition read_subtasks (max_workers : Z) (response : str) : Exc (option (list json)) :=
  response <- (if Py.contains "```" response
               then (inner <- index (Py.split "```" None response) 1 ;;
                     Ok (if Py.startswith "json" inner then skipn 4 inner
                         else inner))
               else Ok response) ;;
  let response := Py.strip response in
  subtasks <- Json.loads response ;;
  match subtasks with
  | JList l => Ok (Some (slice_to max_workers l))
  | _ => Ok None
  end.

(** [decompose_task(task)]: the subtasks, as the Python objects decoded
    from the reply, and the world after the query. *)
Definition decompose_task (max_workers : Z) (task : str) (w : W) : list json * W :=
  let prompt := lit "Decompose this task into parallel subtasks:" ++ NL ++ NL ++ task in
  let '(response, w) := _query_llm prompt decompose_system w in
  match read_subtasks max_workers response with
  | Ok (Some subtasks) => (subtasks, w)
  | _ => ([JStr task], w)
  end.

End Decompose.

(** [_run_agent(agent_id, task)] on its own: a new agent runs the
    task, one of the objects [decompose_task] returned. *)
Definition _run_agent {W : Type} {world : World W} (model : str)
    (agent_id : nat) (task : json) (w : W) : Exc Result * W :=
  let agent := init (lit "agent-" ++ str_of_nat agent_id) model in
  let '(r, _, w) := run task agent w in
  (r, w).

End Orchestrator.

(** ** Reference notions the theorems are stated with *)

(** The text after the first occurrence of [m] in [s], if there is one. *)
Fixpoint text_after (m s : str) : option str :=
  if Py.startswith m s then Some (skipn (List.length m) s)
  else match s with
       | [] => None
       | _ :: s' => text_after m s'
       end.

(** The characters of [s] before the first [c] (all of [s] without one). *)
Fixpoint before_char (c : char) (s : str) : str :=
  match s with
  | [] => []
  | x :: s' => if Py.ch_eqb c x then [] else x :: before_char c s'
  end.

Definition first_line (s : str) : str := before_char 10%N s.

(** A marker that neither starts nor ends with a space character. *)
Definition solid (m : str) : bool :=
  match m, rev m with
  | a :: _, b :: _ => negb (Py.is_space a) && negb (Py.is_space b)
  | _, _ => false
  end.

(** [{"a": {"b": 1}}] *)
Definition json_a_b_1 : str :=
  lit "{" ++ quoted "a" ++ lit ": {" ++ quoted "b" ++ lit ": 1}}".

(** The tool name read from the text after [TOOL:]: the first line,
    trimmed, and cut at its first opening parenthesis if it has one. *)
Definition tool_name (after : str) : str :=
  let segment := Py.strip (first_line after) in
  if Py.contains "(" segment then Py.strip (before_char 40%N segment)
  else segment.

(** The argument block of a response: the trimmed text after the first
    [ARGS:], or the text of an empty object without that marker. *)
Definition args_block (response : str) : str :=
  match text_after "ARGS:" response with
  | Some a => Py.strip a
  | None => "{}"
  end.

(** The arguments decoded from a block, with the fallback to one
    opaque field holding the first line of the block. *)
Definition decoded_args (block : str) : json :=
  match Agent.load_args block with
  | Ok v => v
  | Raise _ => JDict [(lit "raw", JStr (first_line block))]
  end.

(** The response the loop works on in iteration [i] when the task and
    the reply of the model are strings. *)
Definition effective_text (task : str) (i : nat) (reply : str) : str :=
  if (i =? 0) && negb (Py.contains "TOOL:" reply) then
    match forced_response task with
    | Some forced => forced
    | None => reply
    end
  else reply.

(** A parsed response that is not an answer. *)
Definition not_answer (p : Parsed) : Prop :=
  match p with
  | PAnswer _ => False
  | _ => True
  end.

(** A result of [run] with the trace of a budget exhaustion taken from
    the history [hist] instead. *)
Definition with_trace (hist : list HistoryItem) (r : Exc Result) : Exc Result :=
  match r with
  | Ok (MaxIterations id _ n) => Ok (MaxIterations id (last_n 3 hist) n)
  | _ => r
  end.

(** What [execute_parallel] keeps of the future of [(i, task)]: its
    result, or the error dict built from its exception. *)
Definition slot (run_agent : nat -> str -> Exc Result) (future : nat * str) : Result :=
  match run_agent (fst future) (snd future) with
  | Ok result => result
  | Raise e => AgentError (lit "Agent error: " ++ e) 0
  end.

(** The item [execute_parallel] appends for a future. *)
Definition keyed (run_agent : nat -> str -> Exc Result) (future : nat * str) : nat * Result :=
  (fst future, slot run_agent future).

(** Orders of the keys of two items. *)
Definition key_le {A : Type} (x y : nat * A) : Prop := fst x <= fst y.
Definition key_lt {A : Type} (x y : nat * A) : Prop := fst x < fst y.

(** Four subtasks, an order of completion in which the last one is done
    first, and an agent runner under which the third raises. *)
Definition four_subtasks : list str :=
  [lit "check git"; lit "list files"; lit "get pods"; lit "read logs"].

Definition out_of_order : list (nat * str) :=
  [(3, lit "read logs"); (0, lit "check git"); (2, lit "get pods");
   (1, lit "list files")].

Definition third_raises (i : nat) (task : str) : Exc Result :=
  if i =? 2 then Raise (lit "connection reset")
  else Ok (Complete (lit "agent") task (i + 1)).

(** The number of occurrences of a character. *)
Fixpoint count_char (c : char) (s : str) : nat :=
  match s with
  | [] => 0
  | x :: s' => (if Py.ch_eqb c x then 1 else 0) + count_char c s'
  end.

(** A text with at least one opening brace and as many closing braces
    as opening ones. *)
Definition balanced (s : str) : Prop :=
  0 < count_char 123%N s /\ count_char 123%N s = count_char 125%N s.

(** The text before the first occurrence of [m] in [s], all of [s]
    without one. *)
Fixpoint text_before (m s : str) : str :=
  if Py.startswith m s then []
  else match s with
       | [] => []
       | c :: s' => c :: text_before m s'
       end.

(** The tool names [execute_tool] of [agent.py] has a branch for. *)
Definition known_tools : list str :=
  [lit "list_files"; lit "read_file"; lit "write_file"; lit "git_status";
   lit "git_log"; lit "get_pods"; lit "kubectl_logs"; lit "docker_ps";
   lit "docker_logs"; lit "run_command"; lit "fetch_url"; lit "web_search"].

(** The part of a decomposition reply that is decoded: with a code
    fence, the text between the first fence and the next one, less a
    leading [json]; the whole reply otherwise; trimmed. *)
Definition payload (response : str) : str :=
  match text_after "```" response with
  | Some inner =>
      let inner := text_before "```" inner in
      Py.strip (if Py.startswith "json" inner then skipn 4 inner else inner)
  | None => Py.strip response
  end.

(** The number of opening brackets of a text, a bound on how deep the
    arrays and objects of a JSON document are nested.  [json.loads]
    raises [RecursionError] when the nesting exceeds what the
    interpreter allows, a limit of several hundred levels. *)
Definition open_brackets (s : str) : nat :=
  count_char 91%N s + count_char 123%N s.

(** A history record of a call of the tool [run_command]. *)
Definition calls_run_command (item : HistoryItem) : bool :=
  match parsed item with
  | PTool tool _ => str_eqb tool "run_command"
  | _ => false
  end.

(** The command of the raw-command fallback for a trimmed response. *)
Definition command_of (response : str) : str :=
  fold_left
    (fun cmd prefix =>
       if Py.startswith prefix (Py.lower cmd)
       then skipn (List.length prefix) cmd else cmd)
    Agent.raw_prefixes (Py.strip (first_line response)).

(** Whether a trimmed response holds one of the raw command patterns,
    whatever the case of its letters. *)
Definition has_raw_pattern (response : str) : bool :=
  existsb (fun p => Py.contains (Py.lower p) (Py.lower response))
    Agent.raw_patterns.

(** ** Stand-ins for the outside world, to run the model on *)

Definition ok_result : ToolResult :=
  {| success := true; stdout := "ok"; stderr := Some []; error := None |}.

(** A world without state whose model gives the same reply to every
    query and whose tools all succeed. *)
Definition constant_world (reply : json) : World unit :=
  {| console := utf8_console;
     query_llm := fun _ _ w => (reply, w);
     mcp := fun _ _ w => (Ok ok_result, w);
     log_to_dashboard := fun _ _ _ _ w => w;
     py_str := fun _ => [] |}.

(** A world whose model muses about the task, the content of the
    second message of the conversation. *)
Definition musing_world : World unit :=
  {| console := utf8_console;
     query_llm := fun _ messages w =>
       (JStr (lit "thinking about "
              ++ match nth_error messages 1 with
                 | Some {| content := JStr task |} => task
                 | _ => []
                 end), w);
     mcp := fun _ _ w => (Ok ok_result, w);
     log_to_dashboard := fun _ _ _ _ w => w;
     py_str := fun _ => [] |}.

(** A world whose state counts the queries made: the model first
    calls [run_command], then answers. *)
Definition scripted_world : World nat :=
  {| console := utf8_console;
     query_llm := fun _ _ n =>
       (JStr match n with
             | 0 => lit "TOOL: run_command" ++ NL ++ lit "ARGS: {}"
             | _ => lit "ANSWER: done"
             end, S n);
     mcp := fun _ _ n => (Ok ok_result, n);
     log_to_dashboard := fun _ _ _ _ n => n;
     py_str := fun _ => [] |}.

(** A decomposition endpoint with a fixed reply. *)
Definition constant_llm (reply : str) : Orchestrator.Llm unit :=
  {| Orchestrator._query_llm := fun _ _ w => (reply, w) |}.

(** [agent.max_iterations = n], as [verify_models.py] does. *)
Definition set_max_iterations (a : AgentWorker) (n : nat) : AgentWorker :=
  {| agent_id := agent_id a; model := model a; history := history a;
     max_iterations := n |}.

(** ** [verify_models.py] *)

Module VerifyModels.

(** [l[-1]]. *)
Definition last_item {A : Type} (l : list A) : Exc A :=
  match rev l with
  | x :: _ => Ok x
  | [] => Raise (lit "list index out of range")
  end.

Definition verify_task : str :=
  "Use the run_command tool to print 'Hello from agent'".

(** The lines [verify_model] prints. *)
Definition testing_line (model_name : str) : str :=
  NL ++ lit "Testing model: " ++ model_name ++ lit "...".

Definition verdict_line (success : bool) : str :=
  lit "Result: " ++ (if success then lit "PASS" else lit "FAIL").

(** [verify_model(model_name)]: whether the model passes. *)
Definition verify_model {W : Type} {world : World W} (model_name : str) (w : W) :
    Exc bool * W :=
  match (@print console (testing_line model_name) ;;
         head <- index (Py.split ":" None model_name) 0 ;;
         last_item (Py.split "/" None head)) with
  | Raise e => (Raise e, w)
  | Ok short =>
      let agent := init (lit "tester-" ++ short) model_name in
      let agent := set_max_iterations agent 3 in
      match run verify_task agent w with
      | (Raise e, _, w) => (Raise e, w)
      | (Ok result, agent, w) =>
          let success :=
            if str_eqb (status result) "complete"
            then existsb calls_run_command (history agent)
            else false in
          match @print console (verdict_line success) with
          | Raise e => (Raise e, w)
          | Ok _ => (Ok success, w)
          end
      end
  end.

End VerifyModels.

Example split_ex1 :
  Py.split "TOOL:" (Some 1) "a TOOL: x TOOL: y" = [lit "a "; lit " x TOOL: y"].
Proof. reflexivity. Qed.

Example split_ex2 :
  Py.split NL None (lit "ab" ++ NL ++ lit "cd" ++ NL) = [lit "ab"; lit "cd"; []].
Proof. reflexivity. Qed.

Example strip_ex : Py.strip (lit "  a b" ++ NL ++ lit " ") = lit "a b".
Proof. reflexivity. Qed.

Example replace_ex : Py.replace "```json" [] "```json {} ```" = lit " {} ```".
Proof. reflexivity. Qed.

Example loads_ex1 :
  Json.loads json_a_b_1 = Ok (JDict [(lit "a", JDict [(lit "b", JInt 1)])]).
Proof. reflexivity. Qed.

Example loads_ex2 : Json.loads "{not valid json" = Raise (lit "Expecting value").
Proof. reflexivity. Qed.

Example loads_ex3 : Json.loads " [1, -2.5e3, true, null, [], {}] " =
  Ok (JList [JInt 1; JFloat "-2.5e3"; JBool true; JNull; JList []; JDict []]).
Proof. reflexivity. Qed.

Example loads_ex4 : Json.loads "[1,]" = Raise (lit "Expecting value").
Proof. reflexivity. Qed.

Example loads_ex5 : Json.loads "{} x" = Raise (lit "Extra data").
Proof. reflexivity. Qed.

Example parse_ex1 :
  Agent.parse_response (lit "TOOL: list_files(path)" ++ NL ++ lit "ARGS: {}") =
  Ok (PTool "list_files" (JDict [])).
Proof. reflexivity. Qed.

Example parse_ex2 : Agent.parse_response " ANSWER: 42 " = Ok (PAnswer "42").
Proof. reflexivity. Qed.

Example parse_ex3 :
  Agent.parse_response "Let me run Docker PS -a" =
  Ok (PTool "run_command" (JDict [(lit "command", JStr "Docker PS -a")])).
Proof. reflexivity. Qed.

Example parse_ex4 : Agent.parse_response "hmm" = Ok (PThought "hmm").
Proof. reflexivity. Qed.

Example parse_empty : Agent.parse_response [] = Ok (PThought []).
Proof. reflexivity. Qed.

Example parse_garbage :
  Agent.parse_response [0%N; 255%N; 56320%N; 123%N; 125%N; 7%N]
  = Ok (PThought [0%N; 255%N; 56320%N; 123%N; 125%N; 7%N]).
Proof. reflexivity. Qed.

Example parse_nested_malformed :
  Agent.parse_response "TOOL: t ARGS: {{[}}]"
  = Ok (PTool "t ARGS: {{[}}]" (JDict [(lit "raw", JStr "{{[}}]")])).
Proof. reflexivity. Qed.

Example parse_ex5 :
  Agent.parse_response "TOOL: x ARGS: }{ ANSWER: 1" =
  Ok (PTool "x ARGS: }{ ANSWER: 1" (JDict [(lit "raw", JStr "}{ ANSWER: 1")])).
Proof. reflexivity. Qed.

(** ** Facts about the string operations *)

Section StringFacts.

Lemma ch_eqb_eq (a b : char) : Py.ch_eqb a b = true <-> a = b.
Proof. apply N.eqb_eq. Qed.

Lemma startswith_app (p s : str) :
  Py.startswith p s = true <-> exists b, s = p ++ b.
Proof.
  revert s; induction p as [|a p IH]; intros s; simpl.
  - split; [intros _; now exists s | reflexivity].
  - destruct s as [|x s]; simpl.
    + split; [discriminate | intros [b Hb]; discriminate].
    + rewrite andb_true_iff, ch_eqb_eq, IH. split.
      * intros [-> [b ->]]. now exists b.
      * intros [b Hb]. injection Hb as -> ->. split; [reflexivity | now exists b].
Qed.

Lemma contains_app (m s : str) :
  Py.contains m s = true <-> exists a b, s = a ++ m ++ b.
Proof.
  induction s as [|x s IH]; simpl.
  - rewrite startswith_app. split.
    + intros [b Hb]. exists [], b. exact Hb.
    + intros [a [b Hab]]. destruct a; simpl in Hab.
      * now exists b.
      * discriminate.
  - rewrite orb_true_iff, startswith_app, IH. split.
    + intros [[b Hb] | [a [b Hab]]].
      * exists [], b. exact Hb.
      * exists (x :: a), b. simpl. now rewrite Hab.
    + intros [a [b Hab]]. destruct a as [|y a]; simpl in Hab.
      * left. now exists b.
      * right. injection Hab as _ ->. now exists a, b.
Qed.

Lemma contains_rev (m s : str) :
  Py.contains (rev m) (rev s) = Py.contains m s.
Proof.
  apply eq_true_iff_eq. rewrite !contains_app. split.
  - intros [a [b Hab]]. exists (rev b), (rev a).
    rewrite <- (rev_involutive s), Hab, !rev_app_distr, rev_involutive.
    now rewrite app_assoc.
  - intros [a [b ->]]. exists (rev b), (rev a).
    now rewrite !rev_app_distr, app_assoc.
Qed.

Lemma contains_lstrip (c : char) (m s : str) :
  Py.is_space c = false ->
  Py.contains (c :: m) (Py.lstrip s) = Py.contains (c :: m) s.
Proof.
  intros Hc. induction s as [|x s IH]; [reflexivity|].
  cbn [Py.lstrip]. destruct (Py.is_space x) eqn:Hx; [|reflexivity].
  rewrite IH. cbn [Py.contains Py.startswith].
  destruct (Py.ch_eqb c x) eqn:E; [|reflexivity].
  apply ch_eqb_eq in E. congruence.
Qed.

Lemma contains_strip (m s : str) :
  solid m = true -> Py.contains m (Py.strip s) = Py.contains m s.
Proof.
  unfold solid, Py.strip, Py.rstrip. intros Hm.
  destruct m as [|a m]; [discriminate|].
  destruct (rev (a :: m)) as [|b r] eqn:Hr; [discriminate|].
  apply andb_true_iff in Hm as [Ha Hb].
  apply negb_true_iff in Ha, Hb.
  rewrite <- contains_rev, rev_involutive, Hr, contains_lstrip by assumption.
  rewrite <- Hr, contains_rev. now apply contains_lstrip.
Qed.

Lemma split_aux_not_nil (sep : str) (maxsplit : option nat) (skip : nat)
    (cur s : str) :
  Py.split_aux sep maxsplit skip cur s <> [].
Proof.
  revert maxsplit skip cur; induction s as [|x s IH]; intros; simpl.
  - discriminate.
  - destruct skip; [|apply IH].
    destruct (_ && _); [discriminate | apply IH].
Qed.

Lemma split_no_more (sep : str) (skip : nat) (cur s : str) :
  Py.split_aux sep (Some 0) skip cur s = [rev cur ++ skipn skip s].
Proof.
  revert skip cur; induction s as [|x s IH]; intros; simpl.
  - now rewrite skipn_nil, app_nil_r.
  - destruct skip; simpl.
    + rewrite IH. simpl. now rewrite <- app_assoc.
    + apply IH.
Qed.

Lemma text_after_contains (m s : str) :
  Py.contains m s = true -> exists t, text_after m s = Some t.
Proof.
  induction s as [|x s IH]; simpl; intros Hc.
  - rewrite Hc. eauto.
  - destruct (Py.startswith m (x :: s)); [eauto|]. simpl in Hc. auto.
Qed.

Lemma split_once_after (c : char) (m s t cur : str) :
  text_after (c :: m) s = Some t ->
  index (Py.split_aux (c :: m) (Some 1) 0 cur s) 1 = Ok t.
Proof.
  revert cur; induction s as [|x s IH]; intros cur; [discriminate|].
  cbn [text_after Py.split_aux Py.may_split andb].
  destruct (Py.startswith (c :: m) (x :: s)).
  - intros [= <-]. cbn [Py.dec_split option_map pred].
    rewrite split_no_more. simpl. now rewrite Nat.sub_0_r.
  - apply IH.
Qed.

Lemma split_head (c : char) (maxsplit : option nat) (s cur : str) :
  Py.may_split maxsplit = true ->
  index (Py.split_aux [c] maxsplit 0 cur s) 0 = Ok (rev cur ++ before_char c s).
Proof.
  intros Hm. revert cur; induction s as [|x s IH]; intros cur; simpl.
  - now rewrite app_nil_r.
  - rewrite Hm, andb_true_r. simpl. destruct (Py.ch_eqb c x).
    + now rewrite app_nil_r.
    + rewrite IH. simpl. now rewrite <- app_assoc.
Qed.

Lemma index_split_after (m s : str) :
  m <> [] ->
  Py.contains m s = true ->
  exists t, text_after m s = Some t
            /\ index (Py.split m (Some 1) s) 1 = Ok t.
Proof.
  intros Hm Hc. destruct m as [|c m]; [contradiction|].
  destruct (text_after_contains _ _ Hc) as [t Ht].
  exists t. split; [exact Ht | unfold Py.split; now apply split_once_after].
Qed.

Lemma index_split_open (c : char) (s : str) :
  index (Py.split [c] None s) 0 = Ok (before_char c s).
Proof. unfold Py.split. now rewrite split_head. Qed.

Lemma index_first_line (s : str) :
  index (Py.split NL None s) 0 = Ok (first_line s).
Proof. apply index_split_open. Qed.

End StringFacts.

(** ** Facts about the parser *)

Section ParserFacts.

Context {console : Console}.

Lemma text_after_none (m s : str) :
  Py.contains m s = false -> text_after m s = None.
Proof.
  induction s as [|x s IH]; simpl; intros Hc.
  - now rewrite Hc.
  - apply orb_false_iff in Hc as [Hp Hc]. rewrite Hp. auto.
Qed.

Lemma parse_tool_call_eq (r after : str) :
  text_after "TOOL:" r = Some after ->
  Agent.parse_tool_call r = Ok (PTool (tool_name after) (decoded_args (args_block r))).
Proof.
  intros Ha. unfold Agent.parse_tool_call.
  assert (Hafter : index (Py.split "TOOL:" (Some 1) r) 1 = Ok after).
  { unfold Py.split. now apply (@split_once_after 84%N (lit "OOL:")). }
  rewrite Hafter. cbn [bind].
  rewrite index_first_line. cbn [bind].
  assert (Hname :
    (if Py.contains "(" (Py.strip (first_line after))
     then head <- index (Py.split "(" None (Py.strip (first_line after))) 0 ;;
          Ok (Py.strip head)
     else Ok (Py.strip (first_line after))) = Ok (tool_name after)).
  { unfold tool_name. destruct (Py.contains _ _); [|reflexivity].
    now rewrite (index_split_open 40%N). }
  rewrite Hname. cbn [bind].
  assert (Hblock :
    (if Py.contains "ARGS:" r
     then a <- index (Py.split "ARGS:" (Some 1) r) 1 ;; Ok (Py.strip a)
     else Ok (lit "{}")) = Ok (args_block r)).
  { unfold args_block.
    destruct (Py.contains "ARGS:" r) eqn:Hc.
    - destruct (@index_split_after (lit "ARGS:") r) as [t [Ht Hi]];
        [discriminate | exact Hc |].
      now rewrite Hi, Ht.
    - now rewrite (text_after_none _ _ Hc). }
  rewrite Hblock. cbn [bind].
  unfold decoded_args. destruct (Agent.load_args (args_block r)); cbn.
  - reflexivity.
  - now rewrite index_first_line.
Qed.

Lemma parse_response_tool (s : str) :
  Py.contains "TOOL:" s = true ->
  exists after,
    text_after "TOOL:" (Py.strip s) = Some after
    /\ Agent.parse_response s
       = Ok (PTool (tool_name after) (decoded_args (args_block (Py.strip s)))).
Proof.
  intros Hc. unfold Agent.parse_response.
  rewrite contains_strip by reflexivity. rewrite Hc.
  rewrite <- (contains_strip "TOOL:" s) in Hc by reflexivity.
  destruct (@text_after_contains _ _ Hc) as [after Ha].
  exists after. split; [exact Ha|].
  now rewrite (@parse_tool_call_eq _ _ Ha).
Qed.

Lemma parse_response_answer (s : str) :
  Py.contains "TOOL:" s = false ->
  Py.contains "ANSWER:" s = true ->
  exists after,
    text_after "ANSWER:" (Py.strip s) = Some after
    /\ Agent.parse_response s = Ok (PAnswer (Py.strip after)).
Proof.
  intros Ht Hc. unfold Agent.parse_response.
  rewrite !contains_strip by reflexivity. rewrite Ht, Hc.
  rewrite <- (contains_strip "ANSWER:" s) in Hc by reflexivity.
  destruct (@index_split_after (lit "ANSWER:") (Py.strip s)) as [t [Ha Hi]];
    [discriminate | exact Hc |].
  exists t. split; [exact Ha|]. now rewrite Hi.
Qed.

Lemma parse_response_plain (s : str) :
  Py.contains "TOOL:" s = false ->
  Py.contains "ANSWER:" s = false ->
  Agent.parse_response s
  = if has_raw_pattern (Py.strip s)
    then (print (Agent.fallback_line (command_of (Py.strip s))) ;;
          Ok (PTool "run_command"
                (JDict [(lit "command", JStr (command_of (Py.strip s)))])))
    else Ok (PThought (Py.strip s)).
Proof.
  intros Ht Ha. unfold Agent.parse_response.
  rewrite !contains_strip by reflexivity. rewrite Ht, Ha.
  fold (has_raw_pattern (Py.strip s)).
  destruct (has_raw_pattern (Py.strip s)); [|reflexivity].
  unfold Agent.raw_command. now rewrite index_first_line.
Qed.

(** The parser of [agent_fixed.py] has the opposite priority: with an
    [ANSWER:] marker it answers, whatever else the response holds. *)
Lemma fixed_answer_marker_first (raw_fallback : str -> option Parsed) (s : str) :
  Py.contains "ANSWER:" s = true ->
  exists after,
    text_after "ANSWER:" (Py.strip s) = Some after
    /\ AgentFixed.parse_response raw_fallback s = Ok (PAnswer (Py.strip after)).
Proof.
  intros Hc. unfold AgentFixed.parse_response.
  rewrite contains_strip by reflexivity. rewrite Hc.
  rewrite <- (contains_strip "ANSWER:" s) in Hc by reflexivity.
  destruct (@index_split_after (lit "ANSWER:") (Py.strip s)) as [t [Ha Hi]];
    [discriminate | exact Hc |].
  rewrite Hi. cbn. eauto.
Qed.

(** The only exception that leaves the parser is the one of its
    [print]. *)
Lemma parse_response_cases (s : str) :
  (exists p, Agent.parse_response s = Ok p)
  \/ (Py.contains "TOOL:" s = false /\ Py.contains "ANSWER:" s = false
      /\ has_raw_pattern (Py.strip s) = true
      /\ print (Agent.fallback_line (command_of (Py.strip s)))
         = Raise (lit "codec can't encode character")
      /\ Agent.parse_response s = Raise (lit "codec can't encode character")).
Proof.
  destruct (Py.contains "TOOL:" s) eqn:Ht.
  - destruct (parse_response_tool s Ht) as [after [_ Hp]]. eauto.
  - destruct (Py.contains "ANSWER:" s) eqn:Ha.
    + destruct (parse_response_answer s Ht Ha) as [after [_ Hp]]. eauto.
    + rewrite (parse_response_plain s Ht Ha).
      destruct (has_raw_pattern (Py.strip s)); [|eauto].
      unfold print.
      destruct (encodable (Agent.fallback_line (command_of (Py.strip s)) ++ NL));
        cbn [bind]; [eauto | right; repeat split; reflexivity].
Qed.

End ParserFacts.

(** ** The parser: priority, totality, argument decoding *)

Unset Implicit Arguments.

(** C1, as the code has it.  On a response that contains both a [TOOL:]
    marker and an [ANSWER:] marker the two parsers differ.  The one of
    [agent.py] looks for [TOOL:] first and returns a tool call, never an
    answer.  The one of [agent_fixed.py] looks for [ANSWER:] first and
    returns an answer, the trimmed text after the first [ANSWER:],
    never a tool call. *)
Theorem priority_of_the_two_parsers {console : Console}
    (raw_fallback : str -> option Parsed) (s : str) :
  Py.contains "TOOL:" s = true ->
  Py.contains "ANSWER:" s = true ->
  (exists tool args, Agent.parse_response s = Ok (PTool tool args))
  /\ (exists after,
        text_after "ANSWER:" (Py.strip s) = Some after
        /\ AgentFixed.parse_response raw_fallback s
           = Ok (PAnswer (Py.strip after))).
Proof.
  intros Ht Ha. split.
  - destruct (parse_response_tool s Ht) as [after [_ Hp]]. rewrite Hp. eauto.
  - exact (fixed_answer_marker_first raw_fallback s Ha).
Qed.

Lemma priority_of_the_two_parsers_witness :
  let s := lit "ANSWER: all good" ++ NL ++ lit "TOOL: git_status" in
  Py.contains "TOOL:" s = true /\ Py.contains "ANSWER:" s = true
  /\ (exists tool args, Agent.parse_response s = Ok (PTool tool args))
  /\ (exists after,
        text_after "ANSWER:" (Py.strip s) = Some after
        /\ AgentFixed.parse_response (fun _ => None) s
           = Ok (PAnswer (Py.strip after))).
Proof.
  split; [reflexivity | split; [reflexivity|]].
  apply (priority_of_the_two_parsers (fun _ => None)
           (lit "ANSWER: all good" ++ NL ++ lit "TOOL: git_status"));
    reflexivity.
Defined.

(** C1 as stated fails for [agent_fixed.py]: the response [ANSWER: all
    good], a newline, [TOOL: git_status] holds both markers and is
    parsed as an answer there, while [agent.py] parses it as a call of
    [git_status]. *)
Lemma answer_marker_first_in_agent_fixed :
  let s := lit "ANSWER: all good" ++ NL ++ lit "TOOL: git_status" in
  Py.contains "TOOL:" s = true /\ Py.contains "ANSWER:" s = true
  /\ AgentFixed.parse_response (fun _ => None) s
     = Ok (PAnswer (lit "all good" ++ NL ++ lit "TOOL: git_status"))
  /\ AgentFixed.parse_response (fun _ => None) s
     <> Ok (PTool "git_status" (JDict []))
  /\ Agent.parse_response s = Ok (PTool "git_status" (JDict [])).
Proof.
  repeat split; try reflexivity. discriminate.
Qed.

(** C6.  [parse_response] is not total.  On a response without markers
    that holds a raw command pattern it prints a line with the first 50
    characters of the command, outside any [try]; when the console
    cannot encode one of them, [UnicodeEncodeError] leaves the parser.
    So it is for [curl] and the lone surrogate U+D800 on a UTF-8
    console, and for [curl] and the euro sign on a Latin-1 console.
    This print is the only way out: on every other response, and
    whenever the line can be printed, a parsed response is returned. *)
Theorem parse_response_raises_at_its_print :
  @Agent.parse_response utf8_console (lit "curl " ++ [55296%N])
  = Raise (lit "codec can't encode character")
  /\ @Agent.parse_response latin1_console (lit "curl " ++ [8364%N])
     = Raise (lit "codec can't encode character")
  /\ forall (console : Console) (s : str),
       (exists p, Agent.parse_response s = Ok p)
       \/ (Py.contains "TOOL:" s = false /\ Py.contains "ANSWER:" s = false
           /\ has_raw_pattern (Py.strip s) = true
           /\ print (Agent.fallback_line (command_of (Py.strip s)))
              = Raise (lit "codec can't encode character")
           /\ Agent.parse_response s
              = Raise (lit "codec can't encode character")).
Proof.
  split; [reflexivity | split; [reflexivity|]].
  intros console s. apply parse_response_cases.
Qed.

(** C7. When the block after [ARGS:] is the unterminated text
    [{not valid json], the arguments of the tool call are the single
    field [raw] holding that text. *)
Theorem unparsable_args_become_raw {console : Console} (s block : str) :
  Py.contains "TOOL:" s = true ->
  text_after "ARGS:" (Py.strip s) = Some block ->
  Py.strip block = lit "{not valid json" ->
  exists tool,
    Agent.parse_response s
    = Ok (PTool tool (JDict [(lit "raw", JStr "{not valid json")])).
Proof.
  intros Ht Hb Hs. destruct (parse_response_tool s Ht) as [after [_ Hp]].
  exists (tool_name after). rewrite Hp. unfold args_block.
  rewrite Hb, Hs. reflexivity.
Qed.

Lemma unparsable_args_become_raw_witness :
  let s := lit "TOOL: read_file" ++ NL ++ lit "ARGS: {not valid json" in
  Py.contains "TOOL:" s = true
  /\ text_after "ARGS:" (Py.strip s) = Some (lit " {not valid json")
  /\ Py.strip " {not valid json" = lit "{not valid json"
  /\ exists tool,
       Agent.parse_response s
       = Ok (PTool tool (JDict [(lit "raw", JStr "{not valid json")])).
Proof.
  split; [reflexivity | split; [reflexivity | split; [reflexivity|]]].
  apply (unparsable_args_become_raw
           (lit "TOOL: read_file" ++ NL ++ lit "ARGS: {not valid json")
           (lit " {not valid json")); reflexivity.
Defined.

(** C8. When the block after [ARGS:] begins with [{"a": {"b": 1}}], the
    arguments are the object [{"a": {"b": 1}}], whatever text follows
    the closing brace, on the same line or, as [extra text] here, after
    a newline: the first balanced span of braces is decoded, the text
    after it is not read. *)
Theorem balanced_span_is_decoded {console : Console} (s block rest : str) :
  Py.contains "TOOL:" s = true ->
  text_after "ARGS:" (Py.strip s) = Some block ->
  Py.strip block = json_a_b_1 ++ rest ->
  exists tool,
    Agent.parse_response s
    = Ok (PTool tool (JDict [(lit "a", JDict [(lit "b", JInt 1)])])).
Proof.
  intros Ht Hb Hs. destruct (parse_response_tool s Ht) as [after [_ Hp]].
  exists (tool_name after). rewrite Hp. unfold args_block.
  rewrite Hb, Hs. reflexivity.
Qed.

Lemma balanced_span_is_decoded_witness :
  let block := lit " " ++ json_a_b_1 ++ NL ++ lit "extra text" in
  let s := lit "TOOL: write_file" ++ NL ++ lit "ARGS:" ++ block in
  let block' := lit " " ++ json_a_b_1 ++ lit " extra text" in
  let s' := lit "TOOL: write_file" ++ NL ++ lit "ARGS:" ++ block' in
  (Py.contains "TOOL:" s = true
   /\ text_after "ARGS:" (Py.strip s) = Some block
   /\ Py.strip block = json_a_b_1 ++ (NL ++ lit "extra text")
   /\ exists tool,
        Agent.parse_response s
        = Ok (PTool tool (JDict [(lit "a", JDict [(lit "b", JInt 1)])])))
  /\ (Py.contains "TOOL:" s' = true
      /\ text_after "ARGS:" (Py.strip s') = Some block'
      /\ Py.strip block' = json_a_b_1 ++ lit " extra text"
      /\ exists tool,
           Agent.parse_response s'
           = Ok (PTool tool (JDict [(lit "a", JDict [(lit "b", JInt 1)])]))).
Proof.
  split.
  - split; [reflexivity | split; [reflexivity | split; [reflexivity|]]].
    apply (balanced_span_is_decoded
             (lit "TOOL: write_file" ++ NL ++ lit "ARGS:"
              ++ (lit " " ++ json_a_b_1 ++ NL ++ lit "extra text"))
             (lit " " ++ json_a_b_1 ++ NL ++ lit "extra text")
             (NL ++ lit "extra text")); reflexivity.
  - split; [reflexivity | split; [reflexivity | split; [reflexivity|]]].
    apply (balanced_span_is_decoded
             (lit "TOOL: write_file" ++ NL ++ lit "ARGS:"
              ++ (lit " " ++ json_a_b_1 ++ lit " extra text"))
             (lit " " ++ json_a_b_1 ++ lit " extra text")
             (lit " extra text")); reflexivity.
Defined.

(** C10, as the code has it.  A response with a [TOOL:] marker, no
    [ARGS:] marker and no [ANSWER:] marker is a tool call with the empty
    mapping as arguments.  In [agent.py] the tool name is the trimmed
    first line after [TOOL:] cut at its first opening parenthesis, which
    is that trimmed line itself when it has no parenthesis; in
    [agent_fixed.py] it is the trimmed line, uncut. *)
Theorem tool_without_args {console : Console}
    (raw_fallback : str -> option Parsed) (s : str) :
  Py.contains "TOOL:" s = true ->
  Py.contains "ARGS:" s = false ->
  Py.contains "ANSWER:" s = false ->
  exists after,
    text_after "TOOL:" (Py.strip s) = Some after
    /\ Agent.parse_response s = Ok (PTool (tool_name after) (JDict []))
    /\ (Py.contains "(" (Py.strip (first_line after)) = false ->
        tool_name after = Py.strip (first_line after))
    /\ AgentFixed.parse_response raw_fallback s
       = Ok (PTool (Py.strip (first_line after)) (JDict [])).
Proof.
  intros Ht Hargs Hans.
  destruct (parse_response_tool s Ht) as [after [Ha Hp]].
  rewrite <- (contains_strip "ARGS:" s) in Hargs by reflexivity.
  exists after. split; [exact Ha | split; [|split]].
  - rewrite Hp. unfold args_block.
    now rewrite (text_after_none _ _ Hargs).
  - intros Hparen. unfold tool_name. now rewrite Hparen.
  - unfold AgentFixed.parse_response.
    rewrite !contains_strip by reflexivity. rewrite Hans, Ht.
    unfold AgentFixed.parse_tool_call.
    assert (Hafter : index (Py.split "TOOL:" (Some 1) (Py.strip s)) 1 = Ok after).
    { unfold Py.split. now apply (@split_once_after 84%N (lit "OOL:")). }
    rewrite Hafter. cbn [bind]. rewrite index_first_line. cbn [bind].
    rewrite Hargs. reflexivity.
Qed.

Lemma tool_without_args_witness :
  let s := lit "I will look." ++ NL ++ lit "TOOL: docker_ps " ++ NL ++ lit "done" in
  Py.contains "TOOL:" s = true /\ Py.contains "ARGS:" s = false
  /\ Py.contains "ANSWER:" s = false
  /\ exists after,
       text_after "TOOL:" (Py.strip s) = Some after
       /\ Agent.parse_response s = Ok (PTool (tool_name after) (JDict []))
       /\ (Py.contains "(" (Py.strip (first_line after)) = false ->
           tool_name after = Py.strip (first_line after))
       /\ AgentFixed.parse_response (fun _ => None) s
          = Ok (PTool (Py.strip (first_line after)) (JDict [])).
Proof.
  split; [reflexivity | split; [reflexivity | split; [reflexivity|]]].
  apply (tool_without_args (fun _ => None)
           (lit "I will look." ++ NL ++ lit "TOOL: docker_ps " ++ NL ++ lit "done"));
    reflexivity.
Defined.

(** C10 as stated fails in [agent.py]: for [TOOL: list_files(path)] the
    first line after the marker is [list_files(path)], the tool name
    returned is [list_files]. *)
Lemma tool_name_is_cut_at_parenthesis :
  let s := lit "TOOL: list_files(path)" in
  Py.contains "TOOL:" s = true /\ Py.contains "ARGS:" s = false
  /\ Py.contains "ANSWER:" s = false
  /\ text_after "TOOL:" (Py.strip s) = Some (lit " list_files(path)")
  /\ Py.strip (first_line " list_files(path)") = lit "list_files(path)"
  /\ Agent.parse_response s = Ok (PTool "list_files" (JDict []))
  /\ Agent.parse_response s <> Ok (PTool "list_files(path)" (JDict [])).
Proof.
  repeat split; try reflexivity. discriminate.
Qed.

(** ** The orchestrator: order of the results, isolation of failures *)

Module OrchestratorFacts.

Import Orchestrator.

Section Sorting.

Context {A : Type}.

Lemma insert_by_key_perm (x : nat * A) (l : list (nat * A)) :
  Permutation (insert_by_key x l) (x :: l).
Proof.
  induction l as [|y l IH]; cbn; [reflexivity|].
  destruct (fst x <=? fst y); [reflexivity|].
  rewrite IH. apply perm_swap.
Qed.

Lemma sort_by_key_perm (l : list (nat * A)) : Permutation (sort_by_key l) l.
Proof.
  induction l as [|x l IH]; cbn; [reflexivity|].
  rewrite insert_by_key_perm. now constructor.
Qed.

Lemma insert_by_key_sorted (x : nat * A) (l : list (nat * A)) :
  StronglySorted key_le l -> StronglySorted key_le (insert_by_key x l).
Proof.
  induction 1 as [|y l Hs IH Hy]; cbn.
  - repeat constructor.
  - destruct (fst x <=? fst y) eqn:E.
    + apply Nat.leb_le in E. constructor; [now constructor|].
      constructor; [exact E|].
      eapply Forall_impl; [|exact Hy]. unfold key_le. intros; lia.
    + apply Nat.leb_gt in E. constructor; [exact IH|].
      rewrite insert_by_key_perm. constructor; [unfold key_le; lia | exact Hy].
Qed.

Lemma sort_by_key_sorted (l : list (nat * A)) :
  StronglySorted key_le (sort_by_key l).
Proof.
  induction l as [|x l IH]; cbn; [constructor | now apply insert_by_key_sorted].
Qed.

(** A list sorted by key is the only sorted arrangement of a list with
    strictly increasing keys. *)
Lemma sorted_perm_unique (l2 : list (nat * A)) :
  StronglySorted key_lt l2 ->
  forall l1, StronglySorted key_le l1 -> Permutation l1 l2 -> l1 = l2.
Proof.
  induction 1 as [|y l2 Hs IH Hy]; intros l1 H1 Hp.
  - symmetry in Hp. now apply Permutation_nil in Hp.
  - destruct l1 as [|x l1].
    + now apply Permutation_nil in Hp.
    + inversion H1 as [|? ? H1' Hx]; subst.
      assert (x = y) as ->.
      { assert (Hxin : In x (y :: l2))
          by (eapply Permutation_in; [exact Hp | now left]).
        assert (Hyin : In y (x :: l1))
          by (eapply Permutation_in; [symmetry; exact Hp | now left]).
        destruct Hxin as [<-|Hxin]; [reflexivity|].
        destruct Hyin as [->|Hyin]; [reflexivity|].
        rewrite Forall_forall in Hx, Hy.
        specialize (Hx _ Hyin). specialize (Hy _ Hxin).
        unfold key_le, key_lt in *. lia. }
      f_equal. apply IH; [exact H1' | eapply Permutation_cons_inv; exact Hp].
Qed.

Lemma enumerate_from_sorted {B : Type} (g : nat * B -> A) (i : nat) (l : list B) :
  (forall f, In f (enumerate_from i l) -> i <= fst f)
  /\ StronglySorted key_lt
       (map (fun f => (fst f, g f)) (enumerate_from i l)).
Proof.
  revert i; induction l as [|b l IH]; intros i; cbn.
  - split; [contradiction | constructor].
  - destruct (IH (S i)) as [Hlow Hs]. split.
    + intros f [<-|Hf]; [cbn; lia | specialize (Hlow f Hf); lia].
    + constructor; [exact Hs|].
      rewrite Forall_map, Forall_forall. intros f Hf.
      specialize (Hlow f Hf). unfold key_lt. cbn. lia.
Qed.

End Sorting.

Section Results.

Variable run_agent : nat -> str -> Exc Result.

Lemma collect_keyed (completed : list (nat * str)) (results : list (nat * Result)) :
  fold_left (collect run_agent) completed results
  = results ++ map (keyed run_agent) completed.
Proof.
  revert results; induction completed as [|[i task] l IH]; intros results; cbn.
  - now rewrite app_nil_r.
  - rewrite IH. unfold collect, keyed, slot. cbn.
    destruct (run_agent i task); now rewrite <- app_assoc.
Qed.

Lemma execute_parallel_in_order (max_workers : Z) (subtasks : list str)
    (completed : list (nat * str)) :
  (0 < max_workers)%Z ->
  Permutation completed (enumerate subtasks) ->
  execute_parallel run_agent max_workers completed
  = Ok (map (slot run_agent) (enumerate subtasks)).
Proof.
  intros Hw Hp. unfold execute_parallel.
  destruct (Z.leb_spec max_workers 0); [lia|].
  rewrite collect_keyed. cbn [app].
  assert (E : sort_by_key (map (keyed run_agent) completed)
              = map (keyed run_agent) (enumerate subtasks)).
  { apply sorted_perm_unique.
    - apply (enumerate_from_sorted (slot run_agent) 0 subtasks).
    - apply sort_by_key_sorted.
    - rewrite sort_by_key_perm. now apply Permutation_map. }
  rewrite E, map_map. reflexivity.
Qed.

Lemma enumerate_from_nth {B : Type} (l : list B) (i k : nat) :
  nth_error (enumerate_from i l) k = option_map (fun b => (i + k, b)) (nth_error l k).
Proof.
  revert i k; induction l as [|b l IH]; intros i [|k]; cbn; try reflexivity.
  - now rewrite Nat.add_0_r.
  - rewrite IH. destruct (nth_error l k); cbn; [|reflexivity].
    do 2 f_equal. lia.
Qed.

Lemma enumerate_from_length {B : Type} (l : list B) (i : nat) :
  List.length (enumerate_from i l) = List.length l.
Proof. revert i; induction l; intros; cbn; auto. Qed.

Lemma results_slots (max_workers : Z) (subtasks : list str)
    (completed : list (nat * str)) :
  (0 < max_workers)%Z ->
  Permutation completed (enumerate subtasks) ->
  exists results,
    execute_parallel run_agent max_workers completed = Ok results
    /\ List.length results = List.length subtasks
    /\ forall i task,
         nth_error subtasks i = Some task ->
         nth_error results i = Some (slot run_agent (i, task)).
Proof.
  intros Hw Hp.
  rewrite (execute_parallel_in_order max_workers subtasks completed Hw Hp).
  eexists. split; [reflexivity|]. split.
  - unfold enumerate. now rewrite length_map, enumerate_from_length.
  - intros i task Hi. unfold enumerate.
    rewrite nth_error_map, enumerate_from_nth, Hi. reflexivity.
Qed.

End Results.

End OrchestratorFacts.

Import Orchestrator OrchestratorFacts.

(** C4. Whatever the order in which the futures of a pool with at
    least one worker complete, [execute_parallel] returns a list with
    one result per subtask, and the result at index [i] is the one kept
    for the future of subtask [i]. *)
Theorem results_aligned_with_subtasks (run_agent : nat -> str -> Exc Result)
    (max_workers : Z) (subtasks : list str) (completed : list (nat * str)) :
  (0 < max_workers)%Z ->
  Permutation completed (enumerate subtasks) ->
  exists results,
    execute_parallel run_agent max_workers completed = Ok results
    /\ List.length results = List.length subtasks
    /\ forall i task,
         nth_error subtasks i = Some task ->
         nth_error results i = Some (slot run_agent (i, task)).
Proof.
  exact (results_slots run_agent max_workers subtasks completed).
Qed.

Lemma out_of_order_perm : Permutation out_of_order (enumerate four_subtasks).
Proof.
  apply (Permutation_cons_app
           [(0, lit "check git"); (1, lit "list files"); (2, lit "get pods")] []).
  apply (Permutation_cons_app [] [(1, lit "list files"); (2, lit "get pods")]).
  apply perm_swap.
Defined.

Lemma results_aligned_with_subtasks_witness :
  (0 < 2)%Z
  /\ Permutation out_of_order (enumerate four_subtasks)
  /\ exists results,
       execute_parallel third_raises 2 out_of_order = Ok results
       /\ List.length results = List.length four_subtasks
       /\ forall i task,
            nth_error four_subtasks i = Some task ->
            nth_error results i = Some (slot third_raises (i, task)).
Proof.
  split; [reflexivity | split; [exact out_of_order_perm|]].
  exact (results_aligned_with_subtasks third_raises 2 four_subtasks out_of_order
           eq_refl out_of_order_perm).
Defined.

(** C5. When the agent of one subtask raises, [execute_parallel] still
    returns one result per subtask: the slot of the failed subtask
    holds a result of status [error] with the text of the exception and
    zero iterations, and every other subtask's slot holds the result
    its own agent returned. *)
Theorem failure_stays_in_its_slot (run_agent : nat -> str -> Exc Result)
    (max_workers : Z) (subtasks : list str) (completed : list (nat * str)) :
  (0 < max_workers)%Z ->
  Permutation completed (enumerate subtasks) ->
  exists results,
    execute_parallel run_agent max_workers completed = Ok results
    /\ List.length results = List.length subtasks
    /\ forall i task,
         nth_error subtasks i = Some task ->
         (forall e, run_agent i task = Raise e ->
            exists failed,
              nth_error results i = Some failed
              /\ failed = AgentError (lit "Agent error: " ++ e) 0
              /\ status failed = lit "error"
              /\ iterations failed = 0)
         /\ (forall result, run_agent i task = Ok result ->
               nth_error results i = Some result).
Proof.
  intros Hw Hp.
  destruct (results_slots run_agent max_workers subtasks completed Hw Hp)
    as [results [Hr [Hlen Hnth]]].
  exists results. split; [exact Hr | split; [exact Hlen|]].
  intros i task Hi. rewrite (Hnth i task Hi).
  unfold slot. cbn [fst snd]. split.
  - intros e ->. eexists. repeat split.
  - now intros result ->.
Qed.

Lemma failure_stays_in_its_slot_witness :
  (0 < 2)%Z
  /\ Permutation out_of_order (enumerate four_subtasks)
  /\ exists results,
       execute_parallel third_raises 2 out_of_order = Ok results
       /\ List.length results = List.length four_subtasks
       /\ forall i task,
            nth_error four_subtasks i = Some task ->
            (forall e, third_raises i task = Raise e ->
               exists failed,
                 nth_error results i = Some failed
                 /\ failed = AgentError (lit "Agent error: " ++ e) 0
                 /\ status failed = lit "error"
                 /\ iterations failed = 0)
            /\ (forall result, third_raises i task = Ok result ->
                  nth_error results i = Some result).
Proof.
  split; [reflexivity | split; [exact out_of_order_perm|]].
  exact (failure_stays_in_its_slot third_raises 2 four_subtasks out_of_order
           eq_refl out_of_order_perm).
Defined.

Example execute_parallel_ex :
  execute_parallel third_raises 2 out_of_order
  = Ok [ Complete "agent" "check git" 1; Complete "agent" "list files" 2;
         AgentError "Agent error: connection reset" 0;
         Complete "agent" "read logs" 4 ].
Proof. reflexivity. Qed.

Example execute_parallel_no_worker :
  execute_parallel third_raises 0 out_of_order
  = Raise (lit "max_workers must be greater than 0").
Proof. reflexivity. Qed.

(** ** More facts about the string operations *)

Section MoreStringFacts.

Lemma str_eqb_eq (a b : str) : str_eqb a b = true <-> a = b.
Proof.
  revert b; induction a as [|x a IH]; intros [|y b]; cbn;
    try (split; [discriminate | discriminate]); [tauto|].
  rewrite andb_true_iff, ch_eqb_eq, IH. split.
  - intros [-> ->]. reflexivity.
  - intros [= -> ->]. split; reflexivity.
Qed.

Lemma is_space_spec (c : char) :
  Py.is_space c = true <->
  (9 <= c <= 13 \/ 28 <= c <= 32 \/ c = 133 \/ c = 160 \/ c = 5760
   \/ 8192 <= c <= 8202 \/ c = 8232 \/ c = 8233 \/ c = 8239 \/ c = 8287
   \/ c = 12288)%N.
Proof.
  unfold Py.is_space.
  rewrite !orb_true_iff, !andb_true_iff, !N.leb_le, !N.eqb_eq. tauto.
Qed.

Lemma lower_char_cases (c : char) :
  (Py.lower_char c = c /\ ~ (65 <= c <= 90 \/ (192 <= c <= 222 /\ c <> 215)))%N
  \/ (Py.lower_char c = c + 32
      /\ (65 <= c <= 90 \/ (192 <= c <= 222 /\ c <> 215)))%N.
Proof.
  unfold Py.lower_char.
  destruct (_ || _) eqn:E.
  - right. split; [reflexivity|].
    rewrite orb_true_iff, !andb_true_iff, negb_true_iff, !N.leb_le, N.eqb_neq in E.
    tauto.
  - left. split; [reflexivity|]. intros H.
    assert (T : ((65 <=? c) && (c <=? 90)
                 || (192 <=? c) && (c <=? 222) && negb (c =? 215))%N = true).
    { rewrite orb_true_iff, !andb_true_iff, negb_true_iff, !N.leb_le, N.eqb_neq.
      tauto. }
    congruence.
Qed.

Lemma lower_char_idem (c : char) : Py.lower_char (Py.lower_char c) = Py.lower_char c.
Proof.
  destruct (lower_char_cases c) as [[E _] | [E H]]; rewrite E.
  - exact E.
  - destruct (lower_char_cases (c + 32)%N) as [[E' _] | [_ H']];
      [exact E' | lia].
Qed.

Lemma is_space_lower_char (c : char) :
  Py.is_space (Py.lower_char c) = Py.is_space c.
Proof.
  destruct (lower_char_cases c) as [[E _] | [E H]]; rewrite E; [reflexivity|].
  destruct (Py.is_space (c + 32)%N) eqn:E1; destruct (Py.is_space c) eqn:E2;
    try reflexivity;
    try (apply is_space_spec in E1); try (apply is_space_spec in E2); lia.
Qed.

Lemma lower_idem (s : str) : Py.lower (Py.lower s) = Py.lower s.
Proof.
  unfold Py.lower. rewrite map_map. apply map_ext. apply lower_char_idem.
Qed.

Lemma lower_lstrip (s : str) : Py.lower (Py.lstrip s) = Py.lstrip (Py.lower s).
Proof.
  induction s as [|x s IH]; [reflexivity|]. cbn.
  rewrite is_space_lower_char. destruct (Py.is_space x); [exact IH | reflexivity].
Qed.

Lemma lower_strip (s : str) : Py.lower (Py.strip s) = Py.strip (Py.lower s).
Proof.
  unfold Py.strip, Py.rstrip, Py.lower.
  rewrite map_rev. fold (Py.lower (Py.lstrip (rev (Py.lstrip s)))).
  rewrite lower_lstrip. unfold Py.lower at 1. rewrite map_rev.
  fold (Py.lower (Py.lstrip s)). now rewrite lower_lstrip.
Qed.

Lemma lstrip_head (s : str) :
  match Py.lstrip s with
  | c :: _ => Py.is_space c = false
  | [] => True
  end.
Proof.
  induction s as [|x s IH]; cbn; [exact I|].
  destruct (Py.is_space x) eqn:E; [exact IH | exact E].
Qed.

Lemma lstrip_fixed (s : str) :
  match s with
  | c :: _ => Py.is_space c = false
  | [] => True
  end -> Py.lstrip s = s.
Proof. destruct s as [|c s]; cbn; [reflexivity | now intros ->]. Qed.

Lemma lstrip_idem (s : str) : Py.lstrip (Py.lstrip s) = Py.lstrip s.
Proof. apply lstrip_fixed, lstrip_head. Qed.

Lemma lstrip_suffix (s : str) :
  exists ws, s = ws ++ Py.lstrip s /\ forallb Py.is_space ws = true.
Proof.
  induction s as [|x s [ws [E F]]]; [now exists []|]. cbn.
  destruct (Py.is_space x) eqn:Hx.
  - exists (x :: ws). cbn. rewrite Hx, F. split; [now rewrite <- E | reflexivity].
  - now exists [].
Qed.

Lemma strip_fixed (s : str) : Py.lstrip s = s -> Py.rstrip s = s -> Py.strip s = s.
Proof. unfold Py.strip. now intros -> ->. Qed.

Lemma strip_idem (s : str) : Py.strip (Py.strip s) = Py.strip s.
Proof.
  apply strip_fixed.
  - unfold Py.strip, Py.rstrip.
    destruct (lstrip_suffix (rev (Py.lstrip s))) as [ws [E _]].
    set (u := Py.lstrip (rev (Py.lstrip s))) in *.
    apply lstrip_fixed.
    destruct (rev u) as [|c r] eqn:Hr; [exact I|].
    assert (Ht : Py.lstrip s = c :: r ++ rev ws).
    { rewrite <- (rev_involutive (Py.lstrip s)), E, rev_app_distr, Hr.
      reflexivity. }
    pose proof (lstrip_head s) as Hh. now rewrite Ht in Hh.
  - unfold Py.strip, Py.rstrip. now rewrite rev_involutive, lstrip_idem.
Qed.

Lemma normalise_idem (s : str) :
  Py.strip (Py.lower (Py.strip (Py.lower s))) = Py.strip (Py.lower s).
Proof. now rewrite lower_strip, lower_idem, strip_idem. Qed.

Lemma split_skip (sep : str) (maxsplit : option nat) (skip : nat) (cur s : str) :
  Py.split_aux sep maxsplit skip cur s
  = Py.split_aux sep maxsplit 0 cur (skipn skip s).
Proof.
  revert skip; induction s as [|x s IH]; intros [|k]; try reflexivity.
  cbn [Py.split_aux skipn]. apply IH.
Qed.

Lemma split_first_piece (sep : str) (maxsplit : option nat) (cur s : str) :
  Py.may_split maxsplit = true ->
  exists rest,
    Py.split_aux sep maxsplit 0 cur s = (rev cur ++ text_before sep s) :: rest.
Proof.
  intros Hm. revert cur; induction s as [|x s IH]; intros cur.
  - cbn. destruct (Py.startswith sep []); rewrite app_nil_r; eauto.
  - cbn [Py.split_aux text_before]. rewrite Hm. cbn [andb].
    destruct (Py.startswith sep (x :: s)).
    + rewrite app_nil_r. eauto.
    + destruct (IH (x :: cur)) as [rest Hr]. rewrite Hr. cbn.
      rewrite <- app_assoc. eauto.
Qed.

Lemma split_second_piece (c : char) (m s t cur : str) :
  text_after (c :: m) s = Some t ->
  index (Py.split_aux (c :: m) None 0 cur s) 1 = Ok (text_before (c :: m) t).
Proof.
  revert cur; induction s as [|x s IH]; intros cur; [discriminate|].
  cbn [text_after Py.split_aux Py.may_split andb].
  destruct (Py.startswith (c :: m) (x :: s)).
  - intros [= <-]. cbn [Py.dec_split option_map].
    rewrite split_skip.
    destruct (split_first_piece (c :: m) None []
                (skipn (List.length (c :: m) - 1) s) eq_refl) as [rest Hr].
    rewrite Hr. cbn. now rewrite Nat.sub_0_r.
  - apply IH.
Qed.

End MoreStringFacts.

(** ** More about the parser of [agent.py] *)

Section MoreParserFacts.

Lemma lstrip_app_space (ws s : str) :
  forallb Py.is_space ws = true -> Py.lstrip (ws ++ s) = Py.lstrip s.
Proof.
  induction ws as [|x ws IH]; cbn; [reflexivity|].
  intros H. apply andb_true_iff in H as [-> H]. auto.
Qed.

Lemma strip_pad (pre post s : str) :
  forallb Py.is_space pre = true ->
  forallb Py.is_space post = true ->
  Py.strip (pre ++ s ++ post) = Py.strip s.
Proof.
  intros Hpre Hpost. unfold Py.strip.
  rewrite lstrip_app_space by exact Hpre.
  destruct (lstrip_suffix s) as [ws [E Hws]].
  rewrite E at 1. rewrite <- app_assoc, lstrip_app_space by exact Hws.
  assert (Hrev : forallb Py.is_space (rev post) = true).
  { rewrite forallb_forall in *. intros x Hx. apply Hpost. now apply in_rev. }
  pose proof (lstrip_head s) as Hh.
  destruct (Py.lstrip s) as [|c l].
  - cbn [app]. rewrite <- (app_nil_r post), lstrip_app_space by exact Hpost.
    reflexivity.
  - cbn [app Py.lstrip]. rewrite Hh. unfold Py.rstrip.
    change (c :: l ++ post) with ((c :: l) ++ post).
    now rewrite rev_app_distr, lstrip_app_space by exact Hrev.
Qed.

Lemma strip_inside (s : str) : exists a b, s = a ++ Py.strip s ++ b.
Proof.
  unfold Py.strip, Py.rstrip.
  destruct (lstrip_suffix s) as [a [Ea _]].
  destruct (lstrip_suffix (rev (Py.lstrip s))) as [b [Eb _]].
  exists a, (rev b). rewrite Ea at 1. f_equal.
  rewrite <- (rev_involutive (Py.lstrip s)) at 1. rewrite Eb at 1.
  now rewrite rev_app_distr.
Qed.

Lemma contains_inside (m a s b : str) :
  Py.contains m (a ++ s ++ b) = false -> Py.contains m s = false.
Proof.
  intros H. destruct (Py.contains m s) eqn:E; [|reflexivity].
  apply contains_app in E as [x [y ->]].
  assert (T : Py.contains m (a ++ (x ++ m ++ y) ++ b) = true).
  { apply contains_app. exists (a ++ x), (y ++ b).
    now rewrite <- !app_assoc. }
  congruence.
Qed.

Lemma contains_strip_false (m s : str) :
  Py.contains m s = false -> Py.contains m (Py.strip s) = false.
Proof.
  intros H. destruct (strip_inside s) as [a [b E]]. rewrite E in H.
  exact (contains_inside _ _ _ _ H).
Qed.

Lemma before_char_prefix (c : char) (s : str) :
  exists rest, s = before_char c s ++ rest.
Proof.
  induction s as [|x s [rest IH]]; cbn; [now exists []|].
  destruct (Py.ch_eqb c x); [now exists (x :: s)|].
  exists rest. cbn. now rewrite <- IH.
Qed.

Lemma before_char_free (c : char) (s : str) :
  Py.contains [c] (before_char c s) = false.
Proof.
  induction s as [|x s IH]; cbn; [reflexivity|].
  destruct (Py.ch_eqb c x) eqn:E; [reflexivity|].
  cbn. now rewrite E, IH.
Qed.

Lemma tool_name_clean (after : str) :
  Py.contains "(" (tool_name after) = false
  /\ Py.contains NL (tool_name after) = false
  /\ Py.strip (tool_name after) = tool_name after.
Proof.
  unfold tool_name.
  assert (Hnl : Py.contains NL (Py.strip (first_line after)) = false)
    by (apply contains_strip_false, before_char_free).
  destruct (Py.contains "(" (Py.strip (first_line after))) eqn:Hp.
  - split; [|split].
    + apply contains_strip_false. apply (before_char_free 40%N).
    + apply contains_strip_false.
      destruct (before_char_prefix 40%N (Py.strip (first_line after))) as [rest E].
      rewrite E in Hnl. apply (contains_inside NL [] _ rest). exact Hnl.
    + apply strip_idem.
  - split; [exact Hp | split; [exact Hnl | apply strip_idem]].
Qed.

End MoreParserFacts.

(** X1. Without a [TOOL:] marker, a response with an [ANSWER:] marker is
    an answer whose content is the trimmed text after the first
    [ANSWER:]; later markers stay in the content. *)
Theorem answer_is_text_after_first_marker {console : Console} (s : str) :
  Py.contains "TOOL:" s = false ->
  Py.contains "ANSWER:" s = true ->
  exists after,
    text_after "ANSWER:" (Py.strip s) = Some after
    /\ Agent.parse_response s = Ok (PAnswer (Py.strip after)).
Proof. exact (parse_response_answer s). Qed.

Lemma answer_is_text_after_first_marker_witness :
  let s := lit "So: ANSWER: 7 pods. ANSWER: none failing " in
  Py.contains "TOOL:" s = false /\ Py.contains "ANSWER:" s = true
  /\ exists after,
       text_after "ANSWER:" (Py.strip s) = Some after
       /\ Agent.parse_response s = Ok (PAnswer (Py.strip after)).
Proof.
  split; [reflexivity | split; [reflexivity|]].
  apply (answer_is_text_after_first_marker
           (lit "So: ANSWER: 7 pods. ANSWER: none failing ")); reflexivity.
Defined.

(** X2. The parser never returns the [error] shape: whatever the
    response, the result is a tool call, an answer or a thought. *)
Theorem parse_response_never_error {console : Console} (s : str) (p : Parsed) :
  Agent.parse_response s = Ok p -> ptype p <> lit "error".
Proof.
  intros Hp.
  destruct (Py.contains "TOOL:" s) eqn:Ht.
  - destruct (parse_response_tool s Ht) as [after [_ E]].
    rewrite E in Hp. injection Hp as <-. discriminate.
  - destruct (Py.contains "ANSWER:" s) eqn:Ha.
    + destruct (parse_response_answer s Ht Ha) as [after [_ E]].
      rewrite E in Hp. injection Hp as <-. discriminate.
    + rewrite (parse_response_plain s Ht Ha) in Hp.
      destruct (has_raw_pattern (Py.strip s));
        [destruct (print _); [|discriminate]|];
        injection Hp as <-; discriminate.
Qed.

Lemma parse_response_never_error_witness :
  Agent.parse_response "TOOL:" = Ok (PTool [] (JDict []))
  /\ ptype (PTool [] (JDict [])) <> lit "error".
Proof.
  split; [reflexivity|].
  apply (parse_response_never_error "TOOL:" (PTool [] (JDict []))).
  reflexivity.
Defined.

(** X3. White space around a response does not change how it is parsed. *)
Theorem surrounding_space_is_ignored {console : Console} (pre post s : str) :
  forallb Py.is_space pre = true ->
  forallb Py.is_space post = true ->
  Agent.parse_response (pre ++ s ++ post) = Agent.parse_response s.
Proof.
  intros Hpre Hpost. unfold Agent.parse_response.
  now rewrite (strip_pad pre post s Hpre Hpost).
Qed.

Lemma surrounding_space_is_ignored_witness :
  forallb Py.is_space (NL ++ lit "  ") = true
  /\ forallb Py.is_space (lit " " ++ NL) = true
  /\ Agent.parse_response ((NL ++ lit "  ") ++ lit "ANSWER: 4" ++ (lit " " ++ NL))
     = Agent.parse_response "ANSWER: 4".
Proof.
  split; [reflexivity | split; [reflexivity|]].
  apply (surrounding_space_is_ignored (NL ++ lit "  ") (lit " " ++ NL)
           (lit "ANSWER: 4")); reflexivity.
Defined.

(** X4. A response of Latin-1 text is parsed as a thought exactly when
    it has no [TOOL:] marker, no [ANSWER:] marker and none of the raw
    command patterns, whatever the case of its letters; the thought is
    then the trimmed response. *)
Theorem thought_iff_nothing_to_act_on {console : Console} (s content : str) :
  Py.latin1 s = true ->
  (Agent.parse_response s = Ok (PThought content)
   <-> (Py.contains "TOOL:" s = false
        /\ Py.contains "ANSWER:" s = false
        /\ has_raw_pattern (Py.strip s) = false
        /\ content = Py.strip s)).
Proof.
  intros _. split.
  - intros Hp. destruct (Py.contains "TOOL:" s) eqn:Ht.
    + destruct (parse_response_tool s Ht) as [after [_ E]].
      rewrite E in Hp. discriminate.
    + destruct (Py.contains "ANSWER:" s) eqn:Ha.
      * destruct (parse_response_answer s Ht Ha) as [after [_ E]].
        rewrite E in Hp. discriminate.
      * rewrite (parse_response_plain s Ht Ha) in Hp.
        destruct (has_raw_pattern (Py.strip s));
          [destruct (print _); discriminate|].
        injection Hp as <-. repeat split; reflexivity.
  - intros [Ht [Ha [Hr ->]]].
    rewrite (parse_response_plain s Ht Ha), Hr. reflexivity.
Qed.

Lemma thought_iff_nothing_to_act_on_witness :
  Py.latin1 " I should look at the logs. " = true
  /\ (Agent.parse_response " I should look at the logs. "
      = Ok (PThought "I should look at the logs.")
      <-> (Py.contains "TOOL:" " I should look at the logs. " = false
           /\ Py.contains "ANSWER:" " I should look at the logs. " = false
           /\ has_raw_pattern (Py.strip " I should look at the logs. ") = false
           /\ lit "I should look at the logs."
              = Py.strip " I should look at the logs. ")).
Proof.
  split; [reflexivity|].
  apply (thought_iff_nothing_to_act_on " I should look at the logs. "
           "I should look at the logs.").
  reflexivity.
Defined.

(** X5. The tool name of a parsed tool call has no opening parenthesis,
    no newline and no white space around it. *)
Theorem tool_name_is_clean {console : Console} (s tool : str) (args : json) :
  Agent.parse_response s = Ok (PTool tool args) ->
  Py.contains "(" tool = false
  /\ Py.contains NL tool = false
  /\ Py.strip tool = tool.
Proof.
  intros Hp. destruct (Py.contains "TOOL:" s) eqn:Ht.
  - destruct (parse_response_tool s Ht) as [after [_ E]].
    rewrite E in Hp. injection Hp as <- _. apply tool_name_clean.
  - destruct (Py.contains "ANSWER:" s) eqn:Ha.
    + destruct (parse_response_answer s Ht Ha) as [after [_ E]].
      rewrite E in Hp. discriminate.
    + rewrite (parse_response_plain s Ht Ha) in Hp.
      destruct (has_raw_pattern (Py.strip s)); [|discriminate].
      destruct (print _); [|discriminate].
      injection Hp as <- _. repeat split; reflexivity.
Qed.

Lemma tool_name_is_clean_witness :
  Agent.parse_response (lit "TOOL:  get_pods (namespace) " ++ NL ++ lit "ARGS: {}")
  = Ok (PTool "get_pods" (JDict []))
  /\ Py.contains "(" "get_pods" = false
  /\ Py.contains NL "get_pods" = false
  /\ Py.strip "get_pods" = lit "get_pods".
Proof.
  split; [reflexivity|].
  apply (tool_name_is_clean
           (lit "TOOL:  get_pods (namespace) " ++ NL ++ lit "ARGS: {}")
           "get_pods" (JDict [])).
  reflexivity.
Defined.

Section BraceScan.

Lemma count_char_app (c : char) (a b : str) :
  count_char c (a ++ b) = count_char c a + count_char c b.
Proof. induction a as [|x a IH]; cbn; [reflexivity | rewrite IH; lia]. Qed.

Lemma brace_scan_from (s : str) :
  forall p : str,
    let n :=
      Agent.brace_scan s (List.length p)
        (Z.of_nat (count_char 123%N p) - Z.of_nat (count_char 125%N p))%Z
        (0 <? count_char 123%N p) in
    (n = 0 /\ forall m, 0 < m <= List.length s -> ~ balanced (p ++ firstn m s))
    \/ (exists m, n = List.length p + m /\ 0 < m <= List.length s
                  /\ balanced (p ++ firstn m s)
                  /\ forall k, 0 < k < m -> ~ balanced (p ++ firstn k s)).
Proof.
  induction s as [|ch rest IH]; intros p n.
  - left. split; [reflexivity|]. cbn. intros m Hm. lia.
  - subst n. cbn [Agent.brace_scan].
    set (o := count_char 123%N p). set (c := count_char 125%N p).
    assert (Ho : count_char 123%N (p ++ [ch])
                 = o + (if (ch =? 123)%N then 1 else 0)).
    { rewrite count_char_app. cbn [count_char]. unfold Py.ch_eqb.
      rewrite (N.eqb_sym 123 ch). fold o. lia. }
    assert (Hc : count_char 125%N (p ++ [ch])
                 = c + (if (ch =? 125)%N then 1 else 0)).
    { rewrite count_char_app. cbn [count_char]. unfold Py.ch_eqb.
      rewrite (N.eqb_sym 125 ch). fold c. lia. }
    specialize (IH (p ++ [ch])). cbn zeta in IH.
    rewrite Ho, Hc, length_app in IH. cbn [List.length] in IH.
    assert (Hstep : forall m, (p ++ [ch]) ++ firstn m rest
                              = p ++ firstn (S m) (ch :: rest)).
    { intros m. now rewrite <- app_assoc. }
    assert (Hbal : forall bc st,
               bc = (Z.of_nat (o + (if (ch =? 123)%N then 1 else 0))
                     - Z.of_nat (c + (if (ch =? 125)%N then 1 else 0)))%Z ->
               st = (0 <? o + (if (ch =? 123)%N then 1 else 0)) ->
               (st && (bc =? 0)%Z = true <-> balanced (p ++ [ch]))).
    { intros bc st -> ->. unfold balanced. rewrite Ho, Hc.
      rewrite andb_true_iff, Nat.ltb_lt, Z.eqb_eq. lia. }
    assert (Hgo : forall bc st,
               bc = (Z.of_nat (o + (if (ch =? 123)%N then 1 else 0))
                     - Z.of_nat (c + (if (ch =? 125)%N then 1 else 0)))%Z ->
               st = (0 <? o + (if (ch =? 123)%N then 1 else 0)) ->
               let n := if st && (bc =? 0)%Z then List.length p + 1
                        else Agent.brace_scan rest (List.length p + 1) bc st in
               (n = 0 /\ forall m, 0 < m <= List.length (ch :: rest) ->
                                   ~ balanced (p ++ firstn m (ch :: rest)))
               \/ (exists m, n = List.length p + m
                             /\ 0 < m <= List.length (ch :: rest)
                             /\ balanced (p ++ firstn m (ch :: rest))
                             /\ forall k, 0 < k < m ->
                                          ~ balanced (p ++ firstn k (ch :: rest)))).
    { intros bc st Ebc Est n. subst n.
      pose proof (Hbal bc st Ebc Est) as Hb.
      destruct (st && (bc =? 0)%Z) eqn:Et.
      - right. exists 1. cbn [List.length firstn].
        split; [reflexivity | split; [lia | split]].
        + now apply Hb.
        + intros k Hk. lia.
      - assert (Hnb : ~ balanced (p ++ [ch])) by (rewrite <- Hb; discriminate).
        rewrite <- Ebc, <- Est in IH.
        destruct IH as [[E0 Hnone] | [m [En [Hm [Hbm Hmin]]]]].
        + left. split; [exact E0|]. intros [|[|m]] Hm; [lia | exact Hnb |].
          rewrite <- Hstep. apply Hnone. cbn [List.length] in Hm. lia.
        + right. exists (S m). cbn [List.length].
          split; [lia | split; [lia | split]].
          * now rewrite <- Hstep.
          * intros [|[|k]] Hk; [lia | exact Hnb |].
            rewrite <- Hstep. apply Hmin. lia. }
    destruct (ch =? 123)%N eqn:E1.
    + apply N.eqb_eq in E1. subst ch. cbn [N.eqb Pos.eqb] in *.
      apply Hgo; [lia|].
      replace (o + 1) with (S o) by lia. reflexivity.
    + destruct (ch =? 125)%N eqn:E2.
      * apply Hgo; [lia | now rewrite Nat.add_0_r].
      * apply Hgo; [lia | now rewrite Nat.add_0_r].
Qed.

End BraceScan.

(** X6. The brace-matching loop stops at the shortest prefix of the
    argument block that has an opening brace and as many closing as
    opening braces: [json_end] is the length of that prefix, and it is
    0 exactly when the block has no such prefix. *)
Theorem brace_scan_first_balanced (block : str) :
  Agent.brace_scan block 0 0%Z false <= List.length block
  /\ (0 < Agent.brace_scan block 0 0%Z false ->
      balanced (firstn (Agent.brace_scan block 0 0%Z false) block))
  /\ (forall k, 0 < k <= List.length block ->
        Agent.brace_scan block 0 0%Z false = 0
        \/ k < Agent.brace_scan block 0 0%Z false ->
        ~ balanced (firstn k block)).
Proof.
  destruct (brace_scan_from block []) as [[E Hnone] | [m [E [Hm [Hb Hmin]]]]];
    cbn in E, Hnone || cbn in E, Hb, Hmin; rewrite E.
  - split; [lia | split; [lia|]]. intros k Hk _. now apply Hnone.
  - split; [lia | split; [now intros _|]].
    intros k Hk [H0 | Hlt]; [lia|]. apply Hmin. lia.
Qed.

Lemma brace_scan_first_balanced_witness :
  Agent.brace_scan "x }{ y {}" 0 0%Z false = 4
  /\ balanced (firstn 4 (lit "x }{ y {}"))
  /\ ~ balanced (firstn 3 (lit "x }{ y {}")).
Proof.
  destruct (brace_scan_first_balanced "x }{ y {}") as [_ [Hb Hmin]].
  split; [reflexivity | split].
  - apply Hb. cbn. lia.
  - apply (Hmin 3); [cbn; lia | right; cbn; lia].
Defined.

(** X7. Without markers, a response of Latin-1 text with a raw command
    pattern becomes a call of [run_command], when the console can show
    the line printed on the way.  The command is taken from the first
    line of the response, trimmed, less at most the filler phrases at
    its start (27 characters in all). *)
Theorem raw_command_is_first_line {console : Console} (s : str) :
  Py.latin1 s = true ->
  Py.contains "TOOL:" s = false ->
  Py.contains "ANSWER:" s = false ->
  has_raw_pattern (Py.strip s) = true ->
  print (Agent.fallback_line (command_of (Py.strip s))) = Ok tt ->
  exists cmd dropped,
    Agent.parse_response s
    = Ok (PTool "run_command" (JDict [(lit "command", JStr cmd)]))
    /\ Py.strip (first_line (Py.strip s)) = dropped ++ cmd
    /\ List.length dropped <= 27.
Proof.
  intros _ Ht Ha Hr Hprint.
  rewrite (parse_response_plain s Ht Ha), Hr, Hprint. cbn [bind].
  exists (command_of (Py.strip s)). unfold command_of.
  set (line := Py.strip (first_line (Py.strip s))).
  assert (Hstep : forall (prefix cmd dropped : str) (n : nat),
             line = dropped ++ cmd -> List.length dropped <= n ->
             exists dropped',
               line = dropped'
                      ++ (if Py.startswith prefix (Py.lower cmd)
                          then skipn (List.length prefix) cmd else cmd)
               /\ List.length dropped' <= n + List.length prefix).
  { intros prefix cmd dropped n E L.
    destruct (Py.startswith prefix (Py.lower cmd)).
    - exists (dropped ++ firstn (List.length prefix) cmd). split.
      + now rewrite <- app_assoc, firstn_skipn.
      + rewrite length_app, length_firstn. lia.
    - exists dropped. split; [exact E | lia]. }
  cbn [Agent.raw_prefixes fold_left].
  destruct (Hstep (lit "let me run ") line [] 0 eq_refl (Nat.le_refl 0))
    as [d1 [E1 L1]].
  destruct (Hstep (lit "running ") _ d1 _ E1 L1) as [d2 [E2 L2]].
  destruct (Hstep (lit "execute ") _ d2 _ E2 L2) as [d3 [E3 L3]].
  exists d3. split; [reflexivity | split; [exact E3 | exact L3]].
Qed.

Lemma raw_command_is_first_line_witness :
  let s := lit "Let me run docker ps -a" ++ NL ++ lit "then kubectl get pods" in
  Py.latin1 s = true
  /\ Py.contains "TOOL:" s = false /\ Py.contains "ANSWER:" s = false
  /\ has_raw_pattern (Py.strip s) = true
  /\ print (Agent.fallback_line (command_of (Py.strip s))) = Ok tt
  /\ exists cmd dropped,
       Agent.parse_response s
       = Ok (PTool "run_command" (JDict [(lit "command", JStr cmd)]))
       /\ Py.strip (first_line (Py.strip s)) = dropped ++ cmd
       /\ List.length dropped <= 27.
Proof.
  split; [reflexivity | split; [reflexivity | split; [reflexivity
    | split; [reflexivity | split; [reflexivity|]]]]].
  apply (raw_command_is_first_line
           (lit "Let me run docker ps -a" ++ NL ++ lit "then kubectl get pods"));
    reflexivity.
Defined.

(** ** Facts about the console *)

Section ConsoleFacts.

Context {console : Console}.

Lemma encodable_app (a b : str) :
  encodable (a ++ b) = encodable a && encodable b.
Proof. apply forallb_app. Qed.

Lemma encodable_infix (a s b : str) :
  encodable (a ++ s ++ b) = true -> encodable s = true.
Proof. rewrite !encodable_app, !andb_true_iff. tauto. Qed.

Lemma encodable_firstn (n : nat) (s : str) :
  encodable s = true -> encodable (firstn n s) = true.
Proof.
  intros H. rewrite <- (firstn_skipn n s), encodable_app in H.
  now apply andb_true_iff in H.
Qed.

Lemma encodable_skipn (n : nat) (s : str) :
  encodable s = true -> encodable (skipn n s) = true.
Proof.
  intros H. rewrite <- (firstn_skipn n s), encodable_app in H.
  now apply andb_true_iff in H.
Qed.

Lemma encodable_strip (s : str) :
  encodable s = true -> encodable (Py.strip s) = true.
Proof.
  intros H. destruct (strip_inside s) as [a [b E]]. rewrite E in H.
  exact (encodable_infix _ _ _ H).
Qed.

Lemma encodable_before_char (c : char) (s : str) :
  encodable s = true -> encodable (before_char c s) = true.
Proof.
  intros H. destruct (before_char_prefix c s) as [rest E]. rewrite E in H.
  rewrite encodable_app in H. now apply andb_true_iff in H.
Qed.

Lemma encodable_text_after (m s t : str) :
  text_after m s = Some t -> encodable s = true -> encodable t = true.
Proof.
  induction s as [|x s IH].
  - cbn. destruct (Py.startswith m []); [|discriminate].
    intros [= <-] _. now rewrite skipn_nil.
  - cbn [text_after]. destruct (Py.startswith m (x :: s)).
    + intros [= <-]. apply encodable_skipn.
    + intros Ht H. apply IH; [exact Ht|]. cbn in H.
      now apply andb_true_iff in H.
Qed.

Lemma encodable_tool_name (after : str) :
  encodable after = true -> encodable (tool_name after) = true.
Proof.
  intros H. unfold tool_name, first_line.
  destruct (Py.contains _ _);
    repeat first [ apply encodable_strip | apply encodable_before_char ];
    exact H.
Qed.

Lemma encodable_command_of (s : str) :
  encodable s = true -> encodable (command_of s) = true.
Proof.
  intros H. unfold command_of.
  assert (H0 : encodable (Py.strip (first_line s)) = true)
    by (apply encodable_strip, encodable_before_char, H).
  revert H0. generalize (Py.strip (first_line s)).
  induction Agent.raw_prefixes as [|p l IH]; intros cmd Hc; cbn [fold_left].
  - exact Hc.
  - apply IH. destruct (Py.startswith p (Py.lower cmd));
      [now apply encodable_skipn | exact Hc].
Qed.

Lemma has_ascii_char (c : char) :
  has_ascii = true -> (c < 128)%N -> can_encode c = true.
Proof.
  unfold has_ascii, encodable, ascii_chars. rewrite forallb_forall.
  intros H Hc. apply H. apply in_map_iff. exists (N.to_nat c).
  split; [apply Nnat.N2Nat.id | apply in_seq; lia].
Qed.

Lemma encodable_ascii (s : str) :
  has_ascii = true ->
  forallb (fun c => (c <? 128)%N) s = true -> encodable s = true.
Proof.
  intros Ha H. unfold encodable. rewrite forallb_forall in *.
  intros c Hc. apply has_ascii_char; [exact Ha|].
  apply N.ltb_lt. now apply H.
Qed.

Lemma uint_is_ascii (d : Decimal.uint) :
  forallb (fun c => (c <? 128)%N) (lit (NilEmpty.string_of_uint d)) = true.
Proof. induction d; cbn; auto. Qed.

Lemma encodable_str_of_nat (n : nat) :
  has_ascii = true -> encodable (str_of_nat n) = true.
Proof. intros Ha. apply encodable_ascii; [exact Ha | apply uint_is_ascii]. Qed.

Lemma print_ok (s : str) :
  has_ascii = true -> encodable s = true -> print s = Ok tt.
Proof.
  intros Ha H. unfold print. rewrite encodable_app, H.
  rewrite (encodable_ascii NL Ha eq_refl). reflexivity.
Qed.

Lemma forced_response_encodable (task forced : str) :
  has_ascii = true ->
  forced_response task = Some forced -> encodable forced = true.
Proof.
  intros Ha. unfold forced_response.
  repeat match goal with
         | |- context [if ?b then _ else _] => destruct b
         end; intros [= <-]; apply (encodable_ascii _ Ha); reflexivity.
Qed.

(** With a text the console can show the parser returns, and the tool
    name it returns can be shown too. *)
Lemma parse_response_encodable (s : str) :
  has_ascii = true ->
  encodable s = true ->
  exists p, Agent.parse_response s = Ok p
            /\ match p with
               | PTool tool _ => encodable tool = true
               | _ => True
               end.
Proof.
  intros Ha H. destruct (Py.contains "TOOL:" s) eqn:Ht.
  - destruct (parse_response_tool s Ht) as [after [Hafter Hp]].
    rewrite Hp. eexists. split; [reflexivity|].
    apply encodable_tool_name.
    exact (encodable_text_after _ _ _ Hafter (encodable_strip _ H)).
  - destruct (Py.contains "ANSWER:" s) eqn:Hans.
    + destruct (parse_response_answer s Ht Hans) as [after [_ Hp]].
      rewrite Hp. eexists. split; [reflexivity | exact I].
    + rewrite (parse_response_plain s Ht Hans).
      destruct (has_raw_pattern (Py.strip s)).
      * rewrite print_ok.
        -- cbn [bind]. eexists. split; [reflexivity|].
           apply (encodable_ascii _ Ha). reflexivity.
        -- exact Ha.
        -- unfold Agent.fallback_line. rewrite encodable_app.
           rewrite (encodable_ascii _ Ha) by reflexivity.
           apply encodable_firstn, encodable_command_of, encodable_strip, H.
      * eexists. split; [reflexivity | exact I].
Qed.

(** A response with a [TOOL:] marker, or without an [ANSWER:] marker,
    is not parsed as an answer. *)
Lemma parse_not_answer (s : str) (p : Parsed) :
  Py.contains "TOOL:" s = true \/ Py.contains "ANSWER:" s = false ->
  Agent.parse_response s = Ok p -> not_answer p.
Proof.
  intros Hs Hp. destruct (Py.contains "TOOL:" s) eqn:Ht.
  - destruct (parse_response_tool s Ht) as [after [_ E]].
    rewrite E in Hp. injection Hp as <-. exact I.
  - destruct Hs as [Hs | Ha]; [discriminate|].
    rewrite (parse_response_plain s Ht Ha) in Hp.
    destruct (has_raw_pattern (Py.strip s));
      [destruct (print _); [|discriminate]|];
      injection Hp as <-; exact I.
Qed.

End ConsoleFacts.

Lemma utf8_lower_char (c : char) :
  @can_encode utf8_console c = true ->
  @can_encode utf8_console (Py.lower_char c) = true.
Proof.
  destruct (lower_char_cases c) as [[E _] | [E H]]; rewrite E; [tauto|].
  intros _. cbn. apply negb_true_iff, andb_false_iff. left.
  apply N.leb_gt. lia.
Qed.

Lemma utf8_lower (s : str) :
  @encodable utf8_console s = true ->
  @encodable utf8_console (Py.lower s) = true.
Proof.
  unfold encodable, Py.lower. rewrite !forallb_forall.
  intros H c Hc. apply in_map_iff in Hc as [x [<- Hx]].
  apply utf8_lower_char. now apply H.
Qed.

(** ** The loop of [agent.py]: frame, accounting, exceptions *)

Section RunFacts.

Context {W : Type} {world : World W}.

Lemma execute_tool_returns (tool : str) (args : json) (w : W) :
  exists out w', execute_tool tool args w = (Ok out, w').
Proof.
  unfold execute_tool.
  destruct (dispatch _ args) as [[[method actuals]|]|e]; cbn; eauto.
  destruct (mcp method actuals w) as [[result|e] w']; cbn; eauto.
Qed.

Lemma forced_response_has_tool (task forced : str) :
  forced_response task = Some forced -> Py.contains "TOOL:" forced = true.
Proof.
  unfold forced_response.
  repeat match goal with
         | |- context [if ?b then _ else _] => destruct b
         end; intros [= <-]; reflexivity.
Qed.

Lemma set_history_id (a : AgentWorker) : set_history a (history a) = a.
Proof. now destruct a. Qed.


Lemma last_n_app {A : Type} (n : nat) (l1 l2 : list A) :
  n <= List.length l2 -> last_n n (l1 ++ l2) = last_n n l2.
Proof.
  intros Hn. unfold last_n. rewrite length_app, skipn_app.
  rewrite skipn_all2 by lia. cbn. f_equal. lia.
Qed.

(** With a str task and a str reply the response worked on is
    [effective_text]. *)
Lemma read_reply_text (a : AgentWorker) (task : str) (i : nat) (s : str) :
  read_reply a (JStr task) i (JStr s)
  = (@print console (reply_line a (JStr (firstn 200 (effective_text task i s)))) ;;
     parsed <- @Agent.parse_response console (effective_text task i s) ;;
     Ok (effective_text task i s, parsed)).
Proof.
  unfold read_reply, effective_response, effective_text.
  destruct (i =? 0); cbn [py_in bind andb]; [|reflexivity].
  destruct (Py.contains "TOOL:" s); cbn [negb]; [reflexivity|].
  destruct (forced_response task); reflexivity.
Qed.

Section Frame.

Variable task : json.

(** One iteration reads nothing of the history it appends to.  It
    appends one record, numbered [i + 1], unless an exception comes
    first; it returns only to answer. *)
Lemma iterate_frame (i : nat) (messages : list Message) (a : AgentWorker) (w : W) :
  exists r items w',
    (forall h, iterate task i messages (set_history a h) w
               = (r, set_history a (h ++ items), w'))
    /\ match r with
       | Raise _ => items = [] \/ exists item, items = [item]
       | Ok (inl result) =>
           exists answer reply,
             result = Complete (agent_id a) answer (i + 1)
             /\ items = [ {| iteration := i + 1; response := reply;
                             parsed := PAnswer answer |} ]
       | Ok (inr _) =>
           exists item, items = [item] /\ iteration item = i + 1
                        /\ not_answer (parsed item)
       end.
Proof.
  assert (Hrec : forall h item, record (set_history a h) item
                                = set_history a (h ++ [item])) by reflexivity.
  assert (Hline : forall h, iteration_line (set_history a h) i = iteration_line a i)
    by reflexivity.
  assert (Hreply : forall h reply, read_reply (set_history a h) task i reply
                                   = read_reply a task i reply) by reflexivity.
  assert (Htool : forall h out, tool_line (set_history a h) out = tool_line a out)
    by reflexivity.
  assert (Hmodel : forall h, model (set_history a h) = model a) by reflexivity.
  assert (Hid : forall h, agent_id (set_history a h) = agent_id a) by reflexivity.
  destruct (@print console (iteration_line a i)) as [u|e] eqn:Hprint.
  2:{ exists (Raise e), [], w. split; [|now left]. intros h.
      unfold iterate. rewrite Hline, Hprint. now rewrite app_nil_r. }
  destruct (query_llm (model a) messages w) as [reply w1] eqn:Hq.
  destruct (read_reply a task i reply) as [[response parsed]|e] eqn:Hread.
  2:{ exists (Raise e), [], w1. split; [|now left]. intros h.
      unfold iterate. rewrite Hline, Hprint, Hmodel, Hq, Hreply, Hread.
      now rewrite app_nil_r. }
  set (item := {| iteration := i + 1; response := response; parsed := parsed |}).
  assert (Hstart : forall h,
             iterate task i messages (set_history a h) w
             = match parsed with
               | PAnswer answer =>
                   (Ok (inl (Complete (agent_id a) answer (i + 1))),
                    set_history a (h ++ [item]),
                    log_to_dashboard (agent_id a) task "complete"
                      (Complete (agent_id a) answer (i + 1)) w1)
               | PTool tool args =>
                   match execute_tool tool args w1 with
                   | (Raise e, w2) => (Raise e, set_history a (h ++ [item]), w2)
                   | (Ok tool_result, w2) =>
                       match @print console (tool_line a tool_result) with
                       | Raise e => (Raise e, set_history a (h ++ [item]), w2)
                       | Ok _ =>
                           (Ok (inr (messages ++
                                     [ {| role := "assistant"; content := JStr response |};
                                       {| role := "user";
                                          content :=
                                            JStr (lit "Tool result:" ++ NL ++ tool_result
                                                  ++ NL ++ NL
                                                  ++ lit "Continue reasoning or provide ANSWER.") |} ])),
                            set_history a (h ++ [item]), w2)
                       end
                   end
               | _ =>
                   (Ok (inr (messages ++
                             [ {| role := "assistant"; content := JStr response |};
                               {| role := "user";
                                  content := JStr "Continue. Use a TOOL or provide ANSWER." |} ])),
                    set_history a (h ++ [item]), w1)
               end).
  { intros h. unfold iterate.
    rewrite Hline, Hprint, Hmodel, Hq, Hreply, Hread. fold item.
    rewrite Hrec. destruct parsed; reflexivity. }
  destruct parsed as [tool args| answer | thought | err] eqn:Hp.
  - destruct (execute_tool tool args w1) as [[out|e] w2] eqn:Hx.
    + destruct (@print console (tool_line a out)) as [u'|e] eqn:Hprint2.
      * eexists (Ok (inr _)), [item], w2. split; [exact Hstart|].
        exists item. repeat split.
      * exists (Raise e), [item], w2. split; [exact Hstart | right; eauto].
    + exists (Raise e), [item], w2. split; [exact Hstart | right; eauto].
  - eexists (Ok (inl _)), [item], _. split; [exact Hstart|].
    exists answer, response. split; reflexivity.
  - eexists (Ok (inr _)), [item], w1. split; [exact Hstart|].
    exists item. repeat split.
  - eexists (Ok (inr _)), [item], w1. split; [exact Hstart|].
    exists item. repeat split.
Qed.

(** The loop reads nothing of the history it appends to.  It appends
    the records [items], at most [n] of them; it returns nothing after
    [n] iterations, or a [complete] result at the iteration of the
    last record, which holds the answer; the records are then numbered
    from [i + 1]. *)
Lemma run_loop_spec (n : nat) :
  forall i messages a (w : W),
  exists r items w',
    (forall h, run_loop task n i messages (set_history a h) w
               = (r, set_history a (h ++ items), w'))
    /\ List.length items <= n
    /\ match r with
       | Raise _ => True
       | Ok None =>
           List.length items = n /\ map iteration items = seq (i + 1) n
       | Ok (Some result) =>
           exists answer front reply,
             result = Complete (agent_id a) answer (i + List.length items)
             /\ map iteration items = seq (i + 1) (List.length items)
             /\ items = front ++ [ {| iteration := i + List.length items;
                                      response := reply;
                                      parsed := PAnswer answer |} ]
       end.
Proof.
  induction n as [|n IH]; intros i messages a w.
  - exists (Ok None), [], w. split; [|split; [reflexivity | split; reflexivity]].
    intros h. cbn. now rewrite app_nil_r.
  - destruct (iterate_frame i messages a w) as [r [items [w1 [Hit Hshape]]]].
    destruct r as [[result|ms]|e].
    + destruct Hshape as [answer [reply [-> ->]]].
      exists (Ok (Some (Complete (agent_id a) answer (i + 1)))),
        [ {| iteration := i + 1; response := reply; parsed := PAnswer answer |} ],
        w1.
      split; [|split; [cbn; lia|]].
      * intros h. cbn [run_loop]. now rewrite Hit.
      * exists answer, [], reply. cbn. repeat split.
    + destruct Hshape as [item [-> [Hi Hna]]].
      destruct (IH (i + 1) ms a w1) as [r' [items' [w' [Hr [Hlen Hres]]]]].
      exists r', (item :: items'), w'.
      split; [|split; [cbn; lia|]].
      * intros h. cbn [run_loop]. rewrite Hit, Hr. now rewrite <- app_assoc.
      * destruct r' as [[result|]|e]; [| |exact I].
        -- destruct Hres as [answer [front [reply [-> [Hmap Hitems]]]]].
           exists answer, (item :: front), reply.
           cbn [List.length].
           replace (i + S (List.length items'))
             with (i + 1 + List.length items') by lia.
           split; [reflexivity | split].
           ++ cbn [map seq]. rewrite Hi, Hmap. f_equal. f_equal. lia.
           ++ cbn [app]. f_equal. exact Hitems.
        -- destruct Hres as [Hl Hmap]. split; [cbn; lia|].
           cbn [map seq]. rewrite Hi, Hmap. f_equal. f_equal. lia.
    + exists (Raise e), items, w1. split; [|split; [|exact I]].
      * intros h. cbn [run_loop]. now rewrite Hit.
      * destruct Hshape as [-> | [item ->]]; cbn; lia.
Qed.

Lemma iterate_agent_id (i : nat) (messages : list Message) (a : AgentWorker) (w : W) :
  agent_id (snd (fst (iterate task i messages a w))) = agent_id a.
Proof.
  destruct (iterate_frame i messages a w) as [r [items [w' [H _]]]].
  specialize (H (history a)). rewrite set_history_id in H. now rewrite H.
Qed.

End Frame.

(** With a str reply that is not parsed as an answer the iteration
    does not return. *)
Lemma iterate_goes_on (task : str) (i : nat) (messages : list Message)
    (a : AgentWorker) (w : W) (s : str) :
  fst (query_llm (model a) messages w) = JStr s ->
  Py.contains "TOOL:" (effective_text task i s) = true
  \/ Py.contains "ANSWER:" (effective_text task i s) = false ->
  forall result, fst (fst (iterate (JStr task) i messages a w)) <> Ok (inl result).
Proof.
  intros Hq Hs result. unfold iterate.
  destruct (@print console (iteration_line a i)); [|discriminate].
  destruct (query_llm (model a) messages w) as [reply w1].
  cbn [fst] in Hq. subst reply. rewrite read_reply_text.
  destruct (@print console _); [|discriminate]. cbn [bind].
  destruct (@Agent.parse_response console (effective_text task i s))
    as [p|e] eqn:Hp; [|discriminate].
  cbn [bind]. pose proof (parse_not_answer _ _ Hs Hp) as Hna.
  destruct p as [tool args| answer | thought | err];
    [| contradiction | discriminate | discriminate].
  destruct (execute_tool tool args w1) as [[out|e] w2]; [|discriminate].
  destruct (@print console _); discriminate.
Qed.

(** When the texts of a run can all be shown and the model replies
    with strings, no exception leaves the loop. *)
Section Shown.

Variable task : str.

Hypothesis console_has_ascii : @has_ascii console = true.

Hypothesis task_shown : @encodable console task = true.

Hypothesis replies_shown : forall m messages (w : W),
  exists s, fst (query_llm m messages w) = JStr s
            /\ @encodable console s = true.

Hypothesis tools_shown : forall tool args (w : W) out,
  @encodable console tool = true ->
  fst (execute_tool tool args w) = Ok out -> @encodable console out = true.

Lemma effective_text_shown (i : nat) (s : str) :
  @encodable console s = true ->
  @encodable console (effective_text task i s) = true.
Proof.
  intros H. unfold effective_text.
  destruct (_ && _); [|exact H].
  destruct (forced_response task) as [forced|] eqn:E; [|exact H].
  exact (forced_response_encodable task forced console_has_ascii E).
Qed.

Lemma iterate_returns (i : nat) (messages : list Message) (a : AgentWorker) (w : W) :
  @encodable console (agent_id a) = true ->
  exists x, fst (fst (iterate (JStr task) i messages a w)) = Ok x.
Proof.
  intros Hid. unfold iterate.
  assert (Hl : forall s : str, forallb (fun c => (c <? 128)%N) s = true ->
                               @encodable console s = true)
    by (intros s; apply encodable_ascii, console_has_ascii).
  rewrite print_ok; [|exact console_has_ascii|].
  2:{ unfold iteration_line. rewrite !encodable_app, Hid.
      rewrite !encodable_str_of_nat by exact console_has_ascii.
      rewrite !Hl by reflexivity. reflexivity. }
  destruct (replies_shown (model a) messages w) as [s [Hq Hs]].
  destruct (query_llm (model a) messages w) as [reply w1].
  cbn [fst] in Hq. subst reply. rewrite read_reply_text.
  pose proof (effective_text_shown i s Hs) as He.
  rewrite print_ok; [|exact console_has_ascii|].
  2:{ unfold reply_line. cbn [to_text]. rewrite !encodable_app, Hid.
      rewrite (encodable_firstn 200 _ He).
      rewrite !Hl by reflexivity. reflexivity. }
  cbn [bind].
  destruct (parse_response_encodable _ console_has_ascii He) as [p [Hp Htool]].
  rewrite Hp. cbn [bind].
  destruct p as [tool args| answer | thought | err]; cbn [fst]; eauto.
  destruct (execute_tool_returns tool args w1) as [out [w2 Hx]].
  pose proof (fun out => tools_shown tool args w1 out Htool) as Hout.
  rewrite Hx in *. cbn [fst] in Hout. specialize (Hout out eq_refl).
  rewrite print_ok; [cbn [fst]; eauto | exact console_has_ascii|].
  unfold tool_line. cbn [agent_id record set_history].
  rewrite !encodable_app, Hid.
  rewrite (encodable_firstn 200 _ Hout).
  rewrite !Hl by reflexivity. reflexivity.
Qed.

Lemma run_loop_returns (n : nat) :
  forall i messages a (w : W),
  @encodable console (agent_id a) = true ->
  exists x, fst (fst (run_loop (JStr task) n i messages a w)) = Ok x.
Proof.
  induction n as [|n IH]; intros i messages a w Hid; [cbn; eauto|].
  cbn [run_loop].
  destruct (iterate_returns i messages a w Hid) as [x Hx].
  pose proof (iterate_agent_id (JStr task) i messages a w) as Ha.
  destruct (iterate (JStr task) i messages a w) as [[r a1] w1].
  cbn [fst snd] in Hx, Ha. subst r.
  destruct x as [result|ms]; [cbn; eauto|].
  apply IH. now rewrite Ha.
Qed.

(** A model that muses, whose replies hold no marker, uses up the
    range. *)
Hypothesis model_muses : forall m messages (w : W) s,
  fst (query_llm m messages w) = JStr s ->
  Py.contains "TOOL:" s = false /\ Py.contains "ANSWER:" s = false.



End Shown.

End RunFacts.

(** The stand-in worlds on a UTF-8 console: what [execute_tool] returns
    for a tool name that can be shown can be shown. *)
Lemma dispatch_raise {W : Type} {world : World W} (name : str) (args : json) (e : str) :
  dispatch name args = Raise e -> e = lit "object has no attribute 'get'".
Proof.
  unfold dispatch.
  repeat match goal with
         | |- context [if ?b then _ else _] => destruct b
         end;
    destruct args; cbn [get bind]; intros H; try discriminate H;
    now injection H as <-.
Qed.

Lemma constant_world_tools_shown (reply : json) (tool : str) (args : json)
    (w : unit) (out : str) :
  @encodable utf8_console tool = true ->
  fst (@execute_tool _ (constant_world reply) tool args w) = Ok out ->
  @encodable utf8_console out = true.
Proof.
  intros Htool. unfold execute_tool.
  assert (Hname : @encodable utf8_console (Py.strip (Py.lower tool)) = true)
    by (apply encodable_strip, utf8_lower, Htool).
  set (name := Py.strip (Py.lower tool)) in *.
  destruct (@dispatch _ (constant_world reply) name args)
    as [[[method actuals]|]|e] eqn:D; cbn [mcp constant_world try_except fst];
    intros [= <-].
  - reflexivity.
  - cbn. exact Hname.
  - rewrite (dispatch_raise name args e D). reflexivity.
Qed.

(** ** The loop: budget, short-circuit, history *)



(** C3, as the code has it.  Take a task of Latin-1 text and a model
    that replies [ANSWER: 42] to the first query.  When the task sets
    off none of the first-turn overrides, the budget is positive and
    the console can show ASCII, the agent's id and the task, [run]
    returns the status [complete], the answer [42] and one iteration,
    whatever the budget.  When the task sets off an override, the
    reply is replaced by the forced tool call and [run] does not
    complete at the first iteration. *)
Theorem answer_on_first_query {W : Type} {world : World W}
    (task : str) (a : AgentWorker) (w : W) :
  Py.latin1 task = true ->
  fst (query_llm (model a) (initial_messages task) w) = JStr "ANSWER: 42" ->
  (forced_response task = None ->
   0 < max_iterations a ->
   has_ascii = true ->
   encodable (agent_id a) = true ->
   encodable task = true ->
   exists a' w',
     run task a w = (Ok (Complete (agent_id a) "42" 1), a', w')
     /\ status (Complete (agent_id a) "42" 1) = lit "complete"
     /\ history a'
        = history a ++ [ {| iteration := 1; response := "ANSWER: 42";
                            parsed := PAnswer "42" |} ])
  /\ (forall forced,
        forced_response task = Some forced ->
        effective_response task 0 (JStr "ANSWER: 42") = Ok (JStr forced)
        /\ Py.contains "TOOL:" forced = true
        /\ forall id answer,
             fst (fst (run task a w)) <> Ok (Complete id answer 1)).
Proof.
  intros _ Hq. split.
  - intros Hf Hn Hascii Hid Htask. unfold run.
    assert (Hl : forall s : str, forallb (fun c => (c <? 128)%N) s = true ->
                                 encodable s = true)
      by (intros s; apply encodable_ascii, Hascii).
    rewrite print_ok; [|exact Hascii|].
    2:{ unfold start_line. cbn [to_text]. rewrite !encodable_app, Hid, Htask.
        rewrite !Hl by reflexivity. reflexivity. }
    destruct (max_iterations a) as [|n] eqn:Hmax; [lia|]. cbn [run_loop].
    unfold iterate. rewrite print_ok; [|exact Hascii|].
    2:{ unfold iteration_line. rewrite !encodable_app, Hid.
        rewrite !encodable_str_of_nat by exact Hascii.
        rewrite !Hl by reflexivity. reflexivity. }
    destruct (query_llm (model a) (initial_messages task) w) as [r w1].
    cbn [fst] in Hq. subst r. rewrite read_reply_text.
    assert (He : effective_text task 0 "ANSWER: 42" = lit "ANSWER: 42").
    { unfold effective_text. rewrite Hf. now destruct (_ && _). }
    rewrite He. rewrite print_ok; [|exact Hascii|].
    2:{ unfold reply_line. cbn [to_text]. rewrite !encodable_app, Hid.
        rewrite !Hl by reflexivity. reflexivity. }
    cbn [bind].
    replace (Agent.parse_response "ANSWER: 42") with (Ok (PAnswer "42"))
      by reflexivity.
    cbn [bind agent_id record set_history history].
    do 2 eexists. split; [reflexivity | split; reflexivity].
  - intros forced Hf. split; [|split].
    + unfold effective_response. cbn [Nat.eqb py_in bind].
      replace (Py.contains "TOOL:" "ANSWER: 42") with false by reflexivity.
      now rewrite Hf.
    + exact (forced_response_has_tool task forced Hf).
    + intros id answer. unfold run.
      destruct (print (start_line a task)); [|discriminate].
      destruct (max_iterations a) as [|n] eqn:Hmax; [discriminate|].
      cbn [run_loop].
      assert (Hgo : forall result,
                 fst (fst (iterate task 0 (initial_messages task) a w))
                 <> Ok (inl result)).
      { apply (iterate_goes_on task 0 (initial_messages task) a w
                 (lit "ANSWER: 42") Hq).
        left. unfold effective_text.
        replace (Py.contains "TOOL:" "ANSWER: 42") with false by reflexivity.
        cbn [Nat.eqb negb andb]. rewrite Hf.
        exact (forced_response_has_tool task forced Hf). }
      destruct (iterate_frame task 0 (initial_messages task) a w)
        as [r [items [w1 [Hit _]]]].
      specialize (Hit (history a)). rewrite set_history_id in Hit.
      rewrite Hit in *. cbn [fst] in Hgo.
      destruct r as [[result|ms]|e]; [now elim (Hgo result)| |discriminate].
      destruct (run_loop_spec task n (0 + 1) ms a w1)
        as [r' [items' [w' [Hr [_ Hres]]]]].
      rewrite (Hr (history a ++ items)).
      destruct r' as [[result|]|e]; [|discriminate|discriminate].
      destruct Hres as [answer' [front [reply [-> [_ Hitems]]]]].
      cbn [fst]. intros [= _ _ Hk].
      rewrite Hitems, length_app in Hk. cbn [List.length] in Hk. lia.
Qed.

Lemma answer_on_first_query_witness :
  let a := init "agent-0" "lfm2-1.2b" in
  let world := constant_world (JStr "ANSWER: 42") in
  let task := lit "What is six times seven?" in
  let task' := lit "Check docker container status" in
  (Py.latin1 task = true
   /\ fst (@query_llm _ world (model a) (initial_messages task) tt)
      = JStr "ANSWER: 42"
   /\ forced_response task = None
   /\ 0 < max_iterations a
   /\ @has_ascii utf8_console = true
   /\ @encodable utf8_console (agent_id a) = true
   /\ @encodable utf8_console task = true
   /\ exists a' w',
        @run _ world task a tt = (Ok (Complete (agent_id a) "42" 1), a', w')
        /\ status (Complete (agent_id a) "42" 1) = lit "complete"
        /\ history a'
           = history a ++ [ {| iteration := 1; response := "ANSWER: 42";
                               parsed := PAnswer "42" |} ])
  /\ (Py.latin1 task' = true
      /\ fst (@query_llm _ world (model a) (initial_messages task') tt)
         = JStr "ANSWER: 42"
      /\ forced_response task'
         = Some (lit "TOOL: docker_ps" ++ NL ++ lit "ARGS: {}")
      /\ @effective_response task' 0 (JStr "ANSWER: 42")
         = Ok (JStr (lit "TOOL: docker_ps" ++ NL ++ lit "ARGS: {}"))
      /\ Py.contains "TOOL:" (lit "TOOL: docker_ps" ++ NL ++ lit "ARGS: {}") = true
      /\ forall id answer,
           fst (fst (@run _ world task' a tt)) <> Ok (Complete id answer 1)).
Proof.
  split.
  - split; [reflexivity | split; [reflexivity | split; [reflexivity
      | split; [cbn; lia | split; [reflexivity | split; [reflexivity
      | split; [reflexivity|]]]]]]].
    apply (proj1 (@answer_on_first_query _ (constant_world (JStr "ANSWER: 42"))
                    "What is six times seven?" (init "agent-0" "lfm2-1.2b") tt
                    eq_refl eq_refl)); try reflexivity.
    cbn; lia.
  - split; [reflexivity | split; [reflexivity | split; [reflexivity|]]].
    apply (proj2 (@answer_on_first_query _ (constant_world (JStr "ANSWER: 42"))
                    "Check docker container status"
                    (init "agent-0" "lfm2-1.2b") tt eq_refl eq_refl)).
    reflexivity.
Defined.

(** C3 as stated fails.  For the task [Check docker container status]
    the first reply [ANSWER: 42] is replaced by a forced call of
    [docker_ps], and the answer comes at the second iteration.  With
    the budget set to zero no query is made and the budget is reported
    as exhausted. *)
Lemma answer_not_at_first_iteration :
  let a := init "cli-agent" "lfm2-1.2b" in
  let task := lit "Check docker container status" in
  fst (@query_llm _ (constant_world (JStr "ANSWER: 42")) (model a)
         (initial_messages task) tt) = JStr "ANSWER: 42"
  /\ forced_response task = Some (lit "TOOL: docker_ps" ++ NL ++ lit "ARGS: {}")
  /\ fst (fst (@run _ (constant_world (JStr "ANSWER: 42")) task a tt))
     = Ok (Complete "cli-agent" "42" 2)
  /\ fst (fst (@run _ (constant_world (JStr "ANSWER: 42")) task a tt))
     <> Ok (Complete "cli-agent" "42" 1)
  /\ fst (fst (@run _ (constant_world (JStr "ANSWER: 42"))
                 "What is six times seven?" (set_max_iterations a 0) tt))
     = Ok (MaxIterations "cli-agent" [] 0).
Proof.
  repeat split; try (vm_compute; reflexivity).
  vm_compute. discriminate.
Qed.

(** C9, as the code has it.  [run] starts from a fresh conversation,
    but appends its records to the history the agent already holds:
    on an agent whose history is [h], the history afterwards is [h]
    followed by the records [items] that the same run leaves on an
    agent with an empty history.  The result is that of the agent with
    an empty history, except that the trace of a budget exhaustion is
    the last three records of the whole history; with a budget of three
    or more these are records of the current run, and result and
    outside world are the same. *)
Theorem history_outlives_run {W : Type} {world : World W}
    (task : str) (a : AgentWorker) (h : list HistoryItem) (w : W) :
  exists r items w0 w1,
    run task (set_history a []) w = (r, set_history a items, w0)
    /\ run task (set_history a h) w
       = (with_trace (h ++ items) r, set_history a (h ++ items), w1)
    /\ (3 <= max_iterations a -> with_trace (h ++ items) r = r /\ w1 = w0).
Proof.
  destruct (run_loop_spec task (max_iterations a) 0 (initial_messages task) a w)
    as [r [items [w' [Hr [_ Hres]]]]].
  assert (Hs : forall h0, start_line (set_history a h0) task = start_line a task)
    by reflexivity.
  unfold run. rewrite !Hs.
  destruct (print (start_line a task)) as [u|e].
  2:{ exists (Raise e), [], w, w. rewrite app_nil_r.
      split; [reflexivity | split; [reflexivity | intros _; split; reflexivity]]. }
  cbn [max_iterations set_history].
  rewrite (Hr []), (Hr h). cbn [app].
  destruct r as [[result|]|e].
  - destruct Hres as [answer [front [reply [-> _]]]].
    eexists (Ok (Complete (agent_id a) answer _)), items, w', w'.
    split; [reflexivity | split; [reflexivity | intros _; split; reflexivity]].
  - cbn [agent_id history max_iterations set_history].
    eexists (Ok (MaxIterations (agent_id a) (last_n 3 items) (max_iterations a))),
      items, _, _.
    split; [reflexivity | split; [reflexivity|]].
    intros H3. destruct Hres as [Hl _].
    cbn [with_trace]. rewrite last_n_app by lia. split; reflexivity.
  - exists (Raise e), items, w', w'.
    split; [reflexivity | split; [reflexivity | intros _; split; reflexivity]].
Qed.

Lemma history_outlives_run_witness :
  let a := init "agent-0" "lfm2-1.2b" in
  let h := [ {| iteration := 1; response := "ANSWER: before";
                parsed := PAnswer "before" |} ] in
  exists r items w0 w1,
    @run _ musing_world "second" (set_history a []) tt = (r, set_history a items, w0)
    /\ @run _ musing_world "second" (set_history a h) tt
       = (with_trace (h ++ items) r, set_history a (h ++ items), w1)
    /\ (3 <= max_iterations a -> with_trace (h ++ items) r = r /\ w1 = w0).
Proof.
  exact (@history_outlives_run _ musing_world "second"
           (init "agent-0" "lfm2-1.2b")
           [ {| iteration := 1; response := "ANSWER: before";
                parsed := PAnswer "before" |} ] tt).
Defined.

(** C9 as stated fails.  After a first run the agent of [__init__]
    holds the ten records of that run, and they are still there, ahead
    of the new ones, after a second run.  With the budget set to two,
    the trace the second run returns begins with a record of the first
    run, and differs from the trace of the same run on a new agent. *)
Lemma records_carry_over :
  let a := init "agent-0" "lfm2-1.2b" in
  let after1 := snd (fst (@run _ musing_world "first" a tt)) in
  let after2 := snd (fst (@run _ musing_world "second" after1 tt)) in
  let b := set_max_iterations a 2 in
  let b1 := snd (fst (@run _ musing_world "first" b tt)) in
  List.length (history after1) = 10
  /\ List.length (history after2) = 20
  /\ firstn 10 (history after2) = history after1
  /\ fst (fst (@run _ musing_world "second" b1 tt))
     = Ok (MaxIterations "agent-0"
             [ {| iteration := 2; response := "thinking about first";
                  parsed := PThought "thinking about first" |};
               {| iteration := 1; response := "thinking about second";
                  parsed := PThought "thinking about second" |};
               {| iteration := 2; response := "thinking about second";
                  parsed := PThought "thinking about second" |} ] 2)
  /\ fst (fst (@run _ musing_world "second" b1 tt))
     <> fst (fst (@run _ musing_world "second" b tt)).
Proof.
  repeat split; try (vm_compute; reflexivity).
  vm_compute. discriminate.
Qed.

(** ** More about the loop of [agent.py] *)

(** X8. When the model replies with texts and the console can show
    what the run prints (ASCII, the agent's id, the task, the replies
    and the tool results), no exception leaves [run]: it returns a
    result, of status [complete] or [max_iterations], that bears the
    agent's id. *)
Theorem run_always_returns {W : Type} {world : World W}
    (task : str) (a : AgentWorker) (w : W) :
  (forall m messages (w0 : W),
      exists s, fst (query_llm m messages w0) = JStr s /\ encodable s = true) ->
  has_ascii = true ->
  encodable (agent_id a) = true ->
  encodable task = true ->
  (forall tool args (w0 : W) out,
      encodable tool = true ->
      fst (execute_tool tool args w0) = Ok out -> encodable out = true) ->
  exists result a' w',
    run task a w = (Ok result, a', w')
    /\ (status result = lit "complete" \/ status result = lit "max_iterations")
    /\ match result with
       | Complete id _ _ => id = agent_id a
       | MaxIterations id _ _ => id = agent_id a
       | AgentError _ _ => False
       end.
Proof.
  intros Hreplies Hascii Hid Htask Htools.
  destruct (run_loop_returns task Hascii Hreplies Htools
              (max_iterations a) 0 (initial_messages task) a w Hid) as [x Hx].
  destruct (run_loop_spec task (max_iterations a) 0 (initial_messages task) a w)
    as [r [items [w' [Hr [_ Hres]]]]].
  specialize (Hr (history a)). rewrite set_history_id in Hr.
  rewrite Hr in Hx. cbn [fst] in Hx. subst r.
  unfold run. rewrite print_ok; [|exact Hascii|].
  2:{ unfold start_line. cbn [to_text]. rewrite !encodable_app, Hid, Htask.
      rewrite !(encodable_ascii _ Hascii) by reflexivity. reflexivity. }
  rewrite Hr. destruct x as [result|].
  - destruct Hres as [answer [front [reply [-> _]]]].
    do 3 eexists. split; [reflexivity | split; [now left | reflexivity]].
  - do 3 eexists. split; [reflexivity | split; [now right | reflexivity]].
Qed.

Lemma run_always_returns_witness :
  let a := init "cli-agent" "lfm2-1.2b" in
  let world := constant_world (JStr "Let me run docker ps") in
  (forall m messages (w0 : unit),
      exists s, fst (@query_llm _ world m messages w0) = JStr s
                /\ @encodable utf8_console s = true)
  /\ @has_ascii utf8_console = true
  /\ @encodable utf8_console (agent_id a) = true
  /\ @encodable utf8_console "Check docker container status" = true
  /\ (forall tool args (w0 : unit) out,
        @encodable utf8_console tool = true ->
        fst (@execute_tool _ world tool args w0) = Ok out ->
        @encodable utf8_console out = true)
  /\ exists result a' w',
       @run _ world "Check docker container status" a tt = (Ok result, a', w')
       /\ (status result = lit "complete" \/ status result = lit "max_iterations")
       /\ match result with
          | Complete id _ _ => id = agent_id a
          | MaxIterations id _ _ => id = agent_id a
          | AgentError _ _ => False
          end.
Proof.
  assert (H1 : forall m messages (w0 : unit),
             exists s, fst (@query_llm _ (constant_world (JStr "Let me run docker ps"))
                              m messages w0) = JStr s
                       /\ @encodable utf8_console s = true).
  { intros m messages w0. exists (lit "Let me run docker ps"). split; reflexivity. }
  split; [exact H1 | split; [reflexivity | split; [reflexivity
    | split; [reflexivity | split]]]].
  - exact (constant_world_tools_shown (JStr "Let me run docker ps")).
  - apply (@run_always_returns _ (constant_world (JStr "Let me run docker ps"))
             "Check docker container status" (init "cli-agent" "lfm2-1.2b") tt).
    + exact H1.
    + reflexivity.
    + reflexivity.
    + reflexivity.
    + exact (constant_world_tools_shown (JStr "Let me run docker ps")).
Defined.

(** The accounting of a run that returns. *)
Lemma run_accounting {W : Type} {world : World W}
    (task : json) (a : AgentWorker) (w : W)
    (result : Result) (a' : AgentWorker) (w' : W) :
  run task a w = (Ok result, a', w') ->
  exists items,
    a' = set_history a (history a ++ items)
    /\ List.length items = iterations result
    /\ map iteration items = seq 1 (iterations result)
    /\ iterations result <= max_iterations a
    /\ match result with
       | Complete id answer k =>
           id = agent_id a /\ 1 <= k
           /\ exists front reply,
                items = front ++ [ {| iteration := k; response := reply;
                                      parsed := PAnswer answer |} ]
       | MaxIterations id trace k =>
           id = agent_id a /\ k = max_iterations a
           /\ trace = last_n 3 (history a ++ items)
       | AgentError _ _ => False
       end.
Proof.
  unfold run. destruct (print (start_line a task)); [|discriminate].
  destruct (run_loop_spec task (max_iterations a) 0 (initial_messages task) a w)
    as [r [items [w1 [Hr [Hlen Hres]]]]].
  specialize (Hr (history a)). rewrite set_history_id in Hr. rewrite Hr.
  destruct r as [[res|]|e]; [| |discriminate].
  - destruct Hres as [answer [front [reply [-> [Hmap Hitems]]]]].
    intros [= <- <- _]. exists items. cbn [iterations Nat.add] in *.
    split; [reflexivity | split; [reflexivity | split; [exact Hmap
      | split; [exact Hlen|]]]].
    split; [reflexivity | split].
    + rewrite Hitems, length_app. cbn. lia.
    + exists front, reply. exact Hitems.
  - destruct Hres as [Hl Hmap].
    cbn [agent_id history max_iterations set_history].
    intros [= <- <- _]. exists items. cbn [iterations].
    split; [reflexivity | split; [exact Hl | split; [exact Hmap
      | split; [lia | repeat split]]]].
Qed.

(** X9. For a run that returns, whatever the task object, the
    iteration count of the result is the number of records the run
    appended to the history, numbered from 1, and is at most the
    budget.  A [complete] result counts at least one iteration, and the
    last record holds its answer; a [max_iterations] result counts the
    whole budget and carries the last three records of the history.
    The result bears the agent's id; the agent's id, model and budget
    are left as they were. *)
Theorem run_counts_its_records {W : Type} {world : World W}
    (task : json) (a : AgentWorker) (w : W)
    (result : Result) (a' : AgentWorker) (w' : W) :
  run task a w = (Ok result, a', w') ->
  exists items,
    a' = set_history a (history a ++ items)
    /\ List.length items = iterations result
    /\ map iteration items = seq 1 (iterations result)
    /\ iterations result <= max_iterations a
    /\ match result with
       | Complete id answer k =>
           id = agent_id a /\ 1 <= k
           /\ exists front reply,
                items = front ++ [ {| iteration := k; response := reply;
                                      parsed := PAnswer answer |} ]
       | MaxIterations id trace k =>
           id = agent_id a /\ k = max_iterations a
           /\ trace = last_n 3 (history a ++ items)
       | AgentError _ _ => False
       end.
Proof. exact (run_accounting task a w result a' w'). Qed.

Lemma run_counts_its_records_witness :
  let a := set_max_iterations (init "tester-smollm2" "ai/smollm2") 3 in
  let items :=
    [ {| iteration := 1;
         response := lit "TOOL: run_command" ++ NL ++ lit "ARGS: {}";
         parsed := PTool "run_command" (JDict []) |};
      {| iteration := 2; response := "ANSWER: done";
         parsed := PAnswer "done" |} ] in
  @run _ scripted_world VerifyModels.verify_task a 0
  = (Ok (Complete "tester-smollm2" "done" 2), set_history a items, 2)
  /\ exists items',
       set_history a items = set_history a (history a ++ items')
       /\ List.length items' = 2
       /\ map iteration items' = seq 1 2
       /\ 2 <= max_iterations a
       /\ lit "tester-smollm2" = agent_id a /\ 1 <= 2
       /\ exists front reply,
            items' = front ++ [ {| iteration := 2; response := reply;
                                   parsed := PAnswer "done" |} ].
Proof.
  assert (E : @run _ scripted_world VerifyModels.verify_task
                (set_max_iterations (init "tester-smollm2" "ai/smollm2") 3) 0
              = (Ok (Complete "tester-smollm2" "done" 2),
                 set_history (set_max_iterations (init "tester-smollm2" "ai/smollm2") 3)
                   [ {| iteration := 1;
                        response := lit "TOOL: run_command" ++ NL ++ lit "ARGS: {}";
                        parsed := PTool "run_command" (JDict []) |};
                     {| iteration := 2; response := "ANSWER: done";
                        parsed := PAnswer "done" |} ], 2))
    by (vm_compute; reflexivity).
  split; [exact E|].
  exact (@run_counts_its_records _ scripted_world VerifyModels.verify_task
           _ 0 _ _ _ E).
Defined.
(** X10. Whenever the first-turn override has a response for a task,
    that response parses into a call of [docker_ps] or [get_pods] with
    no arguments, or of [list_files] on the current directory. *)
Theorem forced_response_is_a_tool_call {console : Console} (task forced : str) :
  forced_response task = Some forced ->
  Agent.parse_response forced = Ok (PTool "docker_ps" (JDict []))
  \/ Agent.parse_response forced = Ok (PTool "get_pods" (JDict []))
  \/ Agent.parse_response forced
     = Ok (PTool "list_files" (JDict [(lit "path", JStr ".")])).
Proof.
  unfold forced_response.
  repeat match goal with
         | |- context [if ?b then _ else _] => destruct b
         end; intros [= <-];
    first [ left; reflexivity
          | right; left; reflexivity
          | right; right; reflexivity ].
Qed.

Lemma forced_response_is_a_tool_call_witness :
  forced_response "List the files here"
  = Some (lit "TOOL: list_files" ++ NL ++ lit "ARGS: {" ++ quoted "path"
          ++ lit ": " ++ quoted "." ++ lit "}")
  /\ (Agent.parse_response
        (lit "TOOL: list_files" ++ NL ++ lit "ARGS: {" ++ quoted "path"
         ++ lit ": " ++ quoted "." ++ lit "}")
      = Ok (PTool "docker_ps" (JDict []))
      \/ Agent.parse_response
           (lit "TOOL: list_files" ++ NL ++ lit "ARGS: {" ++ quoted "path"
            ++ lit ": " ++ quoted "." ++ lit "}")
         = Ok (PTool "get_pods" (JDict []))
      \/ Agent.parse_response
           (lit "TOOL: list_files" ++ NL ++ lit "ARGS: {" ++ quoted "path"
            ++ lit ": " ++ quoted "." ++ lit "}")
         = Ok (PTool "list_files" (JDict [(lit "path", JStr ".")]))).
Proof.
  split; [reflexivity|].
  apply (forced_response_is_a_tool_call "List the files here"). reflexivity.
Defined.

(** ** [execute_tool] of [agent.py] *)

(** X11. [execute_tool] looks the tool up by its lower-cased, trimmed
    name: a name and its normal form run the same tool. *)
Theorem tool_name_is_normalised {W : Type} {world : World W}
    (tool : str) (args : json) (w : W) :
  execute_tool tool args w = execute_tool (Py.strip (Py.lower tool)) args w.
Proof. unfold execute_tool. now rewrite normalise_idem. Qed.

(** X12. A tool name of Latin-1 text that has no branch in
    [execute_tool] is answered with the text [Unknown tool:] and the
    normalised name, and nothing is run: the outside world is left as
    it was. *)
Theorem unknown_tool_is_reported {W : Type} {world : World W}
    (tool : str) (args : json) (w : W) :
  Py.latin1 tool = true ->
  ~ In (Py.strip (Py.lower tool)) known_tools ->
  execute_tool tool args w
  = (Ok (lit "Unknown tool: " ++ Py.strip (Py.lower tool)), w).
Proof.
  intros _ Hn. unfold execute_tool, dispatch.
  set (name := Py.strip (Py.lower tool)) in *.
  assert (Hf : forall x, In x known_tools -> str_eqb name x = false).
  { intros x Hx. destruct (str_eqb name x) eqn:E; [|reflexivity].
    apply str_eqb_eq in E. now subst x. }
  repeat match goal with
         | |- context [str_eqb name ?x] => rewrite (Hf x) by (cbn; tauto)
         end.
  reflexivity.
Qed.

Lemma unknown_tool_is_reported_witness :
  Py.latin1 " Git_Diff " = true
  /\ ~ In (Py.strip (Py.lower " Git_Diff ")) known_tools
  /\ @execute_tool _ (constant_world "ok") " Git_Diff " (JDict []) tt
     = (Ok (lit "Unknown tool: " ++ Py.strip (Py.lower " Git_Diff ")), tt).
Proof.
  assert (Hn : ~ In (Py.strip (Py.lower " Git_Diff ")) known_tools).
  { cbn. intros H.
    repeat (destruct H as [H|H]; [discriminate H|]). exact H. }
  split; [reflexivity | split; [exact Hn|]].
  exact (@unknown_tool_is_reported _ (constant_world "ok") " Git_Diff "
           (JDict []) tt eq_refl Hn).
Defined.

(** X13. Apart from [docker_ps] and [run_command], every known tool
    reads its arguments from a dict: with arguments of another shape
    the tool is not run, the outside world is left as it was, and the
    text returned reports the exception. *)
Theorem arguments_must_be_a_dict {W : Type} {world : World W}
    (tool : str) (args : json) (w : W) :
  In (Py.strip (Py.lower tool)) known_tools ->
  Py.strip (Py.lower tool) <> lit "docker_ps" ->
  Py.strip (Py.lower tool) <> lit "run_command" ->
  (forall d, args <> JDict d) ->
  exists e,
    execute_tool tool args w = (Ok (lit "Exception executing tool: " ++ e), w).
Proof.
  intros Hin Hps Hrc Hargs. unfold execute_tool.
  set (name := Py.strip (Py.lower tool)) in *.
  exists (lit "object has no attribute 'get'").
  cbn in Hin.
  repeat (destruct Hin as [E|Hin];
          [ first [ now elim Hps | now elim Hrc
                  | rewrite <- E; destruct args as [| | | | | |d];
                    first [ now elim (Hargs d) | reflexivity ] ] | ]).
  contradiction.
Qed.

Lemma arguments_must_be_a_dict_witness :
  In (Py.strip (Py.lower "read_file")) known_tools
  /\ Py.strip (Py.lower "read_file") <> lit "docker_ps"
  /\ Py.strip (Py.lower "read_file") <> lit "run_command"
  /\ (forall d, JList [JStr "notes.txt"] <> JDict d)
  /\ exists e,
       @execute_tool _ (constant_world "ok") "read_file"
         (JList [JStr "notes.txt"]) tt
       = (Ok (lit "Exception executing tool: " ++ e), tt).
Proof.
  assert (Hin : In (Py.strip (Py.lower "read_file")) known_tools)
    by (cbn; tauto).
  assert (H1 : Py.strip (Py.lower "read_file") <> lit "docker_ps")
    by discriminate.
  assert (H2 : Py.strip (Py.lower "read_file") <> lit "run_command")
    by discriminate.
  assert (H3 : forall d, JList [JStr "notes.txt"] <> JDict d)
    by discriminate.
  split; [exact Hin | split; [exact H1 | split; [exact H2 | split; [exact H3|]]]].
  exact (@arguments_must_be_a_dict _ (constant_world "ok") "read_file"
           (JList [JStr "notes.txt"]) tt Hin H1 H2 H3).
Defined.

(** ** The loop of [agent_fixed.py] *)

Section FixedFacts.

Context {W : Type} {world : World W}.

Variable raw_fallback : str -> option Parsed.

Lemma strip_nil_all_space (s : str) :
  Py.strip s = [] -> forallb Py.is_space s = true.
Proof.
  assert (Hl : forall x, Py.lstrip x = [] -> forallb Py.is_space x = true).
  { induction x as [|c x IH]; cbn; [reflexivity|].
    destruct (Py.is_space c); [exact IH | discriminate]. }
  unfold Py.strip, Py.rstrip. intros E.
  assert (E1 : Py.lstrip (rev (Py.lstrip s)) = []).
  { rewrite <- (rev_involutive (Py.lstrip (rev (Py.lstrip s)))), E.
    reflexivity. }
  apply Hl in E1.
  assert (E2 : Py.lstrip s = []).
  { pose proof (lstrip_head s) as Hh.
    destruct (Py.lstrip s) as [|c l]; [reflexivity|].
    rewrite forallb_forall in E1.
    specialize (E1 c). rewrite E1 in Hh; [discriminate|].
    apply -> in_rev. now left. }
  now apply Hl.
Qed.

Lemma not_blank (c : char) (s : str) :
  Py.is_space c = false -> Py.strip (c :: s) <> [].
Proof.
  intros Hc E. apply strip_nil_all_space in E. cbn in E.
  rewrite Hc in E. discriminate.
Qed.

Lemma fixed_execute_tool_returns (tool : str) (args : json) (w : W) :
  exists out w',
    AgentFixed.execute_tool tool args w = (Ok out, w') /\ Py.strip out <> [].
Proof.
  unfold AgentFixed.execute_tool.
  destruct (AgentFixed.dispatch _ args) as [[[method actuals]|]|e]; cbn [try_except].
  - destruct (mcp method actuals w) as [[result|e] w']; cbn [try_except].
    + do 2 eexists. split; [reflexivity|].
      destruct (success result).
      * destruct (Py.strip (firstn 2000 (stdout result))) eqn:E;
          [now apply (not_blank 40%N) | rewrite E; discriminate].
      * now apply (not_blank 84%N).
    + do 2 eexists. split; [reflexivity | now apply (not_blank 69%N)].
  - do 2 eexists. split; [reflexivity | now apply (not_blank 85%N)].
  - do 2 eexists. split; [reflexivity | now apply (not_blank 69%N)].
Qed.

(** One iteration appends one record, unless an exception comes
    first; it returns only to answer. *)
Lemma fixed_iterate_spec (i : nat) (messages : list Message) (a : AgentWorker) (w : W) :
  exists r items w',
    AgentFixed.iterate raw_fallback i messages a w
    = (r, set_history a (history a ++ items), w')
    /\ match r with
       | Raise _ => items = [] \/ exists item, items = [item]
       | Ok (inl result) =>
           exists answer item,
             result = Complete (agent_id a) answer (i + 1) /\ items = [item]
       | Ok (inr _) => exists item, items = [item]
       end.
Proof.
  unfold AgentFixed.iterate.
  destruct (@print console (iteration_line a i)) as [u|e].
  2:{ exists (Raise e), [], w. rewrite app_nil_r, set_history_id. now split; [|left]. }
  destruct (query_llm (model a) messages w) as [reply w1].
  destruct (AgentFixed.read_reply raw_fallback a reply) as [[response parsed]|e].
  2:{ exists (Raise e), [], w1. rewrite app_nil_r, set_history_id. now split; [|left]. }
  set (item := {| iteration := i + 1; response := response; parsed := parsed |}).
  change (record a item) with (set_history a (history a ++ [item])).
  cbn [agent_id set_history].
  destruct parsed as [tool args| answer | thought | err].
  - destruct (AgentFixed.execute_tool tool args w1) as [[out|e] w2].
    + destruct (@print console _) as [u'|e].
      * eexists (Ok (inr _)), [item], w2. split; [reflexivity | eauto].
      * exists (Raise e), [item], w2. split; [reflexivity | right; eauto].
    + exists (Raise e), [item], w2. split; [reflexivity | right; eauto].
  - eexists (Ok (inl _)), [item], w1. split; [reflexivity | eauto].
  - eexists (Ok (inr _)), [item], w1. split; [reflexivity | eauto].
  - eexists (Ok (inr _)), [item], w1. split; [reflexivity | eauto].
Qed.

Lemma fixed_run_loop_spec (n : nat) :
  forall i messages a (w : W),
  exists r items w',
    AgentFixed.run_loop raw_fallback n i messages a w
    = (r, set_history a (history a ++ items), w')
    /\ List.length items <= n
    /\ match r with
       | Raise _ => True
       | Ok None => List.length items = n
       | Ok (Some result) =>
           exists answer,
             result = Complete (agent_id a) answer (i + List.length items)
             /\ 1 <= List.length items
       end.
Proof.
  induction n as [|n IH]; intros i messages a w.
  - exists (Ok None), [], w. cbn. now rewrite app_nil_r, set_history_id.
  - cbn [AgentFixed.run_loop].
    destruct (fixed_iterate_spec i messages a w) as [r [items [w1 [Hit Hshape]]]].
    rewrite Hit. destruct r as [[result|ms]|e].
    + destruct Hshape as [answer [item [-> ->]]].
      exists (Ok (Some (Complete (agent_id a) answer (i + 1)))), [item], w1.
      split; [reflexivity | split; [cbn; lia|]].
      exists answer. cbn. split; [reflexivity | lia].
    + destruct Hshape as [item ->].
      destruct (IH (i + 1) ms (set_history a (history a ++ [item])) w1)
        as [r' [items' [w' [Hr [Hlen Hres]]]]].
      exists r', (item :: items'), w'. rewrite Hr.
      cbn [history set_history agent_id] in *.
      split; [now rewrite <- app_assoc | split; [cbn; lia|]].
      destruct r' as [[result|]|e]; [| cbn; lia | exact I].
      destruct Hres as [answer [-> L]]. exists answer. cbn [List.length].
      split; [f_equal; lia | lia].
    + exists (Raise e), items, w1. split; [reflexivity | split; [|exact I]].
      destruct Hshape as [-> | [item ->]]; cbn; lia.
Qed.

Lemma fixed_run_accounting (task : str) (a : AgentWorker) (w : W)
    (result : Result) (a' : AgentWorker) (w' : W) :
  AgentFixed.run raw_fallback task a w = (Ok result, a', w') ->
  exists items,
    a' = set_history a (history a ++ items)
    /\ (status result = lit "complete" \/ status result = lit "max_iterations")
    /\ List.length items = iterations result
    /\ iterations result <= max_iterations a.
Proof.
  unfold AgentFixed.run.
  destruct (@print console (start_line a (JStr task))); [|discriminate].
  destruct (fixed_run_loop_spec (max_iterations a) 0
              (AgentFixed.initial_messages task) a w)
    as [r [items [w1 [Hr [Hlen Hres]]]]].
  rewrite Hr. destruct r as [[res|]|e]; [| |discriminate].
  - destruct Hres as [answer [-> L]]. intros [= <- <- _].
    exists items. cbn. split; [reflexivity | split; [now left | lia]].
  - cbn [agent_id history max_iterations set_history].
    intros [= <- <- _]. exists items. cbn.
    split; [reflexivity | split; [now right | lia]].
Qed.

End FixedFacts.

(** X14. In [agent_fixed.py] the text [execute_tool] returns is never
    blank: an output that is empty or all white space is replaced by
    [(empty output)], and no exception leaves the function. *)
Theorem fixed_tool_feedback_never_blank {W : Type} {world : World W}
    (tool : str) (args : json) (w : W) :
  exists out w',
    AgentFixed.execute_tool tool args w = (Ok out, w') /\ Py.strip out <> [].
Proof. exact (fixed_execute_tool_returns tool args w). Qed.

(** X15. In [agent_fixed.py], with a positive budget and a console that
    can show ASCII, the agent's id, the task and the first 200
    characters of the reply, a first reply that is a text with an
    [ANSWER:] marker ends the run at once for every task, even when
    the reply also holds a [TOOL:] marker: the status is [complete],
    the iteration count 1, no tool is run, and one record is added to
    the history. *)
Theorem fixed_run_answers_at_once {W : Type} {world : World W}
    (raw_fallback : str -> option Parsed) (task : str) (a : AgentWorker) (w : W)
    (s : str) :
  0 < max_iterations a ->
  fst (query_llm (model a) (AgentFixed.initial_messages task) w) = JStr s ->
  Py.contains "ANSWER:" s = true ->
  has_ascii = true ->
  encodable (agent_id a) = true ->
  encodable task = true ->
  encodable (firstn 200 s) = true ->
  exists answer,
    AgentFixed.run raw_fallback task a w
    = (Ok (Complete (agent_id a) answer 1),
       record a {| iteration := 1; response := s; parsed := PAnswer answer |},
       snd (query_llm (model a) (AgentFixed.initial_messages task) w)).
Proof.
  intros Hn Hq Ha Hascii Hid Htask Hs. unfold AgentFixed.run.
  assert (Hl : forall x : str, forallb (fun c => (c <? 128)%N) x = true ->
                               encodable x = true)
    by (intros x; apply encodable_ascii, Hascii).
  rewrite print_ok; [|exact Hascii|].
  2:{ unfold start_line. cbn [to_text]. rewrite !encodable_app, Hid, Htask.
      rewrite !Hl by reflexivity. reflexivity. }
  destruct (max_iterations a) as [|n] eqn:Hmax; [lia|].
  cbn [AgentFixed.run_loop]. unfold AgentFixed.iterate.
  rewrite print_ok; [|exact Hascii|].
  2:{ unfold iteration_line. rewrite !encodable_app, Hid.
      rewrite !encodable_str_of_nat by exact Hascii.
      rewrite !Hl by reflexivity. reflexivity. }
  destruct (query_llm (model a) (AgentFixed.initial_messages task) w) as [r w1].
  cbn [fst snd] in *. subst r.
  unfold AgentFixed.read_reply. cbn [py_slice bind].
  rewrite print_ok; [|exact Hascii|].
  2:{ unfold reply_line. cbn [to_text]. rewrite !encodable_app, Hid, Hs.
      rewrite !Hl by reflexivity. reflexivity. }
  cbn [bind].
  destruct (@fixed_answer_marker_first console raw_fallback s Ha) as [after [_ E]].
  rewrite E. cbn [bind]. exists (Py.strip after). reflexivity.
Qed.

Lemma fixed_run_answers_at_once_witness :
  let a := init "test-agent" "ai/llama3.2" in
  let reply := lit "TOOL: docker_ps ANSWER: 42" in
  let world := constant_world (JStr reply) in
  0 < max_iterations a
  /\ fst (@query_llm _ world (model a)
            (AgentFixed.initial_messages "Check docker container status") tt)
     = JStr reply
  /\ Py.contains "ANSWER:" reply = true
  /\ @has_ascii utf8_console = true
  /\ @encodable utf8_console (agent_id a) = true
  /\ @encodable utf8_console "Check docker container status" = true
  /\ @encodable utf8_console (firstn 200 reply) = true
  /\ exists answer,
       @AgentFixed.run _ world (fun _ => None)
         "Check docker container status" a tt
       = (Ok (Complete (agent_id a) answer 1),
          record a {| iteration := 1; response := reply;
                      parsed := PAnswer answer |},
          snd (@query_llm _ world (model a)
                 (AgentFixed.initial_messages "Check docker container status") tt)).
Proof.
  split; [cbn; lia | split; [reflexivity | split; [reflexivity
    | split; [reflexivity | split; [reflexivity | split; [reflexivity
    | split; [reflexivity|]]]]]]].
  apply (@fixed_run_answers_at_once _
           (constant_world (JStr "TOOL: docker_ps ANSWER: 42"))
           (fun _ => None) "Check docker container status"
           (init "test-agent" "ai/llama3.2") tt
           (lit "TOOL: docker_ps ANSWER: 42")); try reflexivity.
  cbn; lia.
Defined.

(** X16. For a run of [agent_fixed.py] that returns, the result is a
    [complete] or [max_iterations] result whose iteration count is the
    number of records the run appended to the history, at most the
    budget. *)
Theorem fixed_run_counts_its_records {W : Type} {world : World W}
    (raw_fallback : str -> option Parsed) (task : str) (a : AgentWorker) (w : W)
    (result : Result) (a' : AgentWorker) (w' : W) :
  AgentFixed.run raw_fallback task a w = (Ok result, a', w') ->
  exists items,
    a' = set_history a (history a ++ items)
    /\ (status result = lit "complete" \/ status result = lit "max_iterations")
    /\ List.length items = iterations result
    /\ iterations result <= max_iterations a.
Proof. exact (fixed_run_accounting raw_fallback task a w result a' w'). Qed.

Lemma fixed_run_counts_its_records_witness :
  let a := set_max_iterations (init "test-agent" "ai/llama3.2") 2 in
  let reply := lit "TOOL: docker_ps" ++ NL ++ lit "ARGS: {}" in
  let item k := {| iteration := k; response := reply;
                   parsed := PTool "docker_ps" (JDict []) |} in
  @AgentFixed.run _ (constant_world (JStr reply)) (fun _ => None)
    "Is Docker running?" a tt
  = (Ok (MaxIterations "test-agent" [item 1; item 2] 2),
     set_history a [item 1; item 2], tt)
  /\ exists items,
       set_history a [item 1; item 2] = set_history a (history a ++ items)
       /\ (status (MaxIterations "test-agent" [item 1; item 2] 2) = lit "complete"
           \/ status (MaxIterations "test-agent" [item 1; item 2] 2)
              = lit "max_iterations")
       /\ List.length items
          = iterations (MaxIterations "test-agent" [item 1; item 2] 2)
       /\ iterations (MaxIterations "test-agent" [item 1; item 2] 2)
          <= max_iterations a.
Proof.
  cbv zeta.
  match goal with
  | |- ?E /\ _ => assert (H : E) by (vm_compute; reflexivity)
  end.
  split; [exact H|].
  exact (@fixed_run_counts_its_records _ _ _ _ _ _ _ _ _ H).
Defined.

(** ** Decomposition and agent start of the orchestrator *)

Section DecomposeFacts.

Import Orchestrator.

Lemma read_subtasks_payload (max_workers : Z) (response : str) :
  read_subtasks max_workers response
  = (subtasks <- Json.loads (payload response) ;;
     match subtasks with
     | JList l => Ok (Some (slice_to max_workers l))
     | _ => Ok None
     end).
Proof.
  unfold read_subtasks, payload.
  destruct (Py.contains "```" response) eqn:Hc.
  - destruct (text_after_contains "```" response Hc) as [t Ht]. rewrite Ht.
    assert (Hi : index (Py.split "```" None response) 1
                 = Ok (text_before "```" t)).
    { unfold Py.split. now apply (@split_second_piece 96%N (lit "``")). }
    rewrite Hi. reflexivity.
  - now rewrite (text_after_none "```" response Hc).
Qed.

Lemma decompose_reads_payload_aux {W : Type} {llm : Llm W}
    (max_workers : Z) (task : str) (w : W) :
  decompose_task max_workers task w
  = (match Json.loads
             (payload (fst (_query_llm
                              (lit "Decompose this task into parallel subtasks:"
                               ++ NL ++ NL ++ task) decompose_system w))) with
     | Ok (JList l) => slice_to max_workers l
     | _ => [JStr task]
     end,
     snd (_query_llm
            (lit "Decompose this task into parallel subtasks:" ++ NL ++ NL ++ task)
            decompose_system w)).
Proof.
  unfold decompose_task.
  destruct (_query_llm _ decompose_system w) as [reply w']. cbn [fst snd].
  rewrite read_subtasks_payload.
  destruct (Json.loads (payload reply)) as [v|e]; [|reflexivity].
  destruct v; reflexivity.
Qed.

Lemma slice_to_length {A : Type} (n : Z) (l : list A) :
  (0 <= n)%Z -> List.length (slice_to n l) <= Z.to_nat n.
Proof.
  intros Hn. unfold slice_to. destruct (Z.leb_spec 0 n); [|lia].
  rewrite length_firstn. lia.
Qed.

End DecomposeFacts.

Import Orchestrator.

(** X17. [decompose_task] makes one query and decodes the payload of
    the reply: with a code fence, the text between the first fence and
    the next, less a leading [json]; the whole reply otherwise.  For a
    payload that opens at most 100 brackets, which keeps the decoder
    within the recursion limit of the interpreter: when the payload
    is a JSON array the subtasks are its items cut to [max_workers];
    in every other case, a decoding error included (an integer of more
    than 4300 digits is one), the only subtask is the task itself. *)
Theorem decompose_reads_payload {W : Type} {llm : Llm W}
    (max_workers : Z) (task : str) (w : W) :
  open_brackets
    (payload (fst (_query_llm
                     (lit "Decompose this task into parallel subtasks:"
                      ++ NL ++ NL ++ task) decompose_system w))) <= 100 ->
  decompose_task max_workers task w
  = (match Json.loads
             (payload (fst (_query_llm
                              (lit "Decompose this task into parallel subtasks:"
                               ++ NL ++ NL ++ task) decompose_system w))) with
     | Ok (JList l) => slice_to max_workers l
     | _ => [JStr task]
     end,
     snd (_query_llm
            (lit "Decompose this task into parallel subtasks:" ++ NL ++ NL ++ task)
            decompose_system w)).
Proof. intros _. exact (decompose_reads_payload_aux max_workers task w). Qed.

Lemma decompose_reads_payload_witness :
  let llm := constant_llm (lit "Here you go: ```json" ++ NL
                           ++ lit "[1, [2], 3]" ++ NL ++ lit "``` and more") in
  let reply := fst (@_query_llm _ llm
                      (lit "Decompose this task into parallel subtasks:"
                       ++ NL ++ NL ++ lit "count to three")
                      decompose_system tt) in
  open_brackets (payload reply) <= 100
  /\ payload reply = lit "[1, [2], 3]"
  /\ @decompose_task _ llm 2 "count to three" tt
     = (match Json.loads (payload reply) with
        | Ok (JList l) => slice_to 2 l
        | _ => [JStr "count to three"]
        end, tt)
  /\ @decompose_task _ llm 2 "count to three" tt
     = ([JInt 1; JList [JInt 2]], tt).
Proof.
  assert (H : open_brackets (lit "[1, [2], 3]") <= 100) by (cbn; lia).
  split; [exact H | split; [reflexivity | split; [|reflexivity]]].
  exact (@decompose_reads_payload _
           (constant_llm (lit "Here you go: ```json" ++ NL
                          ++ lit "[1, [2], 3]" ++ NL ++ lit "``` and more"))
           2 "count to three" tt H).
Defined.

(** X18. With at least one worker, [decompose_task] never returns more
    subtasks than there are workers. *)
Theorem decompose_within_workers {W : Type} {llm : Llm W}
    (max_workers : Z) (task : str) (w : W) :
  (1 <= max_workers)%Z ->
  List.length (fst (decompose_task max_workers task w)) <= Z.to_nat max_workers.
Proof.
  intros Hw. rewrite decompose_reads_payload_aux. cbn [fst].
  destruct (Json.loads _) as [v|e]; [|cbn; lia].
  destruct v; try (cbn; lia). apply slice_to_length. lia.
Qed.

Lemma decompose_within_workers_witness :
  (1 <= 2)%Z
  /\ List.length
       (fst (@decompose_task _
               (constant_llm (lit "```json" ++ NL ++ lit "[1, 2, 3]" ++ NL ++ lit "```"))
               2 "count to three" tt))
     <= Z.to_nat 2.
Proof.
  split; [lia|].
  apply (@decompose_within_workers _
           (constant_llm (lit "```json" ++ NL ++ lit "[1, 2, 3]" ++ NL ++ lit "```"))
           2 "count to three" tt).
  lia.
Defined.

Example decompose_fenced :
  @decompose_task _
    (constant_llm (lit "Here you go: ```json" ++ NL ++ lit "[1, 2, 3]" ++ NL
                   ++ lit "``` and more"))
    2 "count to three" tt
  = ([JInt 1; JInt 2], tt).
Proof. reflexivity. Qed.

Example decompose_fallback :
  @decompose_task _ (constant_llm "I cannot split this.") 5 "deploy it" tt
  = ([JStr "deploy it"], tt).
Proof. reflexivity. Qed.


(** X19. [_run_agent] starts a new agent named after the subtask's
    index, so when it returns, whatever object the subtask is, its
    result speaks of this run alone: it bears the id [agent-i]; a
    [complete] result counts between 1 and 10 iterations; a
    [max_iterations] result counts 10 and its trace holds the records
    of iterations 8, 9 and 10. *)
Theorem run_agent_reports_its_own_run {W : Type} {world : World W}
    (model : str) (i : nat) (task : json) (w : W) (result : Result) (w' : W) :
  _run_agent model i task w = (Ok result, w') ->
  match result with
  | Complete id _ k => id = lit "agent-" ++ str_of_nat i /\ 1 <= k <= 10
  | MaxIterations id trace k =>
      id = lit "agent-" ++ str_of_nat i /\ k = 10
      /\ map iteration trace = [8; 9; 10]
  | AgentError _ _ => False
  end.
Proof.
  unfold _run_agent.
  set (a := init (lit "agent-" ++ str_of_nat i) model).
  destruct (run task a w) as [[r a1] w1] eqn:Hrun.
  intros [= -> ->].
  destruct (run_accounting task a w result a1 w' Hrun)
    as [items [_ [Hlen [Hmap [Hmax Hres]]]]].
  change (max_iterations a) with 10 in *.
  change (agent_id a) with (lit "agent-" ++ str_of_nat i) in *.
  change (history a) with (@nil HistoryItem) in *.
  destruct result as [id answer k | id trace k | answer k]; cbn [iterations] in *.
  - destruct Hres as [-> [Hk _]]. split; [reflexivity | lia].
  - destruct Hres as [-> [-> ->]]. split; [reflexivity | split; [reflexivity|]].
    cbn [app]. unfold last_n. rewrite <- skipn_map, Hmap, Hlen. reflexivity.
  - exact Hres.
Qed.

Lemma run_agent_reports_its_own_run_witness :
  @_run_agent _ scripted_world "ai/llama3.2" 2 (JStr "get pods") 0
  = (Ok (Complete "agent-2" "done" 2), 2)
  /\ lit "agent-2" = lit "agent-" ++ str_of_nat 2 /\ 1 <= 2 <= 10.
Proof.
  assert (E : @_run_agent _ scripted_world "ai/llama3.2" 2 (JStr "get pods") 0
              = (Ok (Complete "agent-2" "done" 2), 2)) by (vm_compute; reflexivity).
  split; [exact E|].
  exact (@run_agent_reports_its_own_run _ scripted_world "ai/llama3.2" 2
           (JStr "get pods") 0 _ _ E).
Defined.

(** A subtask that is not a string: the run goes through when the
    first reply holds a tool call, and raises at [task.lower()] when it
    does not. *)
Example run_agent_on_a_number :
  @_run_agent _ scripted_world "ai/llama3.2" 0 (JInt 1) 0
  = (Ok (Complete "agent-0" "done" 2), 2)
  /\ @_run_agent _ (constant_world (JStr "ANSWER: 42")) "ai/llama3.2" 0 (JInt 1) tt
     = (Raise (lit "object has no attribute 'lower'"), tt).
Proof. split; vm_compute; reflexivity. Qed.

(** A reply that is not a string: [None] cannot be searched for the
    marker, and the run raises. *)
Example run_on_a_null_reply :
  fst (fst (@run _ (constant_world JNull) "What time is it?"
              (init "cli-agent" "lfm2-1.2b") tt))
  = Raise (lit "argument is not iterable").
Proof. vm_compute; reflexivity. Qed.

(** A task the console cannot show: the run raises at its first
    line. *)
Example run_on_an_unprintable_task :
  fst (fst (@run _ (constant_world (JStr "ANSWER: 42"))
              (JStr (lit "caf" ++ [56553%N]))
              (init "cli-agent" "lfm2-1.2b") tt))
  = Raise (lit "codec can't encode character").
Proof. vm_compute; reflexivity. Qed.

(** X20. When [verify_model] passes a model, the run ended with an
    answer at the second or third iteration, after a call of
    [run_command] earlier in the same run. *)
Theorem verified_model_ran_a_command {W : Type} {world : World W}
    (model_name : str) (w w' : W) :
  VerifyModels.verify_model model_name w = (Ok true, w') ->
  exists id answer k items,
    fst (fst (run VerifyModels.verify_task
                (set_max_iterations (init id model_name) 3) w))
    = Ok (Complete id answer k)
    /\ 2 <= k <= 3
    /\ history (snd (fst (run VerifyModels.verify_task
                            (set_max_iterations (init id model_name) 3) w)))
       = items
    /\ List.length items = k
    /\ existsb calls_run_command (removelast items) = true.
Proof.
  unfold VerifyModels.verify_model.
  destruct (print (VerifyModels.testing_line model_name)) as [u|e];
    [|discriminate].
  cbn [bind].
  assert (H0 : index (Py.split ":" None model_name) 0
               = Ok (before_char 58%N model_name))
    by apply index_split_open.
  rewrite H0. cbn [bind].
  destruct (VerifyModels.last_item
              (Py.split "/" None (before_char 58%N model_name)))
    as [short|e]; [|discriminate].
  set (a := set_max_iterations (init (lit "tester-" ++ short) model_name) 3).
  destruct (run VerifyModels.verify_task a w) as [[r a1] w1] eqn:Hrun.
  destruct r as [result|e]; [|discriminate].
  destruct (run_accounting VerifyModels.verify_task a w result a1 w1 Hrun)
    as [items [Ha1 [Hlen [Hmap [Hmax Hres]]]]].
  change (max_iterations a) with 3 in *.
  change (agent_id a) with (lit "tester-" ++ short) in *.
  change (history a) with (@nil HistoryItem) in *.
  cbn [app] in *.
  destruct result as [id answer k | id trace k | answer k];
    cbn [status iterations] in *.
  - replace (str_eqb "complete" "complete") with true by reflexivity.
    destruct (print _); [|discriminate]. intros [= Hpass _].
    destruct Hres as [-> [Hk [front [reply Hitems]]]].
    exists (lit "tester-" ++ short), answer, k, items.
    subst a1. cbn [history set_history] in *.
    assert (Hf : existsb calls_run_command front = true).
    { rewrite Hitems, existsb_app in Hpass.
      cbn [existsb calls_run_command parsed] in Hpass.
      now rewrite !orb_false_r in Hpass. }
    change (set_max_iterations (init (lit "tester-" ++ short) model_name) 3)
      with a.
    rewrite Hrun. cbn [fst snd history set_history].
    split; [reflexivity | split; [|split; [reflexivity | split; [exact Hlen|]]]].
    + split; [|exact Hmax]. rewrite <- Hlen, Hitems, length_app.
      cbn [List.length]. destruct front; [discriminate Hf | cbn [List.length]; lia].
    + rewrite Hitems. now rewrite removelast_last.
  - replace (str_eqb "max_iterations" "complete") with false by reflexivity.
    destruct (print _); discriminate.
  - contradiction.
Qed.

Lemma verified_model_ran_a_command_witness :
  @VerifyModels.verify_model _ scripted_world "ai/smollm2:latest" 0 = (Ok true, 2)
  /\ exists id answer k items,
       fst (fst (@run _ scripted_world VerifyModels.verify_task
                   (set_max_iterations (init id "ai/smollm2:latest") 3) 0))
       = Ok (Complete id answer k)
       /\ 2 <= k <= 3
       /\ history (snd (fst (@run _ scripted_world VerifyModels.verify_task
                               (set_max_iterations (init id "ai/smollm2:latest") 3) 0)))
          = items
       /\ List.length items = k
       /\ existsb calls_run_command (removelast items) = true.
Proof.
  assert (E' : @VerifyModels.verify_model _ scripted_world "ai/smollm2:latest" 0
               = (Ok true, 2)) by (vm_compute; reflexivity).
  split; [exact E'|].
  exact (@verified_model_ran_a_command _ scripted_world "ai/smollm2:latest" 0 2 E').
Defined.
